(** * Scorecard: week calendar, weekly table renderer and histogram

    A shallow embedding of the week-bucketing and rendering code of the
    scorecard command-line tool (package [cmd]: the week helpers
    [getWeekStart], [getLastCompletedWeekStart], [getLastNWeeks],
    [weekStartToEnd], [formatWeekEnd]; the [weeklyTable] type with its
    print methods; [printHistogram] and [printTableGrouped]), together
    with the parts of Go's [time], [fmt] and [strings] packages that this
    code calls; and the commands built on them: the grouping, the JSON
    report and the paged requests of the applicants command, the
    incidents command, the active-users command and the stars
    command. *)

From Stdlib Require Import ZArith List String Ascii Lia Bool DecimalString DecimalN.
From Stdlib Require Import Floats.SpecFloat.
From Stdlib Require Import Sorted.
From Stdlib Require OrderedTypeEx DecimalFacts DecimalPos.
From stdpp Require Import gmap strings.

Local Open Scope Z_scope.

(** ** Go's [int]: 64-bit two's complement *)

Module GoInt.

Definition wrap (z : Z) : Z := (z + 2 ^ 63) mod 2 ^ 64 - 2 ^ 63.

Definition inRange (z : Z) : Prop := - 2 ^ 63 <= z < 2 ^ 63.

(** [a + b] on Go [int]s. *)
Definition add (a b : Z) : Z := wrap (a + b).

(** The value of a sequence of [total += x] statements, from [acc]. *)
Definition sumFrom (acc : Z) (xs : list Z) : Z := fold_left add xs acc.

End GoInt.

(** ** Decimal digits *)

Module Digits.

Definition digit (n : Z) : ascii := ascii_of_N (Z.to_N (48 + n)).

Definition isDigit (c : ascii) : bool :=
  let n := Z.of_N (N_of_ascii c) in (48 <=? n) && (n <=? 57).

Definition digitVal (c : ascii) : Z := Z.of_N (N_of_ascii c) - 48.

(** Decimal form of a natural number, without padding ([0] is ["0"]). *)
Definition decimal (n : Z) : string :=
  NilEmpty.string_of_uint (N.to_uint (Z.to_N n)).

Fixpoint repeat (s : string) (n : nat) : string :=
  match n with
  | O => EmptyString
  | S k => s +:+ repeat s k
  end.

End Digits.

(** ** Go's [time] package, as far as the week helpers use it *)

Module GoTime.
Import Digits.

(** A [time.Time]: the instant as seconds since the Unix epoch, and the
    offset east of UTC of its location.  The sub-second part is carried
    along unchanged by every operation below and never printed.  The
    seconds are a mathematical integer here and the calendar below is
    computed without wrap-around; [inGoRange] below gives the instants
    for which Go computes the same. *)
Record Time := mkTime { unixSec : Z; zoneOffset : Z }.

Definition secondsPerDay : Z := 86400.

(** [t.UTC()] *)
Definition UTC (t : Time) : Time := mkTime (unixSec t) 0.

(** Seconds on the wall clock of [t]'s location since 1970-01-01 00:00:00
    there. *)
Definition wallSec (t : Time) : Z := unixSec t + zoneOffset t.

(** Days since 1970-01-01 of the calendar day of [t] in its location. *)
Definition dayNumber (t : Time) : Z := wallSec t / secondsPerDay.

(** Seconds elapsed in the calendar day of [t]. *)
Definition clock (t : Time) : Z := wallSec t mod secondsPerDay.

(** [t.Weekday()]: Sunday = 0, ..., Saturday = 6.  1970-01-01 was a
    Thursday. *)
Definition Weekday (t : Time) : Z := (dayNumber t + 4) mod 7.

Definition isLeap (year : Z) : bool :=
  (year mod 4 =? 0) && (negb (year mod 100 =? 0) || (year mod 400 =? 0)).

(** Days of a non-leap year before the first of [month] (1..12). *)
Definition daysBefore (month : Z) : Z :=
  nth (Z.to_nat (month - 1))
      [0; 31; 59; 90; 120; 151; 181; 212; 243; 273; 304; 334; 365] 0.

Definition daysIn (month year : Z) : Z :=
  if (month =? 2) && isLeap year then 29
  else daysBefore (month + 1) - daysBefore month.

(** Days from 1970-01-01 to January 1st of [year]. *)
Definition daysSinceEpoch (year : Z) : Z :=
  let y := year - 1 in
  365 * y + y / 4 - y / 100 + y / 400 - 719162.

(** Day number of [time.Date(year, month, day, ...)]: the month overflows
    into the year, the day is an offset from the first of the month. *)
Definition dateToDays (year month day : Z) : Z :=
  let m0 := month - 1 in
  let year := year + m0 / 12 in
  let month := m0 mod 12 + 1 in
  daysSinceEpoch year + daysBefore month
  + (if isLeap year && (3 <=? month) then 1 else 0)
  + (day - 1).

(** [time.Date(year, month, day, 0, 0, sec, 0, loc)] for a location with
    the fixed offset [off]. *)
Definition Date (year month day sec off : Z) : Time :=
  mkTime (dateToDays year month day * secondsPerDay + sec - off) off.

(** Year, month and day of day number [z] (proleptic Gregorian calendar,
    computed over 400-year cycles that start on March 1st). *)
Definition civil (z : Z) : Z * Z * Z :=
  let z := z + 719468 in
  let era := z / 146097 in
  let doe := z mod 146097 in
  let yoe := (doe - doe / 1460 + doe / 36524 - doe / 146096) / 365 in
  let y := yoe + era * 400 in
  let doy := doe - (365 * yoe + yoe / 4 - yoe / 100) in
  let mp := (5 * doy + 2) / 153 in
  let d := doy - (153 * mp + 2) / 5 + 1 in
  let m := if mp <? 10 then mp + 3 else mp - 9 in
  (if m <=? 2 then y + 1 else y, m, d).

(** [t.Date()] *)
Definition dateOf (t : Time) : Z * Z * Z := civil (dayNumber t).

(** [t.AddDate(years, months, days)] *)
Definition AddDate (t : Time) (years months days : Z) : Time :=
  let '(y, m, d) := dateOf t in
  Date (y + years) (m + months) (d + days) (clock t) (zoneOffset t).

(** [appendInt(b, x, width)] of time/format.go: the decimal form of [x],
    zero-padded to [width] digits, after a minus sign when negative. *)
Definition appendInt (x width : Z) : string :=
  let u := Z.abs x in
  let sign := if x <? 0 then "-"%string else ""%string in
  let body :=
    if (width =? 2) && (u <? 100) then
      String (digit (u / 10)) (String (digit (u mod 10)) "")
    else if (width =? 4) && (u <? 10000) then
      String (digit (u / 1000))
        (String (digit (u / 100 mod 10))
           (String (digit (u / 10 mod 10)) (String (digit (u mod 10)) "")))
    else
      let ds := decimal u in
      repeat "0" (Z.to_nat (width - Z.of_nat (String.length ds))) +:+ ds in
  sign +:+ body.

Definition shortMonthName (month : Z) : string :=
  nth (Z.to_nat (month - 1))
      ["Jan"; "Feb"; "Mar"; "Apr"; "May"; "Jun";
       "Jul"; "Aug"; "Sep"; "Oct"; "Nov"; "Dec"]%string ""%string.

(** The three layouts the program formats times with. *)
Inductive Layout :=
| L_2006_01_02   (* "2006-01-02" *)
| L_Jan_02       (* "Jan 02" *)
| L_Jan.         (* "Jan" *)

(** [t.Format(layout)] *)
Definition Format (t : Time) (layout : Layout) : string :=
  let '(y, m, d) := dateOf t in
  match layout with
  | L_2006_01_02 => appendInt y 4 +:+ "-" +:+ appendInt m 2 +:+ "-" +:+ appendInt d 2
  | L_Jan_02 => shortMonthName m +:+ " " +:+ appendInt d 2
  | L_Jan => shortMonthName m
  end.

(** The zero [Time{}]: January 1, year 1, 00:00:00 UTC. *)
Definition zeroTime : Time := mkTime (-62135596800) 0.

(** The first instant that Go dates without wrap-around.  [Weekday],
    [Date] and [Format] work on unsigned 64-bit seconds since an
    "absolute" epoch, January 1 of the year -292277022399, which lies
    9223372028715321600 s before the Unix epoch (Go 1.23 moved the
    epoch 306 days further back); the seconds of an earlier instant
    wrap around there. *)
Definition goFloor : Z := -9223372028715321600.

(** The first instant that no [Time] holds: a [Time] keeps signed
    64-bit seconds since January 1 of the year 1, which is
    62135596800 s before the Unix epoch. *)
Definition goCeiling : Z := 2 ^ 63 - 62135596800.

(** Go holds the instant of [t], and dates it and every instant of the
    [back] days before it without wrap-around: on such instants the
    functions of this module compute what package [time] computes. *)
Definition inGoRange (back : Z) (t : Time) : Prop :=
  goFloor + back * secondsPerDay <= unixSec t < goCeiling.

(** [getnum(s, true)]: exactly two decimal digits. *)
Definition getnum2 (s : string) : option (Z * string) :=
  match s with
  | String a (String b rest) =>
      if isDigit a && isDigit b
      then Some (digitVal a * 10 + digitVal b, rest) else None
  | _ => None
  end.

(** The four-digit year of layout element "2006". *)
Definition getyear4 (s : string) : option (Z * string) :=
  match s with
  | String a (String b (String c (String d rest))) =>
      if isDigit a && isDigit b && isDigit c && isDigit d
      then Some (((digitVal a * 10 + digitVal b) * 10 + digitVal c) * 10
                 + digitVal d, rest)
      else None
  | _ => None
  end.

(** [skip(value, "-")] *)
Definition skipDash (s : string) : option string :=
  match s with
  | String c rest => if Ascii.eqb c "-" then Some rest else None
  | EmptyString => None
  end.

(** [time.Parse("2006-01-02", s)]; [None] stands for a non-nil error.
    The month must lie in 1..12, the day in the month's range, and no
    text may follow. The result is at midnight UTC. *)
Definition Parse_2006_01_02 (s : string) : option Time :=
  match getyear4 s with
  | None => None
  | Some (year, s) =>
  match skipDash s with
  | None => None
  | Some s =>
  match getnum2 s with
  | None => None
  | Some (month, s) =>
  if (month <=? 0) || (12 <? month) then None else
  match skipDash s with
  | None => None
  | Some s =>
  match getnum2 s with
  | None => None
  | Some (day, s) =>
  match s with
  | String _ _ => None
  | EmptyString =>
      if (day <? 1) || (daysIn month year <? day) then None
      else Some (Date year month day 0 0)
  end end end end end end.

(** [t, _ := time.Parse("2006-01-02", s)]: the error is dropped, and on
    an error [time.Parse] returns the zero [Time]. *)
Definition ParseIgnoringError (s : string) : Time :=
  match Parse_2006_01_02 s with
  | Some t => t
  | None => zeroTime
  end.

End GoTime.

(** ** The week helpers (package [cmd], week.go) *)

Module Week.
Import GoTime.

(** [getWeekStart(t)]: the Monday of the week containing [t]. *)
Definition getWeekStart (t : Time) : string :=
  let t := UTC t in
  let weekday := Weekday t in
  let weekday := if weekday =? 0 then 7 else weekday in
  let monday := AddDate t 0 0 (- (weekday - 1)) in
  Format monday L_2006_01_02.

(** [getLastCompletedWeekStart()], with the reading of [time.Now()] as
    argument. *)
Definition getLastCompletedWeekStart (timeNow : Time) : string :=
  let now := UTC timeNow in
  let weekday := Weekday now in
  let lastSunday :=
    if weekday =? 0 then AddDate now 0 0 (-7)
    else AddDate now 0 0 (- weekday) in
  let monday := AddDate lastSunday 0 0 (-6) in
  Format monday L_2006_01_02.

(** The loop of [getLastNWeeks]: iteration [i] stores the key of [t] at
    index [n-1-i] and moves [t] back by seven days. *)
Definition lastNWeeksStep (n : nat) (st : list string * Time) (i : nat)
  : list string * Time :=
  let '(weeks, t) := st in
  (<[ (n - 1 - i)%nat := Format t L_2006_01_02 ]> weeks, AddDate t 0 0 (-7)).

(** The longest [[]string] that [make] allocates: the runtime refuses
    more than 2^48 bytes on a 64-bit target, and a string header takes
    16. *)
Definition maxStrings : Z := 2 ^ 44.

(** [getLastNWeeks(n)]; [None] is the run-time panic of [make] on a
    length that is negative or beyond [maxStrings].  A machine whose
    memory gives out below that length stops the program as well, which
    is not modelled; the program asks for 4 and for 26 weeks. *)
Definition getLastNWeeks (timeNow : Time) (n : Z) : option (list string) :=
  let lastWeekStart := getLastCompletedWeekStart timeNow in
  let t := ParseIgnoringError lastWeekStart in
  if (n <? 0) || (maxStrings <? n) then None
  else
    let len := Z.to_nat n in
    let weeks := replicate len ""%string in
    Some (fst (fold_left (lastNWeeksStep len) (seq 0 len) (weeks, t))).

(** [getLast4Weeks()] and [getLast26Weeks()]: the length is a
    non-negative constant, so [make] cannot panic. *)
Definition getLast4Weeks (timeNow : Time) : list string :=
  default [] (getLastNWeeks timeNow 4).

Definition getLast26Weeks (timeNow : Time) : list string :=
  default [] (getLastNWeeks timeNow 26).

(** [weekStartToEnd(monday)] *)
Definition weekStartToEnd (monday : string) : string :=
  let t := ParseIgnoringError monday in
  let sunday := AddDate t 0 0 6 in
  Format sunday L_2006_01_02.

(** [formatWeekEnd(monday)] *)
Definition formatWeekEnd (monday : string) : string :=
  let t := ParseIgnoringError monday in
  let sunday := AddDate t 0 0 6 in
  Format sunday L_Jan_02.

(** Modelled from the spec: [getCurrentWeekStart()] is called by the
    report commands but its definition is not part of the sources at
    hand.  The spec defines the current week as "the week key containing
    now", that is, the week start of the clock reading. *)
Definition getCurrentWeekStart (timeNow : Time) : string :=
  getWeekStart timeNow.

End Week.

(** ** Go's [float64], on the IEEE 754 binary64 specification *)

Module GoFloat.

Definition prec : Z := 53.
Definition emax : Z := 1024.

(** [float64(z)] for an [int] [z]: rounded to nearest, ties to even. *)
Definition ofInt (z : Z) : spec_float := binary_normalize prec emax z 0 false.

Definition div (x y : spec_float) : spec_float := SFdiv prec emax x y.
Definition mul (x y : spec_float) : spec_float := SFmul prec emax x y.

(** [x >= y] *)
Definition geb (x y : spec_float) : bool :=
  match SFcompare x y with
  | Some Gt | Some Eq => true
  | _ => false
  end.

(** [int(f)]: the fraction is discarded (truncation towards zero).  For
    a value outside the range of [int], an infinity or a NaN the result
    is implementation-specific; amd64 yields the smallest [int]. *)
Definition toInt (f : spec_float) : Z :=
  match f with
  | S754_zero _ => 0
  | S754_finite s m e =>
      let mag := if 0 <=? e then Z.pos m * 2 ^ e else Z.pos m / 2 ^ (- e) in
      let v := if s then - mag else mag in
      if (- 2 ^ 63 <=? v) && (v <? 2 ^ 63) then v else - 2 ^ 63
  | _ => - 2 ^ 63
  end.

(** The verb [%.1f]: the exact value rounded to one decimal, ties to
    even. *)
Definition format1 (f : spec_float) : string :=
  match f with
  | S754_nan => "NaN"
  | S754_infinity s => if s then "-Inf" else "+Inf"
  | S754_zero s => (if s then "-" else "") +:+ "0.0"
  | S754_finite s m e =>
      let n := 10 * Z.pos m in
      let tenths :=
        if 0 <=? e then n * 2 ^ e
        else
          let d := 2 ^ (- e) in
          let q := n / d in
          let r := n mod d in
          if (d <? 2 * r) || ((d =? 2 * r) && Z.odd q) then q + 1 else q in
      (if s then "-" else "") +:+ Digits.decimal (tenths / 10) +:+ "."
        +:+ Digits.decimal (tenths mod 10)
  end.

End GoFloat.

(** ** Go's [fmt] verbs and [strings.Repeat], as far as the renderers use
    them *)

Module GoFmt.

(** The value of a byte. *)
Definition byteOf (c : ascii) : Z := Z.of_N (N_of_ascii c).

Definition between (lo hi : Z) (c : ascii) : bool :=
  (lo <=? byteOf c) && (byteOf c <=? hi).

(** The tables [first] and [acceptRanges] of unicode/utf8, for a byte
    from 128 on: the number of bytes that follow the byte in the
    encoding it starts, and the range of the first of them; [None] for
    a byte that starts no encoding (128..193 and 245..255). *)
Definition leadByte (c : ascii) : option (nat * Z * Z) :=
  let n := byteOf c in
  if (194 <=? n) && (n <=? 223) then Some (1%nat, 128, 191)
  else if n =? 224 then Some (2%nat, 160, 191)
  else if (225 <=? n) && (n <=? 236) then Some (2%nat, 128, 191)
  else if n =? 237 then Some (2%nat, 128, 159)
  else if (238 <=? n) && (n <=? 239) then Some (2%nat, 128, 191)
  else if n =? 240 then Some (3%nat, 144, 191)
  else if (241 <=? n) && (n <=? 243) then Some (3%nat, 128, 191)
  else if n =? 244 then Some (3%nat, 128, 143)
  else None.

(** The bytes that [utf8.RuneCountInString] steps over at the byte [c]
    followed by [rest]: the length of the encoding that starts there,
    and 1 for an ASCII byte, for a byte that starts no encoding and for
    an encoding that is broken or cut short by the end of the
    string. *)
Definition runeWidth (c : ascii) (rest : string) : nat :=
  if byteOf c <? 128 then 1%nat
  else
    match leadByte c with
    | None => 1%nat
    | Some (more, lo, hi) =>
        match rest with
        | String c1 rest1 =>
            if negb (between lo hi c1) then 1%nat
            else if (more =? 1)%nat then 2%nat
            else
              match rest1 with
              | String c2 rest2 =>
                  if negb (between 128 191 c2) then 1%nat
                  else if (more =? 2)%nat then 3%nat
                  else
                    match rest2 with
                    | String c3 _ =>
                        if negb (between 128 191 c3) then 1%nat else 4%nat
                    | EmptyString => 1%nat
                    end
              | EmptyString => 1%nat
              end
        | EmptyString => 1%nat
        end
    end.

(** The loop of [utf8.RuneCountInString]: one rune for every step;
    [skip] counts the bytes still to step over. *)
Fixpoint countRunes (skip : nat) (s : string) : Z :=
  match s with
  | EmptyString => 0
  | String c rest =>
      match skip with
      | S k => countRunes k rest
      | O => 1 + countRunes (runeWidth c rest - 1) rest
      end
  end.

(** [utf8.RuneCountInString(s)]: a byte that belongs to no well-formed
    encoding counts as a rune of its own. *)
Definition runeCount (s : string) : Z := countRunes 0 s.

(** The loop of [utf8.ValidString]: every step is over an ASCII byte or
    over a whole encoding. *)
Fixpoint validFrom (skip : nat) (s : string) : bool :=
  match s with
  | EmptyString => (skip =? 0)%nat
  | String c rest =>
      match skip with
      | S k => validFrom k rest
      | O =>
          ((byteOf c <? 128) || (2 <=? runeWidth c rest)%nat)
          && validFrom (runeWidth c rest - 1) rest
      end
  end.

(** [utf8.ValidString(s)] *)
Definition ValidString (s : string) : bool := validFrom 0 s.

Definition spaces (n : Z) : string := Digits.repeat " " (Z.to_nat n).

(** Padding to a field of [wid] runes: on the right of the text with the
    minus flag, on its left without. *)
Definition pad (minus : bool) (wid : Z) (s : string) : string :=
  let width := wid - runeCount s in
  if width <=? 0 then s
  else if minus then s +:+ spaces width
  else spaces width +:+ s.

(** A field whose width is the [*] argument [w]: a width beyond one
    million in absolute value is rejected with a marker and the operand
    printed unpadded; a negative width sets the minus flag. *)
Definition star (minus : bool) (w : Z) (s : string) : string :=
  if (1000000 <? w) || (w <? -1000000) then "%!(BADWIDTH)" +:+ s
  else if w <? 0 then pad true (- w) s
  else pad minus w s.

(** The verb [%d] on an [int]. *)
Definition itoa (n : Z) : string :=
  if n <? 0 then "-" +:+ Digits.decimal (- n) else Digits.decimal n.

(** [fmt.Sprintf("%-*s", w, s)] *)
Definition leftS (w : Z) (s : string) : string := star true w s.
(** [fmt.Sprintf("%*s", w, s)] *)
Definition rightS (w : Z) (s : string) : string := star false w s.
(** [fmt.Sprintf("%*d", w, n)] *)
Definition rightD (w : Z) (n : Z) : string := star false w (itoa n).
(** [fmt.Sprintf("%3d", n)] *)
Definition d3 (n : Z) : string := pad false 3 (itoa n).

(** [strings.Repeat(s, count)]; [None] is the panic on a negative
    count or on a result longer than the largest [int]. *)
Definition Repeat (s : string) (count : Z) : option string :=
  if count <? 0 then None
  else if 2 ^ 63 - 1 <? Z.of_nat (String.length s) * count then None
  else Some (Digits.repeat s (Z.to_nat count)).

End GoFmt.

(** ** Execution: explicit state, with run-time panics *)

Module Exec.

Inductive Outcome (A : Type) : Type :=
| Val (a : A)
| Panic.
Arguments Val {A} a.
Arguments Panic {A}.

(** A computation over a state of type [S]: the state reached is
    returned also when the computation panics. *)
Definition M (S A : Type) : Type := S -> Outcome A * S.

#[global] Instance M_ret {S} : MRet (M S) :=
  fun A (a : A) s => (Val a, s).

#[global] Instance M_bind {S} : MBind (M S) :=
  fun A B (k : A -> M S B) (m : M S A) s =>
    match m s with
    | (Val a, s') => k a s'
    | (Panic, s') => (Panic, s')
    end.

Definition gets {S A} (f : S -> A) : M S A := fun s => (Val (f s), s).
Definition modify {S} (f : S -> S) : M S unit := fun s => (Val tt, f s).
Definition panic {S A} : M S A := fun s => (Panic, s).

(** A library call that panics on [None]. *)
Definition orPanic {S A} (r : option A) : M S A :=
  match r with
  | Some a => mret a
  | None => panic
  end.

(** [for _, x := range xs { acc = body(acc, x) }] *)
Fixpoint foldM {S A B} (body : B -> A -> M S B) (acc : B) (xs : list A)
  : M S B :=
  match xs with
  | [] => mret acc
  | x :: rest => acc' ← body acc x; foldM body acc' rest
  end.

(** [for _, x := range xs { body(x) }] *)
Definition forEach {S A} (xs : list A) (body : A -> M S unit) : M S unit :=
  foldM (fun _ x => body x) tt xs.

End Exec.

(** ** Go maps from week keys to counts *)

Module GoMap.

(** [m[key]]: the zero value when [key] is absent. *)
Definition index (m : gmap string Z) (key : string) : Z :=
  default 0 (m !! key).

(** [m[key] += count] *)
Definition addAssign (m : gmap string Z) (key : string) (count : Z)
  : gmap string Z :=
  <[ key := GoInt.add (index m key) count ]> m.

End GoMap.

(** The line feed that ends a printed line. *)
Definition nl : string := String (ascii_of_nat 10) EmptyString.

(** ** The weekly table (package [cmd], table.go, as used by ashby.go and
    datum.go) *)

Module Table.
Import Exec GoFmt Week.

Record weeklyTable := mkTable {
  labelColWidth : Z;
  weekColWidth : Z;
  weeks : list string
}.

(** [newWeeklyTable(labelColWidth, weekColWidth, weeks)] *)
Definition newWeeklyTable (labelColWidth weekColWidth : Z)
    (weeks : list string) : weeklyTable :=
  {| labelColWidth := labelColWidth;
     weekColWidth := weekColWidth;
     weeks := weeks |}.

(** What a method of [*weeklyTable] can reach and change: the table
    behind the receiver pointer, the map behind its map argument (a Go
    map is a reference), and the writes made to standard output, one
    entry per [fmt] call. *)
Record Env := mkEnv {
  self : weeklyTable;
  weekValues : gmap string Z;
  stdout : list string
}.

Definition Printf (text : string) : M Env unit :=
  modify (fun e => mkEnv (self e) (weekValues e) (stdout e ++ [text])).

(** [t.f] for a field [f] of the receiver. *)
Definition field {A} (f : weeklyTable -> A) : M Env A :=
  gets (fun e => f (self e)).

(** [weekValues[key]] on the map argument. *)
Definition index (key : string) : M Env Z :=
  gets (fun e => GoMap.index (weekValues e) key).

(** The branch shared by every value column: ["-"] for zero, the
    number otherwise. *)
Definition printCount (count : Z) : M Env unit :=
  w ← field weekColWidth;
  if count =? 0 then Printf (rightS w "-") else Printf (rightD w count).

(** [t.printHeader(labelTitle, currentWeek)] *)
Definition printHeader (labelTitle currentWeek : string) : M Env unit :=
  lw ← field labelColWidth;
  Printf (leftS lw labelTitle);;
  ws ← field weeks;
  forEach ws (fun week =>
    w ← field weekColWidth;
    Printf (rightS w (formatWeekEnd week)));;
  (if negb (String.eqb currentWeek "")
   then w ← field weekColWidth; Printf (rightS w "Current")
   else mret tt);;
  w ← field weekColWidth;
  Printf (rightS w "Total" +:+ nl).

(** [t.printSeparator(currentWeek)] *)
Definition printSeparator (currentWeek : string) : M Env unit :=
  ws ← field weeks;
  let columns := GoInt.add (Z.of_nat (length ws)) 1 in
  let columns :=
    if negb (String.eqb currentWeek "") then GoInt.add columns 1
    else columns in
  lw ← field labelColWidth;
  w ← field weekColWidth;
  let totalWidth := GoInt.add lw (GoInt.wrap (w * columns)) in
  line ← orPanic (Repeat "-" totalWidth);
  Printf (line +:+ nl).

(** [t.printRow(label, weekValues, currentWeek)] *)
Definition printRow (label currentWeek : string) : M Env Z :=
  lw ← field labelColWidth;
  Printf (leftS lw label);;
  ws ← field weeks;
  total ← foldM (fun total week =>
    count ← index week;
    printCount count;;
    mret (GoInt.add total count)) 0 ws;
  (if negb (String.eqb currentWeek "")
   then count ← index currentWeek; printCount count
   else mret tt);;
  w ← field weekColWidth;
  Printf (rightD w total +:+ nl);;
  mret total.

(** [t.printRowWithSlice(label, counts, currentCount)] *)
Definition printRowWithSlice (label : string) (counts : list Z)
    (currentCount : Z) : M Env Z :=
  lw ← field labelColWidth;
  Printf (leftS lw label);;
  total ← foldM (fun total count =>
    printCount count;;
    mret (GoInt.add total count)) 0 counts;
  (if 0 <=? currentCount then printCount currentCount else mret tt);;
  w ← field weekColWidth;
  Printf (rightD w total +:+ nl);;
  mret total.

(** [t.printTotalsRow(label, weekTotals, currentWeek)] *)
Definition printTotalsRow (label currentWeek : string) : M Env unit :=
  lw ← field labelColWidth;
  Printf (leftS lw label);;
  ws ← field weeks;
  grandTotal ← foldM (fun grandTotal week =>
    total ← index week;
    printCount total;;
    mret (GoInt.add grandTotal total)) 0 ws;
  (if negb (String.eqb currentWeek "")
   then total ← index currentWeek; printCount total
   else mret tt);;
  w ← field weekColWidth;
  Printf (rightD w grandTotal +:+ nl).

End Table.

(** ** The earlier weekly table, without the current-week column
    (table.go, as used by the incidents command) *)

Module Legacy.
Import Exec GoFmt Week.
Import Table (weeklyTable, labelColWidth, weekColWidth, weeks, Env,
              Printf, field, index, printCount).

(** [t.printHeader(labelTitle)] *)
Definition printHeader (labelTitle : string) : M Env unit :=
  lw ← field labelColWidth;
  Printf (leftS lw labelTitle);;
  ws ← field weeks;
  forEach ws (fun week =>
    w ← field weekColWidth;
    Printf (rightS w (formatWeekEnd week)));;
  w ← field weekColWidth;
  Printf (rightS w "Total" +:+ nl).

(** [t.printSeparator()] *)
Definition printSeparator : M Env unit :=
  ws ← field weeks;
  lw ← field labelColWidth;
  w ← field weekColWidth;
  let totalWidth :=
    GoInt.add lw (GoInt.wrap (w * GoInt.add (Z.of_nat (length ws)) 1)) in
  line ← orPanic (Repeat "-" totalWidth);
  Printf (line +:+ nl).

(** [t.printRow(label, weekValues)] *)
Definition printRow (label : string) : M Env Z :=
  lw ← field labelColWidth;
  Printf (leftS lw label);;
  ws ← field weeks;
  total ← foldM (fun total week =>
    count ← index week;
    printCount count;;
    mret (GoInt.add total count)) 0 ws;
  w ← field weekColWidth;
  Printf (rightD w total +:+ nl);;
  mret total.

(** [t.printRowWithSlice(label, counts)] *)
Definition printRowWithSlice (label : string) (counts : list Z) : M Env Z :=
  lw ← field labelColWidth;
  Printf (leftS lw label);;
  total ← foldM (fun total count =>
    printCount count;;
    mret (GoInt.add total count)) 0 counts;
  w ← field weekColWidth;
  Printf (rightD w total +:+ nl);;
  mret total.

(** [t.printTotalsRow(label, weekTotals)] *)
Definition printTotalsRow (label : string) : M Env unit :=
  lw ← field labelColWidth;
  Printf (leftS lw label);;
  ws ← field weeks;
  grandTotal ← foldM (fun grandTotal week =>
    total ← index week;
    printCount total;;
    mret (GoInt.add grandTotal total)) 0 ws;
  w ← field weekColWidth;
  Printf (rightD w grandTotal +:+ nl).

End Legacy.

(** ** The applicants report (package [cmd], ashby.go) *)

Module Ashby.
Import Exec GoFmt GoTime Week Table.

Record ashbyJobMetrics := mkMetrics {
  Department : string;
  Title : string;
  WeekCounts : gmap string Z
}.

(** Standard output, one entry per [fmt] call. *)
Definition Print (text : string) : M (list string) unit :=
  modify (fun out => out ++ [text]).

Definition Println (text : string) : M (list string) unit :=
  Print (text +:+ nl).

(** The first loop of [printHistogram]: counts per week over all jobs.
    [metrics] lists the values of the Go map in the order in which the
    [range] loop visits them. *)
Definition aggregate (metrics : list ashbyJobMetrics) : gmap string Z :=
  fold_left (fun weekTotals m =>
    fold_left (fun weekTotals '(week, count) => GoMap.addAssign weekTotals week count)
      (map_to_list (WeekCounts m)) weekTotals)
    metrics ∅.

(** The second loop: the counts of [weeks] in order, and their maximum
    (from zero). *)
Definition collect (weekTotals : gmap string Z) (weeks : list string)
  : list Z * Z :=
  fold_left (fun '(counts, maxCount) week =>
    let count := GoMap.index weekTotals week in
    (counts ++ [count], if maxCount <? count then count else maxCount))
    weeks ([], 0).

(** The length of the secondary bar of a week. *)
Definition barLength (count maxCount : Z) : Z :=
  GoInt.add
    (GoFloat.toInt
       (GoFloat.mul (GoFloat.div (GoFloat.ofInt count) (GoFloat.ofInt maxCount))
          (GoFloat.ofInt 30)))
    1.

(** One line of the weekly breakdown. *)
Definition printBreakdownLine (maxCount : Z) (week : string) (count : Z)
  : M (list string) unit :=
  if 0 <? count then
    bar ← orPanic (Repeat "▪" (barLength count maxCount));
    Print ("  " +:+ formatWeekEnd week +:+ "  " +:+ d3 count +:+ " "
           +:+ bar +:+ nl)
  else
    Print ("  " +:+ formatWeekEnd week +:+ "  " +:+ d3 count +:+ nl).

(** [printHistogram(metrics)], at the clock reading [timeNow]. *)
Definition printHistogram (timeNow : Time) (metrics : list ashbyJobMetrics)
  : M (list string) unit :=
  let weeks := getLast26Weeks timeNow in
  let weekTotals := aggregate metrics in
  let '(counts, maxCount) := collect weekTotals weeks in
  if maxCount =? 0 then Println "No applications in the last 6 months"
  else
    Println "Applicants per Week (Last 6 Months)";;
    Println "";;
    let barChar := "█"%string in
    let maxBarHeight := 15 in
    let labelWidth := 12 in
    forEach (List.map (fun k => maxBarHeight - Z.of_nat k)
               (seq 0 (Z.to_nat maxBarHeight))) (fun row =>
      let threshold :=
        GoFloat.mul
          (GoFloat.div (GoFloat.ofInt row) (GoFloat.ofInt maxBarHeight))
          (GoFloat.ofInt maxCount) in
      Print (rightS labelWidth "");;
      forEach counts (fun count =>
        if GoFloat.geb (GoFloat.ofInt count) threshold
        then Print barChar else Print " ");;
      Println "");;
    Print (rightS labelWidth "");;
    axis ← orPanic (Repeat "-" 26);
    Println axis;;
    Print (rightS labelWidth "");;
    foldM (fun lastMonth week =>
      let t := ParseIgnoringError week in
      let month := Format t L_Jan in
      if negb (String.eqb month lastMonth) then
        match month with
        | String c _ => Print (String c "");; mret month
        | EmptyString => panic
        end
      else Print " ";; mret lastMonth) ""%string weeks;;
    Println "";;
    Println "";;
    Print ("Scale: Each row = "
           +:+ GoFloat.format1
                 (GoFloat.div (GoFloat.ofInt maxCount)
                    (GoFloat.ofInt maxBarHeight))
           +:+ " applicants" +:+ nl);;
    Print ("Max: " +:+ itoa maxCount +:+ " applicants/week" +:+ nl);;
    Println "";;
    Println "Weekly Breakdown:";;
    Println "";;
    total ← foldM (fun total '(i, week) =>
      count ← orPanic (counts !! i);
      let total := GoInt.add total count in
      printBreakdownLine maxCount week count;;
      mret total) 0 (imap pair weeks);
    Println "";;
    Print ("  Total: " +:+ itoa total +:+ " applicants over 26 weeks" +:+ nl);;
    Print ("  Average: "
           +:+ GoFloat.format1
                 (GoFloat.div (GoFloat.ofInt total) (GoFloat.ofInt 26))
           +:+ " applicants/week" +:+ nl).

(** A call [table.method(..., values, ...)]: the method runs on the
    table, the map and standard output, and the caller goes on with all
    three as the method left them. *)
Definition invoke {A} (table : weeklyTable) (values : gmap string Z)
    (method : M Env A) : M (list string) (A * weeklyTable * gmap string Z) :=
  fun out =>
    match method (mkEnv table values out) with
    | (Val a, e) => (Val (a, self e, weekValues e), stdout e)
    | (Panic, e) => (Panic, stdout e)
    end.

(** Insertion of [x] before the first element that is not less than it. *)
Fixpoint insertSorted {A} (less : A -> A -> bool) (x : A) (l : list A)
  : list A :=
  match l with
  | [] => [x]
  | y :: rest =>
      if less y x then y :: insertSorted less x rest else x :: y :: rest
  end.

(** [sort.Strings] and [sort.Slice]: an ascending sort.  [sort.Slice]
    leaves the order of equal elements unspecified; this one keeps it. *)
Definition sortBy {A} (less : A -> A -> bool) (l : list A) : list A :=
  fold_right (insertSorted less) [] l.

(** The grouping loop: the jobs of each department, in visiting order. *)
Definition groupByDepartment (metrics : list ashbyJobMetrics)
  : gmap string (list ashbyJobMetrics) :=
  fold_left (fun deptJobs m =>
    <[ Department m := default [] (deptJobs !! Department m) ++ [m] ]>
      deptJobs)
    metrics ∅.

(** The job title as shown: indented, and cut to 30 bytes plus an
    ellipsis when longer than [labelColWidth-2]. *)
Definition displayTitle (table : weeklyTable) (job : ashbyJobMetrics)
  : string :=
  let displayTitle := "  " +:+ Title job in
  if labelColWidth table - 2 <? Z.of_nat (String.length displayTitle)
  then substring 0 (Z.to_nat (labelColWidth table - 5)) displayTitle +:+ "..."
  else displayTitle.





End Ashby.
(** ** Vocabulary of the statements *)

Module Cal.
Import GoTime.

(** Midnight UTC at the start of day number [d]. *)
Definition midnight (d : Z) : Time := mkTime (d * secondsPerDay) 0.

(** The week key of day number [d]: its date in layout "2006-01-02". *)
Definition dateKey (d : Z) : string := Format (midnight d) L_2006_01_02.

(** Day number, in UTC, of the instant [t]. *)
Definition utcDay (t : Time) : Z := unixSec t / secondsPerDay.

(** Day numbers whose year has four digits, 0000-01-01 to 9999-12-31:
    the dates that layout "2006-01-02" prints and reads back. *)
Definition inLayoutRange (d : Z) : Prop := -719528 <= d < 2932897.

(** Instants of the years 0001 to 9999. *)
Definition inCommonEra (t : Time) : Prop :=
  -62135596800 <= unixSec t < 253402300800.

Definition isMonday (d : Z) : Prop := (d + 4) mod 7 = 1.
Definition isSunday (d : Z) : Prop := (d + 4) mod 7 = 0.

(** Day number of the Monday on or before the UTC day of [t]. *)
Definition weekStartDay (t : Time) : Z := utcDay t - (utcDay t + 3) mod 7.

(** Day number of the Monday of the last week that ended before the UTC
    day of [t]. *)
Definition lastCompletedDay (t : Time) : Z := weekStartDay t - 7.

End Cal.

Module Render.
Import GoFmt Table.

(** A value column: the placeholder for zero, the number otherwise. *)
Definition cell (w count : Z) : string :=
  if count =? 0 then rightS w "-" else rightD w count.

(** The writes of one table row whose counts are given by [f]: the
    label, one cell per configured week, the current-week cell when a
    current week is given, and the total of the configured weeks. *)
Definition rowText (t : weeklyTable) (label : string) (f : string -> Z)
    (currentWeek : string) : list string :=
  leftS (labelColWidth t) label
  :: List.map (fun week => cell (weekColWidth t) (f week)) (weeks t)
  ++ (if String.eqb currentWeek "" then []
      else [cell (weekColWidth t) (f currentWeek)])
  ++ [rightD (weekColWidth t) (GoInt.sumFrom 0 (List.map f (weeks t))) +:+ nl].

(** The writes of a row given by a slice of counts. *)
Definition sliceText (t : weeklyTable) (label : string) (counts : list Z)
    (current : option Z) : list string :=
  leftS (labelColWidth t) label
  :: List.map (cell (weekColWidth t)) counts
  ++ match current with
     | Some c => [cell (weekColWidth t) c]
     | None => []
     end
  ++ [rightD (weekColWidth t) (GoInt.sumFrom 0 counts) +:+ nl].

(** The writes of the header line. *)
Definition headerText (t : weeklyTable) (labelTitle currentWeek : string)
  : list string :=
  leftS (labelColWidth t) labelTitle
  :: List.map (fun week => rightS (weekColWidth t) (Week.formatWeekEnd week))
       (weeks t)
  ++ (if String.eqb currentWeek "" then []
      else [rightS (weekColWidth t) "Current"])
  ++ [rightS (weekColWidth t) "Total" +:+ nl].

(** The width of the rule under [columns] value columns. *)
Definition ruleWidth (t : weeklyTable) (columns : Z) : Z :=
  GoInt.add (labelColWidth t) (GoInt.wrap (weekColWidth t * columns)).

(** The number of value columns: the weeks, the total, and the current
    week when there is one. *)
Definition columnsOf (t : weeklyTable) (currentWeek : string) : Z :=
  let columns := GoInt.add (Z.of_nat (length (weeks t))) 1 in
  if String.eqb currentWeek "" then columns else GoInt.add columns 1.

End Render.

(** ** The applicants command: jobs, departments and the grouping of
    applications (package [cmd], ashby.go) *)

Module Applicants.
Import GoTime Week Ashby.

(** [ashbyDepartment] *)
Module Dept.
Record t := mk { ID : string; Name : string }.
End Dept.

(** [ashbyJob] *)
Module Job.
Record t := mk {
  ID : string;
  Title : string;
  Status : string;
  DepartmentID : string
}.
End Job.

(** [ashbyJobInfo] *)
Module JobInfo.
Record t := mk { Title : string; Department : string }.
End JobInfo.

(** The field [Candidate] of [ashbyApplication]. *)
Module Candidate.
Record t := mk { ID : string; Name : string }.
End Candidate.

(** The field [Job] of [ashbyApplication]. *)
Module JobRef.
Record t := mk { ID : string; Title : string }.
End JobRef.

(** [ashbyApplication] *)
Module App.
Record t := mk {
  ID : string;
  CreatedAt : Time;
  Status : string;
  Candidate : Candidate.t;
  Job : JobRef.t
}.
End App.

(** [departments[id]] on a [map[string]string]: the empty string when
    [id] is absent. *)
Definition lookupName (departments : gmap string string) (id : string)
  : string :=
  default ""%string (departments !! id).

(** The loop over the results of one page in [fetchAllDepartments]. *)
Definition recordDepartments (departments : gmap string string)
    (results : list Dept.t) : gmap string string :=
  fold_left (fun departments dept =>
               <[ Dept.ID dept := Dept.Name dept ]> departments)
    results departments.

(** The loop over the results of one page in [fetchAllJobs]. *)
Definition recordJobs (departments : gmap string string)
    (jobs : gmap string JobInfo.t) (results : list Job.t)
  : gmap string JobInfo.t :=
  fold_left (fun jobs job =>
      let deptName := lookupName departments (Job.DepartmentID job) in
      let deptName :=
        if String.eqb deptName "" then "No Department"%string else deptName in
      <[ Job.ID job := JobInfo.mk (Job.Title job) deptName ]> jobs)
    results jobs.

(** The body of the grouping loop of [runApplicantsByWeek]: the metrics of
    the job of [app] are created when the job is met for the first time,
    and the count of the week of [app] goes up by one. *)
Definition groupStep (jobs : gmap string JobInfo.t)
    (metrics : gmap string ashbyJobMetrics) (app : App.t)
  : gmap string ashbyJobMetrics :=
  let jobID := JobRef.ID (App.Job app) in
  let jobInfo :=
    match jobs !! jobID with
    | Some jobInfo => jobInfo
    | None =>
        let jobInfo :=
          JobInfo.mk (JobRef.Title (App.Job app)) "No Department" in
        if String.eqb (JobInfo.Title jobInfo) ""
        then JobInfo.mk "Unknown Job" (JobInfo.Department jobInfo)
        else jobInfo
    end in
  let weekStart := getWeekStart (App.CreatedAt app) in
  let metrics :=
    match metrics !! jobID with
    | Some _ => metrics
    | None =>
        <[ jobID := mkMetrics (JobInfo.Department jobInfo)
                      (JobInfo.Title jobInfo) ∅ ]> metrics
    end in
  alter (fun m => mkMetrics (Department m) (Title m)
                    (GoMap.addAssign (WeekCounts m) weekStart 1))
    jobID metrics.

(** The grouping loop of [runApplicantsByWeek]: [map[jobID]] metrics. *)
Definition groupApplications (jobs : gmap string JobInfo.t)
    (applications : list App.t) : gmap string ashbyJobMetrics :=
  fold_left (groupStep jobs) applications ∅.

End Applicants.

(** ** Standard output and standard error of a command *)

Module Cli.
Import Exec.

Record Streams := mkStreams { out : list string; err : list string }.

(** A computation that writes to standard output only. *)
Definition onStdout {A} (m : M (list string) A) : M Streams A :=
  fun s =>
    match m (out s) with
    | (r, o) => (r, mkStreams o (err s))
    end.

(** [fmt.Fprint(os.Stderr, text)] *)
Definition Eprint (text : string) : M Streams unit :=
  modify (fun s => mkStreams (out s) (err s ++ [text])).

End Cli.

(** ** [json.MarshalIndent(v, "", "  ")], for the values the commands
    print *)

Module Json.
Import GoFmt.

(** The values that occur: [null] (a nil slice), integers, strings,
    arrays (slices) and objects (structs, with their keys in the order of
    the fields). *)
#[warnings="-register-all"] Inductive value :=
| Null
| Int (n : Z)
| Str (s : string)
| Arr (items : list value)
| Obj (fields : list (string * value)).

(** A slice: [null] when it is nil, that is, when nothing was appended. *)
Definition slice (items : list value) : value :=
  match items with
  | [] => Null
  | _ => Arr items
  end.

(** The double quote. *)
Definition dquote : string := String (ascii_of_nat 34) EmptyString.

(** [strings.Join(parts, sep)] *)
Fixpoint join (sep : string) (parts : list string) : string :=
  match parts with
  | [] => ""
  | [part] => part
  | part :: rest => part +:+ sep +:+ join sep rest
  end.

Section Marshal.

(** The JSON form of a Go string: quoted, with the escapes of
    [encoding/json]. *)
Variable quote : string -> string.

Definition indentation (depth : nat) : string := Digits.repeat "  " depth.

Fixpoint marshalIndent (depth : nat) (v : value) : string :=
  match v with
  | Null => "null"
  | Int n => itoa n
  | Str s => quote s
  | Arr [] => "[]"
  | Arr items =>
      "[" +:+ nl
      +:+ join ("," +:+ nl)
            (List.map (fun item =>
               indentation (S depth) +:+ marshalIndent (S depth) item) items)
      +:+ nl +:+ indentation depth +:+ "]"
  | Obj [] => "{}"
  | Obj fields =>
      "{" +:+ nl
      +:+ join ("," +:+ nl)
            (List.map (fun field =>
               indentation (S depth) +:+ dquote +:+ fst field +:+ dquote
               +:+ ": " +:+ marshalIndent (S depth) (snd field)) fields)
      +:+ nl +:+ indentation depth +:+ "}"
  end.

(** [b, _ := json.MarshalIndent(v, "", "  "); fmt.Println(string(b))] *)
Definition PrintlnIndent (v : value) : Exec.M (list string) unit :=
  Ashby.Println (marshalIndent 0 v).

End Marshal.

End Json.

(** ** The incidents command (package [cmd], incidents.go) *)

Module Incidents.
Import Exec GoFmt GoTime Week Table Ashby.

(** An element of the field [Labels] of [githubIssue]. *)
Module Label.
Record t := mk { Name : string }.
End Label.

(** [githubIssue] *)
Module Issue.
Record t := mk {
  Number : Z;
  Title : string;
  CreatedAt : Time;
  Labels : list Label.t
}.
End Issue.

Record weeklyIncidentCounts := mkCounts {
  WeekStart : string;
  IncidentIssues : Z;
  IncidentReports : Z
}.

(** [counts := make([]weeklyIncidentCounts, len(weeks))], and the loop
    that stores the week keys. *)
Definition initCounts (weeks : list string) : list weeklyIncidentCounts :=
  fold_left (fun counts '(i, week) =>
      alter (fun c => mkCounts week (IncidentIssues c) (IncidentReports c))
        i counts)
    (imap pair weeks)
    (replicate (length weeks) (mkCounts "" 0 0)).

(** The inner loop, up to its [break]: the index of the first week equal
    to [weekStart], from index [i] on. *)
Fixpoint findWeek (weekStart : string) (weeks : list string) (i : nat)
  : option nat :=
  match weeks with
  | [] => None
  | week :: rest =>
      if String.eqb weekStart week then Some i
      else findWeek weekStart rest (S i)
  end.

(** [counts[i].IncidentIssues++] *)
Definition bumpIssues (c : weeklyIncidentCounts) : weeklyIncidentCounts :=
  mkCounts (WeekStart c) (GoInt.add (IncidentIssues c) 1) (IncidentReports c).

(** [counts[i].IncidentReports++] *)
Definition bumpReports (c : weeklyIncidentCounts) : weeklyIncidentCounts :=
  mkCounts (WeekStart c) (IncidentIssues c) (GoInt.add (IncidentReports c) 1).

(** One of the two counting loops: every issue goes to the first week
    whose key is the week of its creation, if there is one.  Indexing
    [counts] out of range panics. *)
Definition tally {S} (bump : weeklyIncidentCounts -> weeklyIncidentCounts)
    (weeks : list string) (issues : list Issue.t)
    (counts : list weeklyIncidentCounts)
  : M S (list weeklyIncidentCounts) :=
  foldM (fun counts issue =>
      let weekStart := getWeekStart (Issue.CreatedAt issue) in
      match findWeek weekStart weeks 0 with
      | Some i =>
          c ← orPanic (counts !! i);
          mret (<[ i := bump c ]> counts)
      | None => mret counts
      end) counts issues.

(** The table of [runIncidents]: the title, the header, the two rows and
    the row of their sums.  The three slices of counts are filled by one
    loop over [counts]. *)
Definition printIncidentsTable (repo : string) (weeks : list string)
    (counts : list weeklyIncidentCounts) : M (list string) unit :=
  Print ("Incident Counts for " +:+ repo +:+ " (Last 4 Weeks)" +:+ nl +:+ nl);;
  let table := newWeeklyTable 20 10 weeks in
  '(_, table, _) ← invoke table ∅ (Legacy.printHeader "Label");
  '(_, table, _) ← invoke table ∅ Legacy.printSeparator;
  let issuesCounts := List.map IncidentIssues counts in
  let reportsCounts := List.map IncidentReports counts in
  let totalCounts :=
    List.map (fun c => GoInt.add (IncidentIssues c) (IncidentReports c))
      counts in
  '(_, table, _) ←
    invoke table ∅ (Legacy.printRowWithSlice ":incident/issue" issuesCounts);
  '(_, table, _) ←
    invoke table ∅ (Legacy.printRowWithSlice ":incident/report" reportsCounts);
  '(_, table, _) ← invoke table ∅ Legacy.printSeparator;
  '(_, _, _) ← invoke table ∅ (Legacy.printRowWithSlice "Total" totalCounts);
  mret tt.

(** The local types [WeekData] and [Output] of [printIncidentsJSON], with
    the inner struct [Totals]. *)
Module WeekData.
Record t := mk {
  WeekEnding : string;
  IncidentIssue : Z;
  IncidentReport : Z;
  Total : Z
}.
End WeekData.

Module Totals.
Record t := mk { IncidentIssue : Z; IncidentReport : Z; Total : Z }.
End Totals.

Module Output.
Record t := mk {
  Repository : string;
  Weeks : list WeekData.t;
  Totals : Totals.t
}.
End Output.

(** The value that [printIncidentsJSON] marshals; indexing [counts] out
    of range panics. *)
Definition incidentsOutput {S} (repo : string) (weeks : list string)
    (counts : list weeklyIncidentCounts) : M S Output.t :=
  let output := Output.mk "" [] (Totals.mk 0 0 0) in
  let output := Output.mk repo (Output.Weeks output) (Output.Totals output) in
  output ← foldM (fun output '(i, week) =>
      c ← orPanic (counts !! i);
      let weekData :=
        WeekData.mk (weekStartToEnd week) (IncidentIssues c)
          (IncidentReports c)
          (GoInt.add (IncidentIssues c) (IncidentReports c)) in
      let totals := Output.Totals output in
      mret (Output.mk (Output.Repository output)
              (Output.Weeks output ++ [weekData])
              (Totals.mk
                 (GoInt.add (Totals.IncidentIssue totals) (IncidentIssues c))
                 (GoInt.add (Totals.IncidentReport totals) (IncidentReports c))
                 (Totals.Total totals))))
    output (imap pair weeks);
  let totals := Output.Totals output in
  mret (Output.mk (Output.Repository output) (Output.Weeks output)
          (Totals.mk (Totals.IncidentIssue totals)
             (Totals.IncidentReport totals)
             (GoInt.add (Totals.IncidentIssue totals)
                (Totals.IncidentReport totals)))).

(** The JSON tree of an [Output], by the tags of its fields. *)
Definition weekDataJson (w : WeekData.t) : Json.value :=
  Json.Obj [("week_ending"%string, Json.Str (WeekData.WeekEnding w));
            ("incident_issue"%string, Json.Int (WeekData.IncidentIssue w));
            ("incident_report"%string, Json.Int (WeekData.IncidentReport w));
            ("total"%string, Json.Int (WeekData.Total w))].

Definition outputJson (o : Output.t) : Json.value :=
  Json.Obj
    [("repository"%string, Json.Str (Output.Repository o));
     ("weeks"%string, Json.slice (List.map weekDataJson (Output.Weeks o)));
     ("totals"%string,
      Json.Obj
        [("incident_issue"%string,
          Json.Int (Totals.IncidentIssue (Output.Totals o)));
         ("incident_report"%string,
          Json.Int (Totals.IncidentReport (Output.Totals o)));
         ("total"%string, Json.Int (Totals.Total (Output.Totals o)))])].

(** [printIncidentsJSON(repo, weeks, counts)] *)
Definition printIncidentsJSON (quote : string -> string) (repo : string)
    (weeks : list string) (counts : list weeklyIncidentCounts)
  : M (list string) unit :=
  output ← incidentsOutput repo weeks counts;
  Json.PrintlnIndent quote (outputJson output).

(** [runIncidents(cmd, args)] with [args = [repo]]: [token] is the value
    of GITHUB_TOKEN, [fetch label] the result of
    [fetchIncidentIssues(token, repo, label)] (an error message or the
    issues) and [outputJSON] the flag [--json].  The result is the
    message of the error returned, if any. *)
Definition runIncidents (quote : string -> string) (timeNow : Time)
    (token : string) (fetch : string -> string + list Issue.t)
    (outputJSON : bool) (repo : string) : M Cli.Streams (option string) :=
  if String.eqb token ""
  then mret (Some "GITHUB_TOKEN environment variable not set"%string)
  else
    let weeks := getLast4Weeks timeNow in
    Cli.Eprint ("Fetching incidents for " +:+ repo +:+ "..." +:+ nl);;
    match fetch ":incident/issue"%string with
    | inl err => mret (Some ("failed to fetch incident issues: " +:+ err))
    | inr incidentIssues =>
        match fetch ":incident/report"%string with
        | inl err =>
            mret (Some ("failed to fetch incident reports: " +:+ err))
        | inr incidentReports =>
            let counts := initCounts weeks in
            counts ← tally bumpIssues weeks incidentIssues counts;
            counts ← tally bumpReports weeks incidentReports counts;
            if outputJSON
            then
              Cli.onStdout (printIncidentsJSON quote repo weeks counts);;
              mret None
            else
              Cli.onStdout (printIncidentsTable repo weeks counts);;
              mret None
        end
    end.

End Incidents.

(** ** The list endpoints of the Ashby API (package [cmd], ashby.go) *)

Module AshbyApi.
Import Applicants.

(** The request body of a list call: [limit], and [cursor] when one is
    sent. *)
Record Body := mkBody { limit : Z; cursor : option string }.

(** The fields of a list response that the loops read. *)
Record ListResponse (R : Type) := mkResponse {
  Success : bool;
  Results : list R;
  MoreDataAvailable : bool;
  NextCursor : string
}.
Arguments mkResponse {R} _ _ _ _.
Arguments Success {R} _.
Arguments Results {R} _.
Arguments MoreDataAvailable {R} _.
Arguments NextCursor {R} _.

(** What one turn of a loop gets back: the error of [ashbyRequest], the
    error of [json.Unmarshal], or the decoded response. *)
Inductive Reply (R : Type) :=
| RequestFailed (err : string)
| Unparsable (err : string)
| Decoded (response : ListResponse R).
Arguments RequestFailed {R} err.
Arguments Unparsable {R} err.
Arguments Decoded {R} response.

(** [body := map[string]interface{}{"limit": 100}], with the cursor when
    it is not empty. *)
Definition bodyFor (cursor : string) : Body :=
  mkBody 100 (if String.eqb cursor "" then None else Some cursor).

(** The loop shared by [fetchAllApplications], [fetchAllDepartments] and
    [fetchAllJobs], which differ in the endpoint and in what they do with
    the results of a page ([step]).  [replies] are the replies to the
    successive requests; the result is the bodies sent, in order, and what
    the function returns: an error message or the accumulated value,
    [None] when the loop is still waiting after the last of [replies].
    The pause between two requests is left out. *)
Fixpoint fetchLoop {R A} (step : A -> list R -> A) (replies : list (Reply R))
    (acc : A) (cursor : string) : list Body * option (string + A) :=
  let body := bodyFor cursor in
  match replies with
  | [] => ([body], None)
  | RequestFailed err :: _ => ([body], Some (inl err))
  | Unparsable err :: _ =>
      ([body], Some (inl ("failed to parse response: " +:+ err)))
  | Decoded response :: replies =>
      if negb (Success response)
      then ([body], Some (inl "API returned success=false"%string))
      else
        let acc := step acc (Results response) in
        if negb (MoreDataAvailable response) then ([body], Some (inr acc))
        else
          let cursor := NextCursor response in
          let '(sent, result) := fetchLoop step replies acc cursor in
          (body :: sent, result)
  end.

(** [fetchAllApplications(apiKey)] *)
Definition fetchAllApplications (replies : list (Reply App.t))
  : list Body * option (string + list App.t) :=
  fetchLoop (fun applications results => applications ++ results)
    replies [] "".

(** [fetchAllDepartments(apiKey)] *)
Definition fetchAllDepartments (replies : list (Reply Dept.t))
  : list Body * option (string + gmap string string) :=
  fetchLoop recordDepartments replies ∅ "".

(** [fetchAllJobs(apiKey, departments)] *)
Definition fetchAllJobs (departments : gmap string string)
    (replies : list (Reply Job.t))
  : list Body * option (string + gmap string JobInfo.t) :=
  fetchLoop (recordJobs departments) replies ∅ "".

End AshbyApi.

(** ** The paged endpoints of the GitHub API ([fetchIncidentIssues] of
    incidents.go, [fetchGitHubRepos] of github.go) *)

Module GitHubApi.
Import GoFmt.

(** What one turn of the loop gets back: the error of [http.NewRequest]
    or [client.Do], or a response with its status code and body. *)
Inductive Reply :=
| TransportError (err : string)
| Response (status : Z) (body : string).

Section Fetch.

Context {R : Type}.

(** The JSON decoder on a response body: an error or the items. *)
Variable decode : string -> string + list R.

(** The loop: [replies] are the replies to the successive requests,
    [notFound] the message for status 404.  The result is the page
    numbers asked for, in order, and what the function returns, [None]
    when the loop is still waiting after the last of [replies]. *)
Fixpoint fetchLoop (notFound : string) (replies : list Reply)
    (all : list R) (page : Z) : list Z * option (string + list R) :=
  match replies with
  | [] => ([page], None)
  | TransportError err :: _ => ([page], Some (inl err))
  | Response status body :: replies =>
      if status =? 404 then ([page], Some (inl notFound))
      else if negb (status =? 200)
      then ([page],
            Some (inl ("API error " +:+ itoa status +:+ ": " +:+ body)))
      else
        match decode body with
        | inl err => ([page], Some (inl err))
        | inr items =>
            if Z.of_nat (length items) =? 0 then ([page], Some (inr all))
            else
              let '(asked, result) :=
                fetchLoop notFound replies (all ++ items) (GoInt.add page 1) in
              (page :: asked, result)
        end
  end.

(** [fetchGitHubRepos(token, entityType, target)] *)
Definition fetchGitHubRepos (replies : list Reply)
  : list Z * option (string + list R) :=
  fetchLoop "not found" replies [] 1.

(** [fetchIncidentIssues(token, repo, label)] *)
Definition fetchIncidentIssues (repo : string) (replies : list Reply)
  : list Z * option (string + list R) :=
  fetchLoop ("repository not found: " +:+ repo) replies [] 1.

End Fetch.

End GitHubApi.

(** ** The JSON report of the applicants command ([printJSONGrouped] of
    ashby.go) *)

Module GroupedJson.
Import Exec GoTime Week Ashby.

(** The local types [WeekData] and [JobData]. *)
Module WeekData.
Record t := mk { WeekEnding : string; Count : Z }.
End WeekData.

Module JobData.
Record t := mk {
  Department : string;
  Job : string;
  Weeks : list WeekData.t;
  CurrentWeek : WeekData.t;
  Total : Z
}.
End JobData.

(** The body of the loop over the metrics: the entry of one job. *)
Definition jobData (allWeeks : list string) (currentWeek : string)
    (m : ashbyJobMetrics) : JobData.t :=
  let '(weeks, total) :=
    fold_left (fun '(weeks, total) week =>
        let count := GoMap.index (WeekCounts m) week in
        (weeks ++ [WeekData.mk (weekStartToEnd week) count],
         GoInt.add total count))
      allWeeks ([], 0) in
  JobData.mk (Department m) (Title m) weeks
    (WeekData.mk (weekStartToEnd currentWeek)
       (GoMap.index (WeekCounts m) currentWeek))
    total.

(** The order given to [sort.Slice]: by department, then by job. *)
Definition less (a b : JobData.t) : bool :=
  if negb (String.eqb (JobData.Department a) (JobData.Department b))
  then String.ltb (JobData.Department a) (JobData.Department b)
  else String.ltb (JobData.Job a) (JobData.Job b).

(** The JSON trees, by the tags of the fields. *)
Definition weekDataJson (w : WeekData.t) : Json.value :=
  Json.Obj [("week_ending"%string, Json.Str (WeekData.WeekEnding w));
            ("count"%string, Json.Int (WeekData.Count w))].

Definition jobDataJson (j : JobData.t) : Json.value :=
  Json.Obj
    [("department"%string, Json.Str (JobData.Department j));
     ("job"%string, Json.Str (JobData.Job j));
     ("weeks"%string, Json.slice (List.map weekDataJson (JobData.Weeks j)));
     ("current_week"%string, weekDataJson (JobData.CurrentWeek j));
     ("total"%string, Json.Int (JobData.Total j))].

(** The slice [output] after the sort; [metrics] are the values of the
    metrics map in the order in which the loop visits them. *)
Definition groupedOutput (timeNow : Time) (metrics : list ashbyJobMetrics)
  : list JobData.t :=
  let allWeeks := getLast4Weeks timeNow in
  let currentWeek := getCurrentWeekStart timeNow in
  let output :=
    fold_left (fun output m => output ++ [jobData allWeeks currentWeek m])
      metrics [] in
  sortBy less output.

(** [printJSONGrouped(metrics)] at the clock reading [timeNow]. *)
Definition printJSONGrouped (quote : string -> string) (timeNow : Time)
    (metrics : list ashbyJobMetrics) : M (list string) unit :=
  Json.PrintlnIndent quote
    (Json.slice (List.map jobDataJson (groupedOutput timeNow metrics))).

End GroupedJson.

(** ** The active-users command (package [cmd], datum.go) *)

Module ActiveUsers.
Import Exec GoFmt GoTime Week Table Ashby.

(** [auditEvent], with the fields of its [User] inlined. *)
Record auditEvent := mkEvent {
  Username : string;
  UID : string;
  Verb : string;
  RequestReceivedTimestamp : string
}.

(** [strings.Contains(s, substr)] *)
Fixpoint Contains (s substr : string) : bool :=
  String.prefix substr s
  || match s with
     | EmptyString => false
     | String _ rest => Contains rest substr
     end.

(** [findDatumctl()]: [home] is the home directory when [os.UserHomeDir]
    gives one, [join] is [filepath.Join], [stat path] tells whether
    [os.Stat(path)] succeeds and [lookPath] is the result of
    [exec.LookPath("datumctl")] when it finds the program. *)
Definition findDatumctl (join : list string -> string) (home : option string)
    (stat : string -> bool) (lookPath : option string) : string + string :=
  let custom :=
    match home with
    | Some home =>
        let customPath := join [home; "bin"; "datumctl"]%string in
        if stat customPath then Some customPath else None
    | None => None
    end in
  match custom with
  | Some customPath => inr customPath
  | None =>
      match lookPath with
      | Some path => inr path
      | None => inl "datumctl not found in ~/bin or PATH"%string
      end
  end.

(** The outcome of [queryCmd.Output()]: the output of the command, the
    standard error of a command that ran and failed, or another error. *)
Inductive QueryOutcome :=
| Output (output : string)
| ExitError (stderr : string)
| OtherError (err : string).

Definition filter : string :=
  "verb in ['create', 'update', 'patch'] && user.username.contains('system:') == false && user.uid != '' && objectRef.apiGroup in ['activity.miloapis.com'] == false".

(** The arguments of the query. *)
Definition queryArgs (limit : Z) : list string :=
  let queryArgs :=
    ["activity"; "query"; "--platform-wide"; "--start-time"; "now-30d";
     "--end-time"; "now"; "--filter"; filter; "-o"; "json"]%string in
  if 0 <? limit then queryArgs ++ ["--limit"%string; itoa limit]
  else queryArgs ++ ["--all-pages"%string].

(** [weekUsers] before the loop over the events: an empty set for each
    listed week and for the current week. *)
Definition initWeekUsers (weeks : list string) (currentWeek : string)
  : gmap string (gset string) :=
  let weekUsers :=
    fold_left (fun weekUsers week => <[ week := ∅ ]> weekUsers) weeks ∅ in
  <[ currentWeek := ∅ ]> weekUsers.

(** The local types [WeekData] and [jsonOutput]. *)
Module WeekData.
Record t := mk { WeekEnding : string; ActiveUsers : Z }.
End WeekData.

Module JsonOutput.
Record t := mk {
  Weeks : list WeekData.t;
  CurrentWeek : WeekData.t;
  TotalUsers : Z
}.
End JsonOutput.

Definition weekDataJson (w : WeekData.t) : Json.value :=
  Json.Obj [("week_ending"%string, Json.Str (WeekData.WeekEnding w));
            ("active_users"%string, Json.Int (WeekData.ActiveUsers w))].

Definition outputJson (o : JsonOutput.t) : Json.value :=
  Json.Obj
    [("weeks"%string, Json.slice (List.map weekDataJson (JsonOutput.Weeks o)));
     ("current_week"%string, weekDataJson (JsonOutput.CurrentWeek o));
     ("total_unique_users"%string, Json.Int (JsonOutput.TotalUsers o))].

(** The loop that counts: [visited] are the entries of [weekUsers] in the
    order in which the loop visits them.  The inner loop adds the users
    of the week to [allUsers]. *)
Definition countUsers (visited : list (string * gset string))
  : gmap string Z * gset string :=
  fold_left (fun '(weekCounts, allUsers) '(week, users) =>
      (<[ week := Z.of_nat (size users) ]> weekCounts, allUsers ∪ users))
    visited (∅, ∅).

Section Run.

(** [time.Parse(time.RFC3339, s)], [None] for an error. *)
Variable parseRFC3339 : string -> option Time.

(** The JSON form of a string. *)
Variable quote : string -> string.

(** [json.Unmarshal(output, &result)]: an error or [result.Items]. *)
Variable decode : string -> string + list auditEvent.

(** The order in which [range weekUsers] visits the entries. *)
Variable visit : gmap string (gset string) -> list (string * gset string).

(** The body of the loop over the events. *)
Definition recordEvent (weekUsers : gmap string (gset string))
    (event : auditEvent) : gmap string (gset string) :=
  let username := Username event in
  if String.eqb username "" then weekUsers
  else
    match parseRFC3339 (RequestReceivedTimestamp event) with
    | None => weekUsers
    | Some t =>
        let weekStart := getWeekStart t in
        match weekUsers !! weekStart with
        | Some users => <[ weekStart := {[ username ]} ∪ users ]> weekUsers
        | None => weekUsers
        end
    end.

(** The JSON branch. *)
Definition printJSON (weeks : list string) (currentWeek : string)
    (weekCounts : gmap string Z) (allUsers : gset string)
  : M (list string) unit :=
  let weeksData :=
    fold_left (fun weeksData week =>
        weeksData ++ [WeekData.mk (weekStartToEnd week)
                        (GoMap.index weekCounts week)])
      weeks [] in
  let out :=
    JsonOutput.mk weeksData
      (WeekData.mk (weekStartToEnd currentWeek)
         (GoMap.index weekCounts currentWeek))
      (Z.of_nat (size allUsers)) in
  Json.PrintlnIndent quote (outputJson out).

(** The table branch. *)
Definition printTable (weeks : list string) (currentWeek : string)
    (weekCounts : gmap string Z) (allUsers : gset string)
  : M (list string) unit :=
  let table := newWeeklyTable 20 10 weeks in
  '(_, table, _) ← invoke table ∅ (printHeader "Metric" currentWeek);
  '(_, table, _) ← invoke table ∅ (printSeparator currentWeek);
  '(_, table, weekCounts) ←
    invoke table weekCounts (printRow "Active Users" currentWeek);
  '(_, table, _) ← invoke table ∅ (printSeparator currentWeek);
  Print (nl +:+ "Total Unique Users: " +:+ itoa (Z.of_nat (size allUsers))
         +:+ nl).

(** [runActiveUsers(cmd, args)]: [datumctl] is the result of
    [findDatumctl()], [run path args] the outcome of the query command,
    [outputJSON] and [limit] the flags.  The result is the message of
    the error returned, if any. *)
Definition runActiveUsers (timeNow : Time) (datumctl : string + string)
    (run : string -> list string -> QueryOutcome)
    (outputJSON : bool) (limit : Z) : M Cli.Streams (option string) :=
  match datumctl with
  | inl err => mret (Some err)
  | inr datumctl =>
      let weeks := getLast4Weeks timeNow in
      if Z.of_nat (length weeks) =? 0
      then mret (Some "failed to calculate weeks"%string)
      else
        let currentWeek := getCurrentWeekStart timeNow in
        Cli.Eprint ("Querying Datum Cloud audit logs for the last 4 weeks..."
                    +:+ nl);;
        match run datumctl (queryArgs limit) with
        | ExitError stderr =>
            if Contains stderr "oauth2" || Contains stderr "token"
               || Contains stderr "nil context"
               || Contains stderr "credentials"
            then mret (Some "authentication error: please run 'datumctl auth login' and try again"%string)
            else mret (Some ("datumctl query failed: " +:+ stderr))
        | OtherError err => mret (Some ("failed to run datumctl: " +:+ err))
        | Output output =>
            match decode output with
            | inl err =>
                mret (Some ("failed to parse audit log response: " +:+ err))
            | inr items =>
                let weekUsers :=
                  fold_left recordEvent items
                    (initWeekUsers weeks currentWeek) in
                let '(weekCounts, allUsers) := countUsers (visit weekUsers) in
                (if outputJSON
                 then Cli.onStdout
                        (printJSON weeks currentWeek weekCounts allUsers)
                 else Cli.onStdout
                        (printTable weeks currentWeek weekCounts allUsers));;
                mret None
            end
        end
  end.

End Run.

End ActiveUsers.

(** ** The stars command (package [cmd], github.go) *)

Module Stars.
Import Exec GoFmt GoTime Week Ashby.

(** [githubRepo] *)
Record githubRepo := mkRepo { Name : string; StargazersCount : Z }.

(** [t.Format("2006-01-02 15:04 UTC")]: the date, the hour and the
    minute of [t], and the text [" UTC"], which holds no element of a
    layout. *)
Definition formatMinute (t : Time) : string :=
  Format t L_2006_01_02 +:+ " " +:+ appendInt (clock t / 3600) 2 +:+ ":"
  +:+ appendInt (clock t mod 3600 / 60) 2 +:+ " UTC".

Section Run.

(** [strings.ToLower] *)
Variable ToLower : string -> string.

(** The two orders given to [sort.Slice]. *)
Definition byName (a b : githubRepo) : bool :=
  String.ltb (ToLower (Name a)) (ToLower (Name b)).

Definition byStars (a b : githubRepo) : bool :=
  StargazersCount a <? StargazersCount b.

(** A line of the table: [fmt.Printf("%-50s %10d\n", label, count)]. *)
Definition line (label : string) (count : Z) : string :=
  pad true 50 label +:+ " " +:+ pad false 10 (itoa count) +:+ nl.

(** What [runStars] prints to standard output. *)
Definition printStars (timeNow : Time) (repos : list githubRepo)
  : M (list string) unit :=
  Print (pad true 50 "Repository" +:+ " " +:+ pad false 10 "Stars" +:+ nl);;
  rule ← orPanic (Repeat "=" 62);
  Println rule;;
  total ← foldM (fun total repo =>
      Print (line (Name repo) (StargazersCount repo));;
      mret (GoInt.add total (StargazersCount repo))) 0 repos;
  rule ← orPanic (Repeat "=" 62);
  Println rule;;
  let timestamp := formatMinute (UTC timeNow) in
  Print (line ("Total [ " +:+ timestamp +:+ " ]") total).

(** [runStars(cmd, args)] with [args = [target]]: [token] is the value of
    GITHUB_TOKEN, [fetch entityType] the result of
    [fetchGitHubRepos(token, entityType, target)] and [sortAlpha] the
    flag [--sort].  The result is the message of the error returned, if
    any. *)
Definition runStars (timeNow : Time) (token : string)
    (fetch : string -> string + list githubRepo) (sortAlpha : bool)
    (target : string) : M Cli.Streams (option string) :=
  if String.eqb token ""
  then mret (Some "GITHUB_TOKEN environment variable not set"%string)
  else
    Cli.Eprint ("Fetching repositories for " +:+ target +:+ "..." +:+ nl);;
    let found :=
      match fetch "orgs"%string with
      | inr repos => inr repos
      | inl _ => fetch "users"%string
      end in
    match found with
    | inl err =>
        mret (Some ("could not find organization or user '" +:+ target
                    +:+ "': " +:+ err))
    | inr repos =>
        if Z.of_nat (length repos) =? 0
        then mret (Some ("no repositories found for '" +:+ target +:+ "'"))
        else
          let repos :=
            if sortAlpha then sortBy byName repos else sortBy byStars repos in
          Cli.onStdout (printStars timeNow repos);;
          mret None
    end.

End Run.

End Stars.

Import Digits GoTime GoFmt Exec Week Cal Table Render Ashby.

(** ** Definitions used in the statements and proofs *)

Definition dateCheck (z : Z) (ymd : Z * Z * Z) : bool :=
  let '(y, m, d) := ymd in
  (dateToDays y m d =? z) && (1 <=? m) && (m <=? 12) && (1 <=? d)
  && (d <=? daysIn m y).

Fixpoint checkFrom (check : Z -> bool) (z : Z) (n : nat) : bool :=
  match n with
  | O => true
  | S k => check z && checkFrom check (z + 1) k
  end.

(** The number a digit string denotes, read by the standard library;
    [-1] when the string has another character. *)
Definition digitsValue (s : string) : Z :=
  match NilEmpty.uint_of_string s with
  | Some d => Z.of_N (N.of_uint d)
  | None => -1
  end.

Definition yearValue (s : string) : Z :=
  match s with
  | String c r => if Ascii.eqb c "-" then - digitsValue r else digitsValue s
  | EmptyString => digitsValue s
  end.

(** The day of the year, from zero, of a valid month and day. *)
Definition yearDay (leap : bool) (m d : Z) : Z :=
  daysBefore m + (if leap && (3 <=? m) then 1 else 0) + (d - 1).

Definition monthLength (leap : bool) (m : Z) : Z :=
  if (m =? 2) && leap then 29 else daysBefore (m + 1) - daysBefore m.

(** The time reached after going back [i] weeks from [t]. *)
Definition weeksBack (t : Time) (i : nat) : Time :=
  mkTime (unixSec t - 7 * Z.of_nat i * secondsPerDay) (zoneOffset t).

Definition emit (e : Env) (text : list string) : Env :=
  mkEnv (self e) (weekValues e) (stdout e ++ text).

Definition sumZ (xs : list Z) : Z := fold_right Z.add 0 xs.

(** A byte that continues an encoding. *)
Definition isContinuation (c : ascii) : bool := between 128 191 c.

(** The bytes of a string that continue no encoding: for a well-formed
    string, its runes. *)
Fixpoint leads (s : string) : Z :=
  match s with
  | EmptyString => 0
  | String c rest => (if isContinuation c then 0 else 1) + leads rest
  end.

(** The first [k] bytes of [s] are there and continue an encoding. *)
Fixpoint continued (k : nat) (s : string) : bool :=
  match k with
  | O => true
  | S k =>
      match s with
      | String c rest => isContinuation c && continued k rest
      | EmptyString => false
      end
  end.

(** A string of ASCII bytes. *)
Fixpoint asciiOnly (s : string) : bool :=
  match s with
  | EmptyString => true
  | String c rest => (byteOf c <? 128) && asciiOnly rest
  end.

(** The value of a string of decimal digits, most significant first,
    after the value [acc] of the digits before it; [None] when a byte
    is no digit. *)
Fixpoint digitsFrom (acc : Z) (s : string) : option Z :=
  match s with
  | EmptyString => Some acc
  | String c rest =>
      if isDigit c then digitsFrom (10 * acc + digitVal c) rest else None
  end.

(** The integer that a decimal numeral denotes: digits, most significant
    first, after a minus sign for a negative number, with no leading
    zero (but for the numeral 0) and no sign before zero; [None] for
    any other text. *)
Definition readDecimal (s : string) : option Z :=
  match s with
  | EmptyString => None
  | String c rest =>
      if Ascii.eqb c "-" then
        match rest with
        | EmptyString => None
        | String d _ =>
            if Ascii.eqb d "0" then None
            else option_map Z.opp (digitsFrom 0 rest)
        end
      else if Ascii.eqb c "0" then
        match rest with
        | EmptyString => Some 0
        | String _ _ => None
        end
      else digitsFrom 0 s
  end.

(** Every count a map holds fits an [int]. *)
Definition intValued (m : gmap string Z) : Prop :=
  forall key, GoInt.inRange (GoMap.index m key).

Definition addEntries (weekTotals : gmap string Z) (entries : list (string * Z))
  : gmap string Z :=
  fold_left (fun weekTotals '(week, count) =>
               GoMap.addAssign weekTotals week count) entries weekTotals.

Definition maxFrom (acc : Z) (counts : list Z) : Z :=
  fold_left (fun maxCount count => if maxCount <? count then count else maxCount)
    counts acc.

(** The counts of one job added to a map of totals: the configured weeks
    in turn. *)
Definition addWeeks (counts m : gmap string Z) (weeks : list string)
  : gmap string Z :=
  fold_left (fun m week => GoMap.addAssign m week (GoMap.index counts week))
    weeks m.

(** ... and then the current week. *)
Definition addJob (weeks : list string) (currentWeek : string)
    (m : gmap string Z) (job : ashbyJobMetrics) : gmap string Z :=
  GoMap.addAssign (addWeeks (WeekCounts job) m weeks) currentWeek
    (GoMap.index (WeekCounts job) currentWeek).





(** The departments in the order shown. *)
Definition departments (metrics : list ashbyJobMetrics) : list string :=
  sortBy String.ltb (List.map fst (map_to_list (groupByDepartment metrics))).


(** The day from which [getLastNWeeks] counts back. *)
Definition anchorDay (now : Time) : Z :=
  utcDay (ParseIgnoringError (getLastCompletedWeekStart now)).


(** Unix second of Sunday 23:59:59 UTC of the week that starts on day
    [monday]. *)
Definition sundayEnd (monday : Z) : Z := (monday + 6) * secondsPerDay + 86399.

(** The clock reading 10000-01-12 00:00:00 UTC, a Wednesday. *)
Definition year10000 : Time := Date 10000 1 12 0 0.

(** The timestamp 10000-01-05 00:00:00 UTC. *)
Definition early10000 : Time := Date 10000 1 5 0 0.

(** The least integer that is not below the value that a mantissa with
    its round and sticky bits stands for. *)
Definition ceiling (mrs : shr_record) : Z :=
  if shr_r mrs || shr_s mrs then shr_m mrs + 1 else shr_m mrs.

(** A [float64] that is zero or positive and at most the integer [C]. *)
Definition atMost (C : Z) (f : spec_float) : Prop :=
  match f with
  | S754_zero false => True
  | S754_finite false m e => e <= 0 /\ Z.pos m <= C * 2 ^ (- e)
  | _ => False
  end.

(** A mantissa with its round and sticky bits, as a number of quarters. *)
Definition code (mrs : shr_record) : Z :=
  4 * shr_m mrs + (if shr_r mrs then 2 else 0) + (if shr_s mrs then 1 else 0).

(** The mantissa of an integer that loses its last [k] bits: shifted
    right and rounded to nearest, ties to even. *)
Definition roundShift (k : positive) (z : Z) : Z :=
  let mrs := SpecFloat.iter_pos shr_1 k (shr_record_of_loc z loc_Exact) in
  round_nearest_even (shr_m mrs) (loc_of_shr_record mrs).

(** The value of [float64(z)] in units of [2 ^ -52]. *)
Definition scaledValue (z : Z) : Z :=
  match Zdigits2 z - 53 with
  | Z.pos k => roundShift k z * 2 ^ (Z.pos k + 52)
  | _ => z * 2 ^ 52
  end.

(** The value a bar row stands for. *)
Definition threshold (maxCount row : Z) : spec_float :=
  GoFloat.mul (GoFloat.div (GoFloat.ofInt row) (GoFloat.ofInt 15))
    (GoFloat.ofInt maxCount).

(** The rows of the chart, from the top. *)
Definition chartRows : list Z :=
  List.map (fun k => 15 - Z.of_nat k) (seq 0 (Z.to_nat 15)).

(** One row of the chart: the margin, a cell for each week, the end of
    the line. *)
Definition chartRow (counts : list Z) (maxCount row : Z) : list string :=
  [rightS 12 ""]
  ++ List.map (fun count =>
       if GoFloat.geb (GoFloat.ofInt count) (threshold maxCount row)
       then "█" else " ")%string counts
  ++ [nl].

(** The month ticks under the axis: the first letter of a month where it
    differs from the month of the week before, a blank elsewhere. *)
Fixpoint monthTicks (lastMonth : string) (weeks : list string) : list string :=
  match weeks with
  | [] => []
  | week :: rest =>
      let month := Format (ParseIgnoringError week) L_Jan in
      if negb (String.eqb month lastMonth)
      then match month with
           | String c _ => String c ""
           | EmptyString => ""%string
           end :: monthTicks month rest
      else " "%string :: monthTicks lastMonth rest
  end.

(** What the histogram writes before the weekly breakdown. *)
Definition chartText (weeks : list string) (counts : list Z) (maxCount : Z)
  : list string :=
  ["Applicants per Week (Last 6 Months)" +:+ nl; nl]
  ++ concat (List.map (chartRow counts maxCount) chartRows)
  ++ [rightS 12 ""; "--------------------------" +:+ nl; rightS 12 ""]
  ++ monthTicks "" weeks
  ++ [nl; nl;
      "Scale: Each row = "
        +:+ GoFloat.format1 (GoFloat.div (GoFloat.ofInt maxCount) (GoFloat.ofInt 15))
        +:+ " applicants" +:+ nl;
      "Max: " +:+ itoa maxCount +:+ " applicants/week" +:+ nl;
      nl; "Weekly Breakdown:" +:+ nl; nl].

(** A line of the weekly breakdown with a bar of [bar] glyphs. *)
Definition barLine (week : string) (count : Z) (bar : nat) : string :=
  "  " +:+ formatWeekEnd week +:+ "  " +:+ d3 count +:+ " "
  +:+ Digits.repeat "▪" bar +:+ nl.

(** A line of the weekly breakdown without a bar. *)
Definition plainLine (week : string) (count : Z) : string :=
  "  " +:+ formatWeekEnd week +:+ "  " +:+ d3 count +:+ nl.

(** The line of a week in the weekly breakdown. *)
Definition breakdownLine (maxCount : Z) (week : string) (count : Z) : string :=
  if 0 <? count
  then barLine week count (Z.to_nat (barLength count maxCount))
  else plainLine week count.

(** What the histogram writes after the weekly breakdown. *)
Definition summaryText (total : Z) : list string :=
  [nl;
   "  Total: " +:+ itoa total +:+ " applicants over 26 weeks" +:+ nl;
   "  Average: "
     +:+ GoFloat.format1 (GoFloat.div (GoFloat.ofInt total) (GoFloat.ofInt 26))
     +:+ " applicants/week" +:+ nl].

(** The bar length as the design words it: [count / max * 30]
    glyphs, and at least one. *)
Definition specifiedBarLength (count maxCount : Z) : Z :=
  Z.max 1 (count * 30 / maxCount).

(** The clock reading 2024-03-20 00:00:00 UTC, a Wednesday. *)
Definition wednesday : Time := Date 2024 3 20 0 0.

(** Two jobs with applicants in the last two completed weeks. *)
Definition twoJobs : list ashbyJobMetrics :=
  [mkMetrics "Engineering" "Engineer" (<["2024-03-11"%string := 5]> ∅);
   mkMetrics "Engineering" "Designer" (<["2024-03-04"%string := 2]> ∅)].

(** The job of an application. *)
Definition jobOf (app : Applicants.App.t) : string :=
  Applicants.JobRef.ID (Applicants.App.Job app).

(** The week of an application. *)
Definition weekOf (app : Applicants.App.t) : string :=
  getWeekStart (Applicants.App.CreatedAt app).

(** The number of applications for job [jobID] created in week [week]. *)
Definition applicantsOf (jobID week : string)
    (applications : list Applicants.App.t) : Z :=
  Z.of_nat (length (List.filter (fun app =>
    bool_decide (jobOf app = jobID) && bool_decide (weekOf app = week))
    applications)).

(** [metrics[jobID].WeekCounts[week]], zero for a job without metrics. *)
Definition countOf (metrics : gmap string ashbyJobMetrics)
    (jobID week : string) : Z :=
  match metrics !! jobID with
  | Some m => GoMap.index (WeekCounts m) week
  | None => 0
  end.

(** The labels under which a job is reported, from the job list or, for
    a job that is not listed, from the application [first]. *)
Definition labelsOf (jobs : gmap string Applicants.JobInfo.t)
    (first : Applicants.App.t) : string * string :=
  match jobs !! jobOf first with
  | Some info =>
      (Applicants.JobInfo.Department info, Applicants.JobInfo.Title info)
  | None =>
      ("No Department"%string,
       if String.eqb (Applicants.JobRef.Title (Applicants.App.Job first)) ""
       then "Unknown Job"%string
       else Applicants.JobRef.Title (Applicants.App.Job first))
  end.

(** The first application for job [jobID]. *)
Definition firstFor (jobID : string) (applications : list Applicants.App.t)
  : option Applicants.App.t :=
  head (List.filter (fun app => bool_decide (jobOf app = jobID)) applications).

(** The number of applications created in week [week]. *)
Definition applicantsIn (week : string)
    (applications : list Applicants.App.t) : Z :=
  Z.of_nat (length (List.filter (fun app => bool_decide (weekOf app = week))
                      applications)).

(** The sum, over the jobs of a metrics map, of their counts for a
    week. *)
Definition weekSum (week : string) (metrics : gmap string ashbyJobMetrics)
  : Z :=
  sumZ (List.map (fun '(_, m) => GoMap.index (WeekCounts m) week)
          (map_to_list metrics)).

Definition sampleDepartments : gmap string string :=
  <["dept-1"%string := "Engineering"%string]> ∅.

(** One page of jobs: one job of a known department. *)
Definition samplePages : list (list Applicants.Job.t) :=
  [[Applicants.Job.mk "job-1" "Engineer" "Open" "dept-1"]].

(** Two applications for the listed job in the week of 2024-03-11, and
    one for a job that is not listed. *)
Definition sampleApplications : list Applicants.App.t :=
  [Applicants.App.mk "a1" (Date 2024 3 12 32400 0) "Active"
     (Applicants.Candidate.mk "c1" "Ada")
     (Applicants.JobRef.mk "job-1" "Engineer");
   Applicants.App.mk "a2" (Date 2024 3 6 32400 0) "Active"
     (Applicants.Candidate.mk "c2" "Bob")
     (Applicants.JobRef.mk "job-2" "");
   Applicants.App.mk "a3" (Date 2024 3 17 82800 0) "Hired"
     (Applicants.Candidate.mk "c3" "Cyd")
     (Applicants.JobRef.mk "job-1" "Engineer")].

(** The number of runes that a sequence of writes puts on the terminal. *)
Definition runesOf (writes : list string) : Z :=
  sumZ (List.map runeCount writes).

(** The table of the active-users report for two weeks, and counts for
    the first of them and for the current week. *)
Definition usersTable : weeklyTable :=
  newWeeklyTable 20 10 ["2024-03-04"; "2024-03-11"]%string.

Definition usersCounts : gmap string Z :=
  <["2024-03-04"%string := 5]> (<["2024-03-18"%string := 7]> ∅).

(** The number of issues created in the week [week]. *)
Definition issuesIn (week : string) (issues : list Incidents.Issue.t) : Z :=
  Z.of_nat (length (List.filter (fun issue =>
    bool_decide (getWeekStart (Incidents.Issue.CreatedAt issue) = week))
    issues)).

(** The counts of the weeks, given by two functions of the week key. *)
Definition countsBy (issues reports : string -> Z) (weeks : list string)
  : list Incidents.weeklyIncidentCounts :=
  List.map (fun week => Incidents.mkCounts week (issues week) (reports week))
    weeks.

(** One more in the week [weekStart]. *)
Definition oneMore (weekStart : string) (f : string -> Z) (week : string) : Z :=
  if String.eqb week weekStart then GoInt.add (f week) 1 else f week.

(** The counts after a counting loop over [issues], from the counts
    [f]. *)
Definition tallied (f : string -> Z) (issues : list Incidents.Issue.t)
  : string -> Z :=
  fold_left (fun f issue =>
               oneMore (getWeekStart (Incidents.Issue.CreatedAt issue)) f)
    issues f.

(** The rule of a table of [columns] value columns of width 10 after a
    label column of width 20. *)
Definition rule20 (columns : nat) : string :=
  Digits.repeat "-" (20 + 10 * columns) +:+ nl.

(** What the incidents table prints. *)
Definition incidentsText (repo : string) (weeks : list string)
    (issues reports : list Z) : list string :=
  let table := newWeeklyTable 20 10 weeks in
  [("Incident Counts for " +:+ repo +:+ " (Last 4 Weeks)" +:+ nl +:+ nl)%string]
  ++ headerText table "Label" ""
  ++ [rule20 (length weeks + 1)]
  ++ sliceText table ":incident/issue" issues None
  ++ sliceText table ":incident/report" reports None
  ++ [rule20 (length weeks + 1)]
  ++ sliceText table "Total" (zip_with GoInt.add issues reports) None.

(** An issue of Tuesday 2024-03-12, and a fetch that returns it under
    the label of incident issues. *)
Definition outage : Incidents.Issue.t :=
  Incidents.Issue.mk 17 "Outage" (Date 2024 3 12 9 0) [].

Definition fetchOutage (label : string) : string + list Incidents.Issue.t :=
  if String.eqb label ":incident/issue" then inr [outage] else inr [].

(** The entry of a week in the JSON report. *)
Definition weekEntry (issues reports : string -> Z) (week : string)
  : Incidents.WeekData.t :=
  Incidents.WeekData.mk (weekStartToEnd week) (issues week) (reports week)
    (GoInt.add (issues week) (reports week)).

(** A page after which the loop goes on. *)
Definition continues {R} (response : AshbyApi.ListResponse R) : Prop :=
  AshbyApi.Success response = true
  /\ AshbyApi.MoreDataAvailable response = true.

(** The bodies sent for the pages that follow [pages]. *)
Definition followUps {R} (pages : list (AshbyApi.ListResponse R))
  : list AshbyApi.Body :=
  List.map (fun page => AshbyApi.bodyFor (AshbyApi.NextCursor page)) pages.

(** The message with which a loop gives up on [reply], if it does. *)
Definition failure {R} (reply : AshbyApi.Reply R) : option string :=
  match reply with
  | AshbyApi.RequestFailed err => Some err
  | AshbyApi.Unparsable err => Some ("failed to parse response: " +:+ err)
  | AshbyApi.Decoded response =>
      if AshbyApi.Success response then None
      else Some "API returned success=false"%string
  end.

(** The entry stored for a listed job. *)
Definition jobInfoOf (departments : gmap string string)
    (job : Applicants.Job.t) : Applicants.JobInfo.t :=
  Applicants.JobInfo.mk (Applicants.Job.Title job)
    (if String.eqb
          (Applicants.lookupName departments (Applicants.Job.DepartmentID job))
          ""
     then "No Department"%string
     else Applicants.lookupName departments
            (Applicants.Job.DepartmentID job)).

(** The listings of job [jobID] among [results]. *)
Definition listings (jobID : string) (results : list Applicants.Job.t)
  : list Applicants.Job.t :=
  List.filter (fun job => bool_decide (Applicants.Job.ID job = jobID)) results.

(** The items of a response body, none when it does not decode. *)
Definition itemsOf {R} (decode : string -> string + list R) (body : string)
  : list R :=
  match decode body with
  | inr items => items
  | inl _ => []
  end.

(** A body that decodes to at least one item. *)
Definition hasItems {R} (decode : string -> string + list R) (body : string)
  : Prop :=
  exists items, decode body = inr items /\ items <> [].

(** Two pages of applications: the first names the cursor of the
    second. *)
Definition firstPage : AshbyApi.ListResponse Applicants.App.t :=
  AshbyApi.mkResponse true (take 2 sampleApplications) true "cursor-2".

Definition finalPage : AshbyApi.ListResponse Applicants.App.t :=
  AshbyApi.mkResponse true (drop 2 sampleApplications) false "".

(** Two pages of jobs that list the job [job-1] twice. *)
Definition firstJobs : AshbyApi.ListResponse Applicants.Job.t :=
  AshbyApi.mkResponse true
    [Applicants.Job.mk "job-1" "Engineer" "Open" "dept-1"] true "cursor-2".

Definition finalJobs : AshbyApi.ListResponse Applicants.Job.t :=
  AshbyApi.mkResponse true
    [Applicants.Job.mk "job-1" "Staff Engineer" "Open" "dept-9"] false "".

(** A decoder of bodies that hold repository names, one per byte. *)
Definition decodeNames (body : string) : string + list string :=
  inr (List.map (fun c => String c EmptyString) (list_ascii_of_string body)).

(** The byte-wise order of strings: [a < b] in Go. *)
Definition before (a b : string) : Prop := OrderedTypeEx.String_as_OT.lt a b.

(** [a] may stand before [b] in a slice sorted by [less]. *)
Definition inOrder {A} (less : A -> A -> bool) (a b : A) : Prop :=
  less b a = false.


(** The order of the report: by department, and by job within a
    department. *)
Definition reportOrder (a b : GroupedJson.JobData.t) : Prop :=
  before (GroupedJson.JobData.Department a) (GroupedJson.JobData.Department b)
  \/ (GroupedJson.JobData.Department a = GroupedJson.JobData.Department b
      /\ (GroupedJson.JobData.Job a = GroupedJson.JobData.Job b
          \/ before (GroupedJson.JobData.Job a) (GroupedJson.JobData.Job b))).

(** An event that counts for one of [weeks]: it names a user and its
    timestamp parses to a time in one of these weeks. *)
Definition countsFor (parse : string -> option Time) (weeks : list string)
    (event : ActiveUsers.auditEvent) : bool :=
  negb (String.eqb (ActiveUsers.Username event) "")
  && match parse (ActiveUsers.RequestReceivedTimestamp event) with
     | Some t => bool_decide (getWeekStart t ∈ weeks)
     | None => false
     end.

(** The users of the events that count for one of [weeks]. *)
Definition usersWithin (parse : string -> option Time) (weeks : list string)
    (items : list ActiveUsers.auditEvent) : gset string :=
  list_to_set (List.map ActiveUsers.Username
                 (List.filter (countsFor parse weeks) items)).

(** The rule of the table: its 20 + 6 * 10 dashes. *)
Definition rule80 : string := Digits.repeat "-" 80 +:+ nl.

(** The report for given weekly counts and a given total: the JSON
    document with [--json], the table without. *)
Definition activeUsersReport (quote : string -> string) (outputJSON : bool)
    (weeks : list string) (currentWeek : string) (count : string -> Z)
    (total : Z) : list string :=
  if outputJSON
  then
    [Json.marshalIndent quote 0
       (ActiveUsers.outputJson
          (ActiveUsers.JsonOutput.mk
             (List.map (fun week =>
                ActiveUsers.WeekData.mk (weekStartToEnd week) (count week))
                weeks)
             (ActiveUsers.WeekData.mk (weekStartToEnd currentWeek)
                (count currentWeek))
             total))
     +:+ nl]
  else
    let table := newWeeklyTable 20 10 weeks in
    headerText table "Metric" currentWeek ++ [rule80]
    ++ rowText table "Active Users" count currentWeek ++ [rule80]
    ++ [nl +:+ "Total Unique Users: " +:+ itoa total +:+ nl].

(** Sample events, with dates for timestamps: two users in the week of
    2024-03-11, one of them twice, an event without a user, one with a
    broken timestamp and one of long ago. *)
Definition sampleEvents : list ActiveUsers.auditEvent :=
  [ActiveUsers.mkEvent "ada" "u1" "create" "2024-03-12";
   ActiveUsers.mkEvent "bob" "u2" "update" "2024-03-13";
   ActiveUsers.mkEvent "ada" "u1" "patch" "2024-03-14";
   ActiveUsers.mkEvent "" "u3" "create" "2024-03-12";
   ActiveUsers.mkEvent "cyd" "u4" "create" "yesterday";
   ActiveUsers.mkEvent "dan" "u5" "create" "2023-01-02"].

(** A query that succeeds, and a decoder that yields the sample events. *)
Definition sampleRun (path : string) (args : list string)
  : ActiveUsers.QueryOutcome :=
  ActiveUsers.Output "{}".

Definition sampleDecode (output : string)
  : string + list ActiveUsers.auditEvent :=
  inr sampleEvents.

(** The rule of the table. *)
Definition rule62 : string := Digits.repeat "=" 62 +:+ nl.

(** The table for the rows [rows], in this order. *)
Definition starsText (now : Time) (rows : list Stars.githubRepo)
  : list string :=
  [pad true 50 "Repository" +:+ " " +:+ pad false 10 "Stars" +:+ nl; rule62]
  ++ List.map (fun repo =>
       Stars.line (Stars.Name repo) (Stars.StargazersCount repo)) rows
  ++ [rule62;
      Stars.line ("Total [ " +:+ Stars.formatMinute (UTC now) +:+ " ]")
        (GoInt.sumFrom 0 (List.map Stars.StargazersCount rows))].

(** The order of the rows: by lower-cased name with [--sort], by stars
    without. *)
Definition rowOrder (ToLower : string -> string) (sortAlpha : bool)
    (a b : Stars.githubRepo) : Prop :=
  if sortAlpha
  then ToLower (Stars.Name a) = ToLower (Stars.Name b)
       \/ before (ToLower (Stars.Name a)) (ToLower (Stars.Name b))
  else Stars.StargazersCount a <= Stars.StargazersCount b.

(** The repositories found: those of the organization, or those of the
    user when the organization cannot be fetched. *)
Definition found (fetch : string -> string + list Stars.githubRepo)
  : string + list Stars.githubRepo :=
  match fetch "orgs"%string with
  | inr repos => inr repos
  | inl _ => fetch "users"%string
  end.

(** Three repositories, and a fetch that knows them as those of a user
    only. *)
Definition sampleRepos : list Stars.githubRepo :=
  [Stars.mkRepo "scorecard" 12; Stars.mkRepo "Docs" 3;
   Stars.mkRepo "cli" 40].

Definition fetchUser (entityType : string) : string + list Stars.githubRepo :=
  if String.eqb entityType "users" then inr sampleRepos
  else inl "not found"%string.

(** * Proofs *)

Lemma checkFrom_spec check n : forall z i,
  checkFrom check z n = true -> z <= i < z + Z.of_nat n -> check i = true.
Proof.
  induction n as [|n IH]; intros z i H Hi; [lia|].
  cbn [checkFrom] in H. apply andb_true_iff in H as [H0 H1].
  destruct (Z.eq_dec i z) as [->|Hne]; [exact H0|].
  apply (IH (z + 1)); [exact H1|lia].
Qed.

Lemma cycleCheck_all :
  checkFrom (fun doe => dateCheck (doe - 719468) (civil (doe - 719468)))
    0 (Z.to_nat 146097) = true.
Proof. vm_compute. reflexivity. Qed.

Lemma cycleCheck_ok doe :
  0 <= doe < 146097 -> dateCheck (doe - 719468) (civil (doe - 719468)) = true.
Proof.
  intros H.
  apply (checkFrom_spec
           (fun doe => dateCheck (doe - 719468) (civil (doe - 719468)))
           _ _ _ cycleCheck_all).
  rewrite Z2Nat.id; lia.
Qed.

Lemma isLeap_cycle y k : isLeap (y + 400 * k) = isLeap y.
Proof.
  unfold isLeap.
  replace (y + 400 * k) with (y + (100 * k) * 4) at 1 by ring.
  replace (y + 400 * k) with (y + (4 * k) * 100) at 1 by ring.
  replace (y + 400 * k) with (y + k * 400) by ring.
  now rewrite !Z.mod_add by lia.
Qed.

Lemma daysSinceEpoch_cycle y k :
  daysSinceEpoch (y + 400 * k) = daysSinceEpoch y + 146097 * k.
Proof.
  unfold daysSinceEpoch. cbv zeta.
  replace (y + 400 * k - 1) with (y - 1 + (100 * k) * 4) at 2 by ring.
  replace (y + 400 * k - 1) with (y - 1 + (4 * k) * 100) at 2 by ring.
  replace (y + 400 * k - 1) with (y - 1 + k * 400) at 2 by ring.
  rewrite !Z.div_add by lia. lia.
Qed.

Lemma dateToDays_cycle y m d k :
  dateToDays (y + 400 * k) m d = dateToDays y m d + 146097 * k.
Proof.
  unfold dateToDays. cbv zeta.
  replace (y + 400 * k + (m - 1) / 12) with (y + (m - 1) / 12 + 400 * k) by ring.
  rewrite isLeap_cycle, daysSinceEpoch_cycle. lia.
Qed.

Lemma daysIn_cycle m y k : daysIn m (y + 400 * k) = daysIn m y.
Proof. unfold daysIn. now rewrite isLeap_cycle. Qed.

Lemma civil_cycle z k :
  civil (z + 146097 * k) =
  let '(y, m, d) := civil z in (y + 400 * k, m, d).
Proof.
  unfold civil. cbv zeta.
  replace (z + 146097 * k + 719468) with (z + 719468 + k * 146097) by ring.
  rewrite Z.div_add, Z.mod_add by lia.
  set (doe := (z + 719468) mod 146097).
  set (yoe := (doe - doe / 1460 + doe / 36524 - doe / 146096) / 365).
  set (doy := doe - (365 * yoe + yoe / 4 - yoe / 100)).
  set (mp := (5 * doy + 2) / 153).
  destruct (_ <=? 2); f_equal; f_equal; ring.
Qed.

Lemma cycle_facts doe y m d :
  0 <= doe < 146097 -> civil (doe - 719468) = (y, m, d) ->
  dateToDays y m d = doe - 719468 /\ 1 <= m <= 12 /\ 1 <= d <= daysIn m y.
Proof.
  intros H E. pose proof (cycleCheck_ok doe H) as Hc.
  rewrite E in Hc. unfold dateCheck in Hc.
  rewrite !andb_true_iff in Hc. destruct Hc as [[[[H1 H2] H3] H4] H5].
  apply Z.eqb_eq in H1. apply Z.leb_le in H2, H3, H4, H5. auto.
Qed.

Lemma civil_dateToDays z y m d :
  civil z = (y, m, d) ->
  dateToDays y m d = z /\ 1 <= m <= 12 /\ 1 <= d <= daysIn m y.
Proof.
  intros E.
  assert (Hz : z = (z + 719468) mod 146097 - 719468
                   + 146097 * ((z + 719468) / 146097)).
  { pose proof (Z.div_mod (z + 719468) 146097 ltac:(lia)). lia. }
  assert (Hdoe : 0 <= (z + 719468) mod 146097 < 146097)
    by (apply Z.mod_pos_bound; lia).
  revert Hz Hdoe.
  generalize ((z + 719468) mod 146097) as doe.
  generalize ((z + 719468) / 146097) as era.
  intros era doe Hz Hdoe.
  pose proof (civil_cycle (doe - 719468) era) as Hcyc.
  rewrite <- Hz, E in Hcyc.
  destruct (civil (doe - 719468)) as [[y0 m0] d0] eqn:E0.
  injection Hcyc as -> -> ->.
  destruct (cycle_facts doe y0 m0 d0 Hdoe E0) as (H1 & H2 & H3).
  rewrite dateToDays_cycle, daysIn_cycle, H1. auto with zarith.
Qed.

Lemma dayNumber_midnight d : dayNumber (midnight d) = d.
Proof.
  unfold dayNumber, wallSec, midnight, secondsPerDay. cbn.
  rewrite Z.add_0_r. apply Z.div_mul. lia.
Qed.

Lemma dayNumber_UTC t : dayNumber (UTC t) = utcDay t.
Proof. unfold dayNumber, wallSec, UTC, utcDay. cbn. now rewrite Z.add_0_r. Qed.

Lemma dateToDays_civil z : let '(y, m, d) := civil z in dateToDays y m d = z.
Proof.
  destruct (civil z) as [[y m] d] eqn:E.
  now destruct (civil_dateToDays z y m d E).
Qed.

Lemma dateToDays_day y m d k : dateToDays y m (d + k) = dateToDays y m d + k.
Proof. unfold dateToDays. lia. Qed.

(** Adding days moves the instant by whole days and keeps the location. *)
Lemma AddDate_days t k :
  AddDate t 0 0 k = mkTime (unixSec t + k * secondsPerDay) (zoneOffset t).
Proof.
  unfold AddDate, dateOf.
  destruct (civil (dayNumber t)) as [[y m] d] eqn:E.
  destruct (civil_dateToDays _ _ _ _ E) as [Hd _].
  unfold Date. rewrite !Z.add_0_r, dateToDays_day, Hd.
  f_equal. unfold dayNumber, clock, secondsPerDay.
  pose proof (Z.div_mod (wallSec t) 86400 ltac:(lia)). unfold wallSec in *. lia.
Qed.

Lemma utcDay_shift u k o :
  utcDay (mkTime (u + k * secondsPerDay) o) = u / secondsPerDay + k.
Proof. unfold utcDay, secondsPerDay. cbn. apply Z.div_add. lia. Qed.

(** A formatted time depends on the calendar day only. *)
Lemma Format_day t layout :
  Format t layout = Format (midnight (dayNumber t)) layout.
Proof. unfold Format, dateOf. now rewrite dayNumber_midnight. Qed.

Lemma Format_AddDate_UTC t k layout :
  Format (AddDate (UTC t) 0 0 k) layout = Format (midnight (utcDay t + k)) layout.
Proof.
  rewrite AddDate_days, Format_day. f_equal. f_equal.
  unfold dayNumber, wallSec, UTC, utcDay, secondsPerDay. cbn.
  rewrite Z.add_0_r. apply Z.div_add. lia.
Qed.

Lemma Weekday_UTC t : Weekday (UTC t) = (utcDay t + 4) mod 7.
Proof. unfold Weekday. now rewrite dayNumber_UTC. Qed.

(** [getWeekStart] returns the key of the Monday on or before the day. *)
Lemma getWeekStart_key t : getWeekStart t = dateKey (weekStartDay t).
Proof.
  unfold getWeekStart, dateKey, weekStartDay.
  rewrite Format_AddDate_UTC, Weekday_UTC.
  f_equal. f_equal.
  pose proof (Z.mod_pos_bound (utcDay t + 4) 7 ltac:(lia)).
  pose proof (Z.mod_pos_bound (utcDay t + 3) 7 ltac:(lia)).
  destruct (Z.eqb_spec ((utcDay t + 4) mod 7) 0) as [E|E];
    Z.div_mod_to_equations; lia.
Qed.

Lemma getLastCompletedWeekStart_key now :
  getLastCompletedWeekStart now = dateKey (lastCompletedDay now).
Proof.
  unfold getLastCompletedWeekStart, dateKey, lastCompletedDay, weekStartDay.
  rewrite Weekday_UTC.
  assert (Hs : forall k, AddDate (AddDate (UTC now) 0 0 k) 0 0 (-6)
                    = mkTime (unixSec now + (k - 6) * secondsPerDay) 0).
  { intros k. rewrite !AddDate_days. cbn. f_equal. lia. }
  assert (Hf : forall k, Format (mkTime (unixSec now + k * secondsPerDay) 0) L_2006_01_02
                 = Format (midnight (utcDay now + k)) L_2006_01_02).
  { intros k. rewrite Format_day. f_equal. f_equal.
    unfold dayNumber, wallSec, utcDay, secondsPerDay. cbn.
    rewrite Z.add_0_r. apply Z.div_add. lia. }
  pose proof (Z.mod_pos_bound (utcDay now + 4) 7 ltac:(lia)).
  pose proof (Z.mod_pos_bound (utcDay now + 3) 7 ltac:(lia)).
  destruct (Z.eqb_spec ((utcDay now + 4) mod 7) 0) as [E|E];
    rewrite Hs, Hf; f_equal; f_equal; Z.div_mod_to_equations; lia.
Qed.

Lemma weekStartDay_monday t : isMonday (weekStartDay t).
Proof. unfold isMonday, weekStartDay. Z.div_mod_to_equations. lia. Qed.

Lemma weekStartDay_bounds t : weekStartDay t <= utcDay t <= weekStartDay t + 6.
Proof. unfold weekStartDay. Z.div_mod_to_equations. lia. Qed.

Lemma append_cons a s r : String a s +:+ r = String a (s +:+ r).
Proof. reflexivity. Qed.

Lemma append_nil r : "" +:+ r = r.
Proof. reflexivity. Qed.

Ltac app_norm :=
  repeat match goal with
  | |- context [String ?a ?s +:+ ?r] =>
      change (String a s +:+ r) with (String a (s +:+ r))
  | |- context [EmptyString +:+ ?r] => change (EmptyString +:+ r) with r
  end.

Ltac app_norm_in H :=
  repeat match type of H with
  | context [String ?a ?s +:+ ?r] =>
      change (String a s +:+ r) with (String a (s +:+ r)) in H
  | context [EmptyString +:+ ?r] => change (EmptyString +:+ r) with r in H
  end.

Lemma digit_ok k : 0 <= k <= 9 -> isDigit (digit k) = true /\ digitVal (digit k) = k.
Proof.
  intros H.
  assert (E : k = 0 \/ k = 1 \/ k = 2 \/ k = 3 \/ k = 4 \/ k = 5 \/ k = 6
              \/ k = 7 \/ k = 8 \/ k = 9) by lia.
  repeat (destruct E as [->|E]; [split; reflexivity|]). subst. split; reflexivity.
Qed.

Lemma appendInt_2 n : 0 <= n < 100 ->
  appendInt n 2 = String (digit (n / 10)) (String (digit (n mod 10)) "").
Proof.
  intros H. unfold appendInt.
  rewrite Z.abs_eq by lia.
  destruct (Z.ltb_spec n 0); [lia|].
  destruct (Z.ltb_spec n 100); [|lia]. reflexivity.
Qed.

Lemma appendInt_4 n : 0 <= n < 10000 ->
  appendInt n 4 =
  String (digit (n / 1000)) (String (digit (n / 100 mod 10))
    (String (digit (n / 10 mod 10)) (String (digit (n mod 10)) ""))).
Proof.
  intros H. unfold appendInt.
  rewrite Z.abs_eq by lia.
  destruct (Z.ltb_spec n 0); [lia|].
  destruct (Z.ltb_spec n 10000); [|lia]. reflexivity.
Qed.

Lemma getnum2_appendInt n rest : 0 <= n < 100 ->
  getnum2 (appendInt n 2 +:+ rest) = Some (n, rest).
Proof.
  intros H. rewrite appendInt_2 by lia. app_norm. cbn [getnum2].
  destruct (digit_ok (n / 10)) as [-> ->]; [Z.div_mod_to_equations; lia|].
  destruct (digit_ok (n mod 10)) as [-> ->]; [Z.div_mod_to_equations; lia|].
  cbn [andb]. do 2 f_equal. Z.div_mod_to_equations; lia.
Qed.

Lemma getyear4_appendInt n rest : 0 <= n < 10000 ->
  getyear4 (appendInt n 4 +:+ rest) = Some (n, rest).
Proof.
  intros H. rewrite appendInt_4 by lia. app_norm. cbn [getyear4].
  destruct (digit_ok (n / 1000)) as [-> ->]; [Z.div_mod_to_equations; lia|].
  destruct (digit_ok (n / 100 mod 10)) as [-> ->]; [Z.div_mod_to_equations; lia|].
  destruct (digit_ok (n / 10 mod 10)) as [-> ->]; [Z.div_mod_to_equations; lia|].
  destruct (digit_ok (n mod 10)) as [-> ->]; [Z.div_mod_to_equations; lia|].
  cbn [andb]. do 2 f_equal. Z.div_mod_to_equations; lia.
Qed.

Lemma isLeap_mod4 y : isLeap y = true -> y mod 4 = 0.
Proof. unfold isLeap. intros H. apply andb_true_iff in H as [H _]. lia. Qed.

Lemma daysBefore_cases m : 1 <= m <= 12 ->
  0 <= daysBefore m <= 334 /\ daysBefore m + (daysBefore (m + 1) - daysBefore m) <= 365
  /\ 28 <= daysBefore (m + 1) - daysBefore m <= 31.
Proof.
  intros H.
  assert (E : m = 1 \/ m = 2 \/ m = 3 \/ m = 4 \/ m = 5 \/ m = 6 \/ m = 7
              \/ m = 8 \/ m = 9 \/ m = 10 \/ m = 11 \/ m = 12) by lia.
  repeat (destruct E as [->|E]; [repeat split; vm_compute; discriminate|]).
  subst. repeat split; vm_compute; discriminate.
Qed.

(** Within the four-digit range the year of a day has four digits. *)
Lemma civil_year_range z y m d :
  civil z = (y, m, d) -> inLayoutRange z -> 0 <= y <= 9999.
Proof.
  intros E [Hlo Hhi].
  destruct (civil_dateToDays z y m d E) as (Hz & Hm & Hd).
  pose proof (daysBefore_cases m Hm) as (Hb1 & Hb2 & Hb4).
  unfold dateToDays in Hz. cbv zeta in Hz.
  replace ((m - 1) / 12) with 0 in Hz by (Z.div_mod_to_equations; lia).
  replace ((m - 1) mod 12 + 1) with m in Hz by (Z.div_mod_to_equations; lia).
  rewrite Z.add_0_r in Hz.
  unfold daysIn in Hd. unfold daysSinceEpoch in Hz. cbv zeta in Hz.
  destruct (isLeap y) eqn:L.
  - apply isLeap_mod4 in L.
    destruct (3 <=? m) eqn:E3, (m =? 2) eqn:E2; cbn [andb] in *;
      Z.div_mod_to_equations; lia.
  - rewrite andb_false_r in Hd. cbn [andb] in Hz.
    Z.div_mod_to_equations; lia.
Qed.

Lemma midnight_Date z y m d :
  civil z = (y, m, d) -> Date y m d 0 0 = midnight z.
Proof.
  intros E. destruct (civil_dateToDays z y m d E) as (Hz & _).
  unfold Date, midnight. rewrite Hz. f_equal. lia.
Qed.

(** Layout "2006-01-02" reads back what it printed, for four-digit years. *)
Lemma Parse_dateKey z :
  inLayoutRange z -> Parse_2006_01_02 (dateKey z) = Some (midnight z).
Proof.
  intros Hr. unfold dateKey, Format, dateOf. rewrite dayNumber_midnight.
  destruct (civil z) as [[y m] d] eqn:E.
  pose proof (civil_year_range z y m d E Hr) as Hy.
  destruct (civil_dateToDays z y m d E) as (Hz & Hm & Hd).
  pose proof (daysBefore_cases m Hm) as (_ & _ & Hb4).
  assert (Hd31 : d <= 31).
  { unfold daysIn in Hd. destruct ((m =? 2) && isLeap y); lia. }
  unfold Parse_2006_01_02.
  rewrite getyear4_appendInt by lia. app_norm. cbn [skipDash Ascii.eqb Bool.eqb].
  rewrite getnum2_appendInt by lia. app_norm. cbn [skipDash Ascii.eqb Bool.eqb].
  destruct (Z.leb_spec m 0); [lia|]. destruct (Z.ltb_spec 12 m); [lia|].
  cbn [orb].
  replace (appendInt d 2) with (appendInt d 2 +:+ "").
  2:{ rewrite appendInt_2 by lia. reflexivity. }
  rewrite getnum2_appendInt by lia.
  destruct (Z.ltb_spec d 1); [lia|]. destruct (Z.ltb_spec (daysIn m y) d); [lia|].
  cbn [orb]. f_equal. now apply midnight_Date.
Qed.

Lemma ParseIgnoringError_dateKey z :
  inLayoutRange z -> ParseIgnoringError (dateKey z) = midnight z.
Proof. intros H. unfold ParseIgnoringError. now rewrite Parse_dateKey. Qed.

(** *** Week keys are injective *)

Lemma digitsValue_decimal u : 0 <= u -> digitsValue (decimal u) = u.
Proof.
  intros H. unfold digitsValue, decimal.
  rewrite NilEmpty.usu, Unsigned.of_to. lia.
Qed.

Lemma digitsValue_zero s : digitsValue (String "0" s) = digitsValue s.
Proof.
  unfold digitsValue. cbn [NilEmpty.uint_of_string].
  destruct (NilEmpty.uint_of_string s); reflexivity.
Qed.

Lemma digitsValue_zeros k s : digitsValue (repeat "0" k +:+ s) = digitsValue s.
Proof.
  induction k as [|k IH]; [reflexivity|].
  cbn [repeat]. change ("0" +:+ repeat "0" k) with (String "0" (repeat "0" k)).
  change (String "0" (repeat "0" k) +:+ s) with (String "0" (repeat "0" k +:+ s)).
  now rewrite digitsValue_zero.
Qed.

Lemma digitsValue_small_all :
  checkFrom (fun u => digitsValue (appendInt u 4) =? u) 0 (Z.to_nat 10000) = true.
Proof. vm_compute. reflexivity. Qed.

Lemma digitsValue_appendInt u : 0 <= u -> digitsValue (appendInt u 4) = u.
Proof.
  intros H. destruct (Z.lt_ge_cases u 10000) as [Hs|Hl].
  - apply Z.eqb_eq.
    apply (checkFrom_spec (fun u => digitsValue (appendInt u 4) =? u)
             _ _ _ digitsValue_small_all).
    rewrite Z2Nat.id; lia.
  - unfold appendInt. rewrite Z.abs_eq by lia.
    destruct (Z.ltb_spec u 0); [lia|].
    destruct (Z.ltb_spec u 10000); [lia|].
    change (4 =? 2) with false. change (4 =? 4) with true. cbn [andb].
    change ("" +:+ ?x) with x.
    now rewrite digitsValue_zeros, digitsValue_decimal.
Qed.

Lemma appendInt_neg y : y < 0 -> appendInt y 4 = String "-" (appendInt (- y) 4).
Proof.
  intros H. unfold appendInt. rewrite Z.abs_opp.
  destruct (Z.ltb_spec y 0); [|lia].
  destruct (Z.ltb_spec (- y) 0); [lia|]. reflexivity.
Qed.

Lemma yearValue_appendInt y : yearValue (appendInt y 4) = y.
Proof.
  destruct (Z.lt_ge_cases y 0) as [Hn|Hp].
  - rewrite appendInt_neg by lia. cbn [yearValue]. rewrite Ascii.eqb_refl.
    rewrite digitsValue_appendInt; lia.
  - pose proof (digitsValue_appendInt y Hp) as Hv.
    destruct (appendInt y 4) as [|c r]; [exact Hv|].
    cbn [yearValue]. destruct (Ascii.eqb_spec c "-") as [->|_]; [|exact Hv].
    unfold digitsValue in Hv. cbn [NilEmpty.uint_of_string] in Hv.
    destruct (NilEmpty.uint_of_string r); cbn in Hv; lia.
Qed.

Lemma length_append (a b : string) :
  String.length (a +:+ b) = (String.length a + String.length b)%nat.
Proof. induction a as [|c a IH]; [reflexivity|]. cbn. now rewrite <- IH. Qed.

Lemma append_inj_suffix (a1 a2 b1 b2 : string) :
  String.length b1 = String.length b2 -> a1 +:+ b1 = a2 +:+ b2 ->
  a1 = a2 /\ b1 = b2.
Proof.
  intros Hl. revert a2. induction a1 as [|c a1 IH]; intros [|c2 a2] H.
  - now split.
  - exfalso. change ("" +:+ b1) with b1 in H. subst b1.
    change (String c2 a2 +:+ b2) with (String c2 (a2 +:+ b2)) in Hl.
    cbn [String.length] in Hl. rewrite length_append in Hl. lia.
  - exfalso. change ("" +:+ b2) with b2 in H. subst b2.
    change (String c a1 +:+ b1) with (String c (a1 +:+ b1)) in Hl.
    cbn [String.length] in Hl. rewrite length_append in Hl. lia.
  - change (String c a1 +:+ b1) with (String c (a1 +:+ b1)) in H.
    change (String c2 a2 +:+ b2) with (String c2 (a2 +:+ b2)) in H.
    injection H as -> H. destruct (IH _ H) as [-> ->]. now split.
Qed.

Lemma length_appendInt_2 n : 0 <= n < 100 -> String.length (appendInt n 2) = 2%nat.
Proof. intros H. now rewrite appendInt_2. Qed.

Lemma civil_day_range z y m d :
  civil z = (y, m, d) -> 1 <= m <= 12 /\ 1 <= d <= 31.
Proof.
  intros E. destruct (civil_dateToDays z y m d E) as (_ & Hm & Hd).
  pose proof (daysBefore_cases m Hm) as (_ & _ & Hb).
  unfold daysIn in Hd. destruct ((m =? 2) && isLeap y); lia.
Qed.

(** Two days with the same key are the same day. *)
Lemma dateKey_inj a b : dateKey a = dateKey b -> a = b.
Proof.
  unfold dateKey, Format, dateOf. rewrite !dayNumber_midnight.
  destruct (civil a) as [[y m] d] eqn:Ea.
  destruct (civil b) as [[y' m'] d'] eqn:Eb.
  destruct (civil_day_range _ _ _ _ Ea) as [Hm Hd].
  destruct (civil_day_range _ _ _ _ Eb) as [Hm' Hd'].
  intros H.
  apply append_inj_suffix in H as [Hy Ht].
  2:{ app_norm. cbn [String.length]. rewrite !length_append.
      cbn [String.length]. rewrite !length_appendInt_2 by lia. reflexivity. }
  apply (f_equal yearValue) in Hy. rewrite !yearValue_appendInt in Hy. subst y'.
  app_norm_in Ht. injection Ht as Ht.
  apply (f_equal getnum2) in Ht. rewrite !getnum2_appendInt in Ht by lia.
  injection Ht as -> Ht.
  assert (Hdd : getnum2 (appendInt d 2 +:+ "") = getnum2 (appendInt d' 2 +:+ "")).
  { rewrite !appendInt_2 by lia. rewrite !appendInt_2 in Ht by lia.
    now rewrite Ht. }
  rewrite !getnum2_appendInt in Hdd by lia. injection Hdd as ->.
  pose proof (dateToDays_civil a) as Ha. rewrite Ea in Ha.
  pose proof (dateToDays_civil b) as Hb. rewrite Eb in Hb. congruence.
Qed.

Lemma dateKey_nonempty z : dateKey z <> ""%string.
Proof.
  unfold dateKey, Format. destruct (dateOf _) as [[y m] d].
  intros H. apply (f_equal String.length) in H.
  rewrite length_append in H. app_norm_in H. cbn [String.length] in H. lia.
Qed.

(** *** Dates and day numbers correspond one to one *)

Lemma daysSinceEpoch_step y :
  daysSinceEpoch (y + 1) = daysSinceEpoch y + 365 + (if isLeap y then 1 else 0).
Proof.
  unfold daysSinceEpoch, isLeap. cbv zeta.
  replace (y + 1 - 1) with y by lia.
  destruct (Z.eqb_spec (y mod 4) 0), (Z.eqb_spec (y mod 100) 0),
    (Z.eqb_spec (y mod 400) 0); cbn [negb andb orb];
    Z.div_mod_to_equations; lia.
Qed.

Lemma daysSinceEpoch_mono y y' : y <= y' -> daysSinceEpoch y <= daysSinceEpoch y'.
Proof.
  intros H. replace y' with (y + Z.of_nat (Z.to_nat (y' - y))) by lia.
  induction (Z.to_nat (y' - y)) as [|n IH]; [rewrite Z.add_0_r; lia|].
  replace (y + Z.of_nat (S n)) with (y + Z.of_nat n + 1) by lia.
  rewrite daysSinceEpoch_step. destruct (isLeap _); lia.
Qed.

Lemma dateToDays_yearDay y m d : 1 <= m <= 12 ->
  dateToDays y m d = daysSinceEpoch y + yearDay (isLeap y) m d.
Proof.
  intros H. unfold dateToDays, yearDay. cbv zeta.
  replace ((m - 1) / 12) with 0 by (Z.div_mod_to_equations; lia).
  replace ((m - 1) mod 12 + 1) with m by (Z.div_mod_to_equations; lia).
  rewrite Z.add_0_r. lia.
Qed.

Lemma daysIn_monthLength m y : daysIn m y = monthLength (isLeap y) m.
Proof. reflexivity. Qed.

Ltac month_cases m H :=
  let E := fresh "E" in
  assert (E : m = 1 \/ m = 2 \/ m = 3 \/ m = 4 \/ m = 5 \/ m = 6 \/ m = 7
              \/ m = 8 \/ m = 9 \/ m = 10 \/ m = 11 \/ m = 12) by lia;
  clear H;
  repeat (destruct E as [E|E]; [subst m|]); [..|subst m].

Lemma yearDay_range leap m d :
  1 <= m <= 12 -> 1 <= d <= monthLength leap m ->
  0 <= yearDay leap m d < 365 + (if leap then 1 else 0).
Proof.
  intros Hm. month_cases m Hm; destruct leap; vm_compute monthLength;
    unfold yearDay; cbn [andb]; vm_compute daysBefore;
    vm_compute Z.leb; cbn [andb]; lia.
Qed.

Lemma yearDay_inj leap m d m' d' :
  1 <= m <= 12 -> 1 <= d <= monthLength leap m ->
  1 <= m' <= 12 -> 1 <= d' <= monthLength leap m' ->
  yearDay leap m d = yearDay leap m' d' -> m = m' /\ d = d'.
Proof.
  intros Hm Hd Hm' Hd'.
  month_cases m Hm; month_cases m' Hm'; destruct leap;
    revert Hd Hd'; vm_compute monthLength; unfold yearDay; cbn [andb];
    vm_compute daysBefore; vm_compute Z.leb; cbn [andb]; lia.
Qed.

Lemma dateToDays_inj y m d y' m' d' :
  1 <= m <= 12 -> 1 <= d <= daysIn m y ->
  1 <= m' <= 12 -> 1 <= d' <= daysIn m' y' ->
  dateToDays y m d = dateToDays y' m' d' -> (y, m, d) = (y', m', d').
Proof.
  intros Hm Hd Hm' Hd' H.
  rewrite !dateToDays_yearDay in H by assumption.
  rewrite daysIn_monthLength in Hd, Hd'.
  pose proof (yearDay_range _ _ _ Hm Hd) as Hr.
  pose proof (yearDay_range _ _ _ Hm' Hd') as Hr'.
  assert (Hy : y = y').
  { destruct (Z.lt_total y y') as [Hlt|[Heq|Hgt]]; [exfalso|exact Heq|exfalso].
    - pose proof (daysSinceEpoch_mono (y + 1) y' ltac:(lia)) as Hmono.
      rewrite daysSinceEpoch_step in Hmono. lia.
    - pose proof (daysSinceEpoch_mono (y' + 1) y ltac:(lia)) as Hmono.
      rewrite daysSinceEpoch_step in Hmono. lia. }
  subst y'.
  destruct (yearDay_inj _ _ _ _ _ Hm Hd Hm' Hd' ltac:(lia)) as [-> ->].
  reflexivity.
Qed.

(** Every valid date is the date of its day number. *)
Lemma civil_dateToDays_inv y m d :
  1 <= m <= 12 -> 1 <= d <= daysIn m y -> civil (dateToDays y m d) = (y, m, d).
Proof.
  intros Hm Hd.
  destruct (civil (dateToDays y m d)) as [[y' m'] d'] eqn:E.
  destruct (civil_dateToDays _ _ _ _ E) as (Hz & Hm' & Hd').
  now apply dateToDays_inj.
Qed.

Lemma digit_digitVal c : isDigit c = true -> digit (digitVal c) = c.
Proof.
  destruct c as [[] [] [] [] [] [] [] []]; intros H; try discriminate H;
    reflexivity.
Qed.

Lemma digitVal_range c : isDigit c = true -> 0 <= digitVal c <= 9.
Proof.
  unfold isDigit, digitVal. intros H. apply andb_true_iff in H as [H1 H2]. lia.
Qed.

(** A key that parses is the key of the day it parses to. *)
Lemma Parse_sound s t :
  Parse_2006_01_02 s = Some t -> t = midnight (utcDay t) /\ dateKey (utcDay t) = s.
Proof.
  unfold Parse_2006_01_02. intros H.
  destruct s as [|a [|b [|c [|d s]]]]; try discriminate H.
  cbn [getyear4] in H.
  destruct (isDigit a) eqn:Da, (isDigit b) eqn:Db, (isDigit c) eqn:Dc,
    (isDigit d) eqn:Dd; try discriminate H. cbn [andb] in H.
  destruct s as [|dash1 s]; try discriminate H. cbn [skipDash] in H.
  destruct (Ascii.eqb_spec dash1 "-") as [->|]; try discriminate H.
  destruct s as [|e [|f s]]; try discriminate H. cbn [getnum2] in H.
  destruct (isDigit e) eqn:De, (isDigit f) eqn:Df; try discriminate H.
  cbn [andb] in H.
  pose proof (digitVal_range _ Da). pose proof (digitVal_range _ Db).
  pose proof (digitVal_range _ Dc). pose proof (digitVal_range _ Dd).
  pose proof (digitVal_range _ De). pose proof (digitVal_range _ Df).
  set (y := ((digitVal a * 10 + digitVal b) * 10 + digitVal c) * 10 + digitVal d) in *.
  set (m := digitVal e * 10 + digitVal f) in *.
  destruct (Z.leb_spec m 0); try discriminate H.
  destruct (Z.ltb_spec 12 m); try discriminate H. cbn [orb] in H.
  destruct s as [|dash2 s]; try discriminate H. cbn [skipDash] in H.
  destruct (Ascii.eqb_spec dash2 "-") as [->|]; try discriminate H.
  destruct s as [|g [|h s]]; try discriminate H. cbn [getnum2] in H.
  destruct (isDigit g) eqn:Dg, (isDigit h) eqn:Dh; try discriminate H.
  cbn [andb] in H.
  pose proof (digitVal_range _ Dg). pose proof (digitVal_range _ Dh).
  set (dd := digitVal g * 10 + digitVal h) in *.
  destruct s; try discriminate H.
  destruct (Z.ltb_spec dd 1); try discriminate H.
  destruct (Z.ltb_spec (daysIn m y) dd); try discriminate H. cbn [orb] in H.
  injection H as <-.
  assert (Hday : utcDay (Date y m dd 0 0) = dateToDays y m dd).
  { unfold utcDay, Date, secondsPerDay. cbn [unixSec].
    replace (dateToDays y m dd * 86400 + 0 - 0) with (dateToDays y m dd * 86400) by lia.
    apply Z.div_mul. lia. }
  rewrite Hday. split.
  - unfold Date, midnight. f_equal. lia.
  - unfold dateKey, Format, dateOf. rewrite dayNumber_midnight.
    rewrite civil_dateToDays_inv by lia.
    rewrite appendInt_4 by (subst y; lia).
    rewrite (appendInt_2 m) by lia. rewrite (appendInt_2 dd) by lia.
    app_norm.
    replace (y / 1000) with (digitVal a) by (subst y; Z.div_mod_to_equations; lia).
    replace (y / 100 mod 10) with (digitVal b) by (subst y; Z.div_mod_to_equations; lia).
    replace (y / 10 mod 10) with (digitVal c) by (subst y; Z.div_mod_to_equations; lia).
    replace (y mod 10) with (digitVal d) by (subst y; Z.div_mod_to_equations; lia).
    replace (m / 10) with (digitVal e) by (subst m; Z.div_mod_to_equations; lia).
    replace (m mod 10) with (digitVal f) by (subst m; Z.div_mod_to_equations; lia).
    replace (dd / 10) with (digitVal g) by (subst dd; Z.div_mod_to_equations; lia).
    replace (dd mod 10) with (digitVal h) by (subst dd; Z.div_mod_to_equations; lia).
    now rewrite !digit_digitVal by assumption.
Qed.

(** *** The loop of [getLastNWeeks] *)

Lemma weeksBack_step t i : AddDate (weeksBack t i) 0 0 (-7) = weeksBack t (S i).
Proof. rewrite AddDate_days. unfold weeksBack. cbn. f_equal. lia. Qed.

Lemma lastNWeeks_loop (t : Time) (len k : nat) : (k <= len)%nat ->
  fold_left (lastNWeeksStep len) (seq 0 k) (replicate len ""%string, t) =
  (replicate (len - k) ""%string
     ++ List.map (fun j => Format (weeksBack t (len - 1 - j)) L_2006_01_02)
          (seq (len - k) k),
   weeksBack t k).
Proof.
  induction k as [|k IH]; intros Hk.
  - cbn. rewrite Nat.sub_0_r, app_nil_r. f_equal.
    unfold weeksBack. destruct t; cbn. f_equal. lia.
  - rewrite seq_S, fold_left_app, IH by lia. cbn [fold_left lastNWeeksStep Nat.add].
    rewrite weeksBack_step. f_equal.
    replace (len - k)%nat with (S (len - S k)) by lia.
    rewrite replicate_S_end, <- app_assoc. cbn [app].
    replace (len - 1 - k)%nat with (length (replicate (len - S k) ""%string) + 0)%nat
      by (rewrite length_replicate; lia).
    rewrite insert_app_r. cbn [seq List.map]. f_equal.
    change (<[0%nat:=?x]> (?y :: ?l)) with (x :: l).
    do 3 f_equal. lia.
Qed.

Lemma ParseIgnoringError_UTC s : zoneOffset (ParseIgnoringError s) = 0.
Proof.
  unfold ParseIgnoringError.
  destruct (Parse_2006_01_02 s) as [t|] eqn:E; [|reflexivity].
  unfold Parse_2006_01_02 in E.
  repeat case_match; try discriminate. now injection E as <-.
Qed.

Lemma midnight_utcDay t :
  zoneOffset t = 0 -> unixSec t mod secondsPerDay = 0 -> t = midnight (utcDay t).
Proof.
  destruct t as [u o]. cbn. intros -> H. unfold midnight, utcDay. cbn. f_equal.
  unfold secondsPerDay in *. Z.div_mod_to_equations. lia.
Qed.

(** [getLastNWeeks] returns, oldest first, the keys of the [n] days that
    lie whole weeks before the day to which its starting key parses. *)
Lemma getLastNWeeks_keys now n : 0 <= n <= maxStrings ->
  getLastNWeeks now n =
  Some (List.map
          (fun j => dateKey (utcDay (ParseIgnoringError (getLastCompletedWeekStart now))
                             - 7 * (n - 1 - Z.of_nat j)))
          (seq 0 (Z.to_nat n))).
Proof.
  intros Hn. unfold getLastNWeeks.
  destruct (Z.ltb_spec n 0); [lia|].
  destruct (Z.ltb_spec maxStrings n); [lia|]. cbn [orb]. f_equal.
  set (t := ParseIgnoringError _).
  rewrite lastNWeeks_loop by lia. cbn [fst].
  rewrite Nat.sub_diag. cbn [replicate app].
  apply map_ext_in. intros j Hj. apply in_seq in Hj.
  unfold dateKey. rewrite Format_day. f_equal. f_equal.
  unfold weeksBack, dayNumber, wallSec, utcDay, secondsPerDay. cbn.
  assert (Ht : zoneOffset t = 0) by apply ParseIgnoringError_UTC.
  rewrite Ht, Z.add_0_r.
  replace (unixSec t - 7 * Z.of_nat (Z.to_nat n - 1 - j) * 86400)
    with (unixSec t + (- (7 * Z.of_nat (Z.to_nat n - 1 - j))) * 86400) by lia.
  rewrite Z.div_add by lia. lia.
Qed.

(** *** Running the table methods *)

Lemma bind_run {S A B} (m : M S A) (k : A -> M S B) (s : S) :
  (m ≫= k) s =
  match m s with
  | (Val a, s') => k a s'
  | (Panic, s') => (Panic, s')
  end.
Proof. reflexivity. Qed.

Lemma bind_val {S A B} (m : M S A) (k : A -> M S B) (s s' : S) (a : A) :
  m s = (Val a, s') -> (m ≫= k) s = k a s'.
Proof. intros H. now rewrite bind_run, H. Qed.

Lemma bind_panic {S A B} (m : M S A) (k : A -> M S B) (s s' : S) :
  m s = (Panic, s') -> (m ≫= k) s = (Panic, s').
Proof. intros H. now rewrite bind_run, H. Qed.

Lemma emit_emit e a b : emit (emit e a) b = emit e (a ++ b).
Proof. unfold emit. cbn. now rewrite <- app_assoc. Qed.

Lemma emit_nil e : emit e [] = e.
Proof. destruct e. unfold emit. cbn. now rewrite app_nil_r. Qed.

Lemma self_emit e text : self (emit e text) = self e.
Proof. reflexivity. Qed.

Lemma weekValues_emit e text : weekValues (emit e text) = weekValues e.
Proof. reflexivity. Qed.

Lemma stdout_emit e text : stdout (emit e text) = stdout e ++ text.
Proof. reflexivity. Qed.

(** Closes a goal [(r, emit .. (emit e a) ..) = (r, emit e text)]. *)
Ltac emitted :=
  rewrite ?emit_emit, ?self_emit, ?weekValues_emit;
  apply (f_equal (pair _)); apply (f_equal (emit _));
  cbn [app]; rewrite <- ?app_assoc; cbn [app]; reflexivity.

Lemma Printf_run text e : Printf text e = (Val tt, emit e [text]).
Proof. reflexivity. Qed.

Lemma field_run {A} (f : weeklyTable -> A) e : field f e = (Val (f (self e)), e).
Proof. reflexivity. Qed.

Lemma index_run key e : index key e = (Val (GoMap.index (weekValues e) key), e).
Proof. reflexivity. Qed.

Lemma printCount_run count e :
  printCount count e = (Val tt, emit e [cell (weekColWidth (self e)) count]).
Proof.
  unfold printCount. rewrite (bind_val _ _ _ _ _ (field_run _ e)).
  unfold cell. destruct (count =? 0); apply Printf_run.
Qed.

(** The loop over the configured weeks. *)
Lemma weekLoop_run ws : forall acc e,
  foldM (fun total week =>
           count ← index week; printCount count;; mret (GoInt.add total count))
    acc ws e =
  (Val (GoInt.sumFrom acc (List.map (GoMap.index (weekValues e)) ws)),
   emit e (List.map (fun week => cell (weekColWidth (self e))
                                   (GoMap.index (weekValues e) week)) ws)).
Proof.
  induction ws as [|week ws IH]; intros acc e.
  - cbn [foldM List.map]. unfold mret, M_ret. now rewrite emit_nil.
  - cbn [foldM].
    erewrite bind_val.
    2:{ erewrite bind_val by apply index_run.
        erewrite bind_val by apply printCount_run. reflexivity. }
    rewrite IH. cbn [List.map GoInt.sumFrom fold_left].
    rewrite emit_emit. reflexivity.
Qed.

(** The loop over a slice of counts. *)
Lemma sliceLoop_run counts : forall acc e,
  foldM (fun total count => printCount count;; mret (GoInt.add total count))
    acc counts e =
  (Val (GoInt.sumFrom acc counts),
   emit e (List.map (cell (weekColWidth (self e))) counts)).
Proof.
  induction counts as [|count counts IH]; intros acc e.
  - cbn [foldM List.map]. unfold mret, M_ret. now rewrite emit_nil.
  - cbn [foldM].
    erewrite bind_val.
    2:{ erewrite bind_val by apply printCount_run. reflexivity. }
    rewrite IH. cbn [List.map GoInt.sumFrom fold_left].
    rewrite emit_emit. reflexivity.
Qed.

Lemma currentCell_run cw e :
  (if negb (String.eqb cw "")
   then count ← index cw; printCount count
   else mret tt) e =
  (Val tt, emit e (if String.eqb cw "" then []
                   else [cell (weekColWidth (self e)) (GoMap.index (weekValues e) cw)])).
Proof.
  destruct (String.eqb cw ""); cbn [negb].
  - unfold mret, M_ret. now rewrite emit_nil.
  - erewrite bind_val by apply index_run. apply printCount_run.
Qed.

(** [printRow] returns the total of the configured weeks and appends the
    row to standard output; the table and the map are as before. *)
Lemma printRow_run label cw e :
  printRow label cw e =
  (Val (GoInt.sumFrom 0 (List.map (GoMap.index (weekValues e)) (weeks (self e)))),
   emit e (rowText (self e) label (GoMap.index (weekValues e)) cw)).
Proof.
  unfold printRow.
  erewrite bind_val by apply field_run.
  erewrite bind_val by apply Printf_run.
  erewrite bind_val by apply field_run.
  erewrite bind_val by apply weekLoop_run.
  erewrite bind_val by apply currentCell_run.
  erewrite bind_val by apply field_run.
  erewrite bind_val by apply Printf_run.
  unfold mret, M_ret, rowText. emitted.
Qed.

Lemma printTotalsRow_run label cw e :
  printTotalsRow label cw e =
  (Val tt, emit e (rowText (self e) label (GoMap.index (weekValues e)) cw)).
Proof.
  unfold printTotalsRow.
  erewrite bind_val by apply field_run.
  erewrite bind_val by apply Printf_run.
  erewrite bind_val by apply field_run.
  erewrite bind_val by apply weekLoop_run.
  erewrite bind_val by apply currentCell_run.
  erewrite bind_val by apply field_run.
  rewrite Printf_run. unfold rowText. emitted.
Qed.

Lemma printRowWithSlice_run label counts current e :
  printRowWithSlice label counts current e =
  (Val (GoInt.sumFrom 0 counts),
   emit e (sliceText (self e) label counts
             (if 0 <=? current then Some current else None))).
Proof.
  unfold printRowWithSlice.
  erewrite bind_val by apply field_run.
  erewrite bind_val by apply Printf_run.
  erewrite bind_val by apply sliceLoop_run.
  unfold sliceText. destruct (0 <=? current).
  - erewrite bind_val by apply printCount_run.
    erewrite bind_val by apply field_run.
    erewrite bind_val by apply Printf_run.
    unfold mret, M_ret. emitted.
  - rewrite bind_run. unfold mret at 1, M_ret at 1.
    erewrite bind_val by apply field_run.
    erewrite bind_val by apply Printf_run.
    unfold mret, M_ret. emitted.
Qed.

Lemma headerLoop_run ws : forall e,
  forEach ws (fun week =>
    w ← field weekColWidth; Printf (rightS w (Week.formatWeekEnd week))) e =
  (Val tt, emit e (List.map (fun week => rightS (weekColWidth (self e))
                                           (Week.formatWeekEnd week)) ws)).
Proof.
  unfold forEach.
  induction ws as [|week ws IH]; intros e.
  - cbn [foldM List.map]. unfold mret, M_ret. now rewrite emit_nil.
  - cbn [foldM].
    erewrite bind_val.
    2:{ erewrite bind_val by apply field_run. apply Printf_run. }
    rewrite IH. cbn [List.map]. rewrite emit_emit. reflexivity.
Qed.

Lemma printHeader_run labelTitle cw e :
  printHeader labelTitle cw e = (Val tt, emit e (headerText (self e) labelTitle cw)).
Proof.
  unfold printHeader.
  erewrite bind_val by apply field_run.
  erewrite bind_val by apply Printf_run.
  erewrite bind_val by apply field_run.
  erewrite bind_val by apply headerLoop_run.
  unfold headerText. destruct (String.eqb cw ""); cbn [negb].
  - rewrite bind_run. unfold mret at 1, M_ret at 1.
    erewrite bind_val by apply field_run.
    rewrite Printf_run. emitted.
  - erewrite bind_val.
    2:{ erewrite bind_val by apply field_run. apply Printf_run. }
    erewrite bind_val by apply field_run.
    rewrite Printf_run. emitted.
Qed.

Lemma printSeparator_run cw e :
  printSeparator cw e =
  match Repeat "-" (ruleWidth (self e) (columnsOf (self e) cw)) with
  | Some line => (Val tt, emit e [line +:+ nl])
  | None => (Panic, e)
  end.
Proof.
  unfold printSeparator.
  erewrite bind_val by apply field_run.
  erewrite bind_val by apply field_run.
  erewrite bind_val by apply field_run.
  unfold ruleWidth, columnsOf.
  destruct (String.eqb cw ""); cbn [negb];
    (destruct (Repeat _ _) as [line|]; [apply Printf_run|reflexivity]).
Qed.

(** *** Running the methods of the earlier table *)

Lemma rowText_no_current t label f :
  rowText t label f "" =
  leftS (labelColWidth t) label
  :: List.map (fun week => cell (weekColWidth t) (f week)) (weeks t)
  ++ [rightD (weekColWidth t) (GoInt.sumFrom 0 (List.map f (weeks t))) +:+ nl].
Proof. reflexivity. Qed.

Lemma Legacy_printRow_run label e :
  Legacy.printRow label e =
  (Val (GoInt.sumFrom 0 (List.map (GoMap.index (weekValues e)) (weeks (self e)))),
   emit e (rowText (self e) label (GoMap.index (weekValues e)) "")).
Proof.
  unfold Legacy.printRow.
  erewrite bind_val by apply field_run.
  erewrite bind_val by apply Printf_run.
  erewrite bind_val by apply field_run.
  erewrite bind_val by apply weekLoop_run.
  erewrite bind_val by apply field_run.
  erewrite bind_val by apply Printf_run.
  rewrite rowText_no_current. unfold mret, M_ret. emitted.
Qed.

Lemma Legacy_printTotalsRow_run label e :
  Legacy.printTotalsRow label e =
  (Val tt, emit e (rowText (self e) label (GoMap.index (weekValues e)) "")).
Proof.
  unfold Legacy.printTotalsRow.
  erewrite bind_val by apply field_run.
  erewrite bind_val by apply Printf_run.
  erewrite bind_val by apply field_run.
  erewrite bind_val by apply weekLoop_run.
  erewrite bind_val by apply field_run.
  rewrite Printf_run, rowText_no_current. emitted.
Qed.

Lemma Legacy_printRowWithSlice_run label counts e :
  Legacy.printRowWithSlice label counts e =
  (Val (GoInt.sumFrom 0 counts), emit e (sliceText (self e) label counts None)).
Proof.
  unfold Legacy.printRowWithSlice.
  erewrite bind_val by apply field_run.
  erewrite bind_val by apply Printf_run.
  erewrite bind_val by apply sliceLoop_run.
  erewrite bind_val by apply field_run.
  erewrite bind_val by apply Printf_run.
  unfold mret, M_ret, sliceText. emitted.
Qed.

Lemma Legacy_printHeader_run labelTitle e :
  Legacy.printHeader labelTitle e =
  (Val tt, emit e (headerText (self e) labelTitle "")).
Proof.
  unfold Legacy.printHeader.
  erewrite bind_val by apply field_run.
  erewrite bind_val by apply Printf_run.
  erewrite bind_val by apply field_run.
  erewrite bind_val by apply headerLoop_run.
  erewrite bind_val by apply field_run.
  rewrite Printf_run. unfold headerText. cbn [String.eqb]. emitted.
Qed.

Lemma Legacy_printSeparator_run e :
  Legacy.printSeparator e =
  match Repeat "-" (ruleWidth (self e) (columnsOf (self e) "")) with
  | Some line => (Val tt, emit e [line +:+ nl])
  | None => (Panic, e)
  end.
Proof.
  unfold Legacy.printSeparator.
  erewrite bind_val by apply field_run.
  erewrite bind_val by apply field_run.
  erewrite bind_val by apply field_run.
  unfold ruleWidth, columnsOf. cbn [String.eqb].
  destruct (Repeat _ _) as [line|]; [apply Printf_run|reflexivity].
Qed.

(** *** Sums of Go [int]s *)

Ltac int_consts :=
  change (2 ^ 63) with 9223372036854775808 in *;
  change (2 ^ 64) with 18446744073709551616 in *.

Lemma wrap_range z : GoInt.inRange (GoInt.wrap z).
Proof.
  unfold GoInt.inRange, GoInt.wrap. int_consts.
  pose proof (Z.mod_pos_bound (z + 9223372036854775808) 18446744073709551616
                ltac:(lia)). lia.
Qed.

Lemma wrap_id z : GoInt.inRange z -> GoInt.wrap z = z.
Proof.
  unfold GoInt.inRange, GoInt.wrap. int_consts. intros H.
  rewrite Z.mod_small; lia.
Qed.

Lemma wrap_add_l a b : GoInt.wrap (GoInt.wrap a + b) = GoInt.wrap (a + b).
Proof.
  unfold GoInt.wrap. int_consts. f_equal.
  replace ((a + 9223372036854775808) mod 18446744073709551616
           - 9223372036854775808 + b + 9223372036854775808)
    with ((a + 9223372036854775808) mod 18446744073709551616 + b) by lia.
  rewrite Z.add_mod_idemp_l by lia. f_equal. lia.
Qed.

Lemma sumFrom_wrap xs : forall acc,
  GoInt.sumFrom (GoInt.wrap acc) xs = GoInt.wrap (acc + sumZ xs).
Proof.
  induction xs as [|x xs IH]; intros acc; cbn [GoInt.sumFrom fold_left].
  - unfold sumZ. cbn. now rewrite Z.add_0_r.
  - change (sumZ (x :: xs)) with (x + sumZ xs).
    change (fold_left GoInt.add xs (GoInt.add (GoInt.wrap acc) x))
      with (GoInt.sumFrom (GoInt.add (GoInt.wrap acc) x) xs).
    unfold GoInt.add. rewrite wrap_add_l, IH. f_equal. lia.
Qed.

(** The running total of a row is the sum of its counts, reduced to the
    range of [int]. *)
Lemma sumFrom_total xs : GoInt.sumFrom 0 xs = GoInt.wrap (sumZ xs).
Proof. exact (sumFrom_wrap xs 0). Qed.

Lemma sumFrom_exact xs : GoInt.inRange (sumZ xs) -> GoInt.sumFrom 0 xs = sumZ xs.
Proof. intros H. now rewrite sumFrom_total, wrap_id. Qed.

(** *** Padding *)

Lemma spaces_nonpos n : n <= 0 -> spaces n = ""%string.
Proof. intros H. unfold spaces. now replace (Z.to_nat n) with O by lia. Qed.

Lemma right_aligned w s : 0 <= w <= 1000000 ->
  star false w s = spaces (w - runeCount s) +:+ s.
Proof.
  intros H. unfold star, pad.
  destruct (Z.ltb_spec 1000000 w); [lia|].
  destruct (Z.ltb_spec w (-1000000)); [lia|]. cbn [orb].
  destruct (Z.ltb_spec w 0); [lia|].
  destruct (Z.leb_spec (w - runeCount s) 0); [|reflexivity].
  now rewrite spaces_nonpos.
Qed.

(** ** Text: UTF-8 and decimal numerals *)

(** *** Runes *)

Ltac decide_bytes :=
  repeat match goal with
  | H : (_ && _) = true |- _ => apply andb_true_iff in H as [? ?]
  | H : (_ && _) = false |- _ => apply andb_false_iff in H
  | H : (_ || _) = true |- _ => apply orb_true_iff in H
  | H : (_ || _) = false |- _ => apply orb_false_iff in H as [? ?]
  | H : negb _ = true |- _ => apply negb_true_iff in H
  | H : negb _ = false |- _ => apply negb_false_iff in H
  | H : (_ <=? _) = true |- _ => apply Z.leb_le in H
  | H : (_ <=? _) = false |- _ => apply Z.leb_gt in H
  | H : (_ <? _) = true |- _ => apply Z.ltb_lt in H
  | H : (_ <? _) = false |- _ => apply Z.ltb_ge in H
  | H : (_ =? _) = true |- _ => apply Z.eqb_eq in H
  | H : (_ =? _) = false |- _ => apply Z.eqb_neq in H
  end.

Lemma leadByte_spec c more lo hi :
  leadByte c = Some (more, lo, hi) ->
  194 <= byteOf c /\ 128 <= lo /\ hi <= 191
  /\ (more = 1 \/ more = 2 \/ more = 3)%nat.
Proof.
  unfold leadByte. intros H.
  repeat match type of H with
  | (if ?b then _ else _) = _ => destruct b eqn:?
  end; try discriminate; injection H as <- <- <-; decide_bytes;
    repeat split; try lia; auto.
Qed.

Lemma between_continuation lo hi c :
  128 <= lo -> hi <= 191 -> between lo hi c = true -> isContinuation c = true.
Proof.
  unfold isContinuation, between. intros Hlo Hhi H. decide_bytes.
  apply andb_true_iff. split; [apply Z.leb_le|apply Z.leb_le]; lia.
Qed.

Lemma lead_not_continuation c :
  byteOf c < 128 \/ 194 <= byteOf c -> isContinuation c = false.
Proof.
  unfold isContinuation, between. intros H.
  apply andb_false_iff.
  destruct (Z.leb_spec 128 (byteOf c)); [right; apply Z.leb_gt|left]; lia.
Qed.

(** Where a whole encoding starts, the bytes stepped over after its
    first continue it. *)
Lemma runeWidth_continued c rest :
  (2 <= runeWidth c rest)%nat ->
  194 <= byteOf c /\ continued (runeWidth c rest - 1) rest = true.
Proof.
  unfold runeWidth. destruct (byteOf c <? 128); [lia|].
  destruct (leadByte c) as [[[more lo] hi]|] eqn:E; [|lia].
  destruct (leadByte_spec _ _ _ _ E) as (Hc & Hlo & Hhi & Hmore).
  destruct rest as [|c1 rest1]; [lia|].
  destruct (between lo hi c1) eqn:B1; cbn [negb]; [|lia].
  pose proof (between_continuation _ _ _ Hlo Hhi B1) as C1.
  destruct (more =? 1)%nat; [intros _; split; [exact Hc|cbn; now rewrite C1]|].
  destruct rest1 as [|c2 rest2]; [lia|].
  destruct (between 128 191 c2) eqn:B2; cbn [negb]; [|lia].
  destruct (more =? 2)%nat;
    [intros _; split; [exact Hc|cbn; unfold isContinuation at 2;
                                 now rewrite C1, B2]|].
  destruct rest2 as [|c3 rest3]; [lia|].
  destruct (between 128 191 c3) eqn:B3; cbn [negb]; [|lia].
  intros _. split; [exact Hc|]. cbn. unfold isContinuation at 2 3.
  now rewrite C1, B2, B3.
Qed.

Lemma runeWidth_ascii c rest : byteOf c < 128 -> runeWidth c rest = 1%nat.
Proof.
  intros H. unfold runeWidth.
  now destruct (Z.ltb_spec (byteOf c) 128); [|lia].
Qed.

(** A whole encoding is not changed by what follows it. *)
Lemma runeWidth_append c rest more :
  (2 <= runeWidth c rest)%nat ->
  runeWidth c (rest +:+ more) = runeWidth c rest.
Proof.
  unfold runeWidth. destruct (byteOf c <? 128); [reflexivity|].
  destruct (leadByte c) as [[[n lo] hi]|]; [|reflexivity].
  destruct rest as [|c1 rest1]; [lia|].
  change (String c1 rest1 +:+ more) with (String c1 (rest1 +:+ more)); cbv beta iota.
  destruct (negb (between lo hi c1)); [reflexivity|].
  destruct (n =? 1)%nat; [reflexivity|].
  destruct rest1 as [|c2 rest2]; [lia|].
  change (String c2 rest2 +:+ more) with (String c2 (rest2 +:+ more)); cbv beta iota.
  destruct (negb (between 128 191 c2)); [reflexivity|].
  destruct (n =? 2)%nat; [reflexivity|].
  destruct rest2 as [|c3 rest3]; [lia|].
  change (String c3 rest3 +:+ more) with (String c3 (rest3 +:+ more)).
  reflexivity.
Qed.

Lemma countRunes_leads s : forall skip,
  validFrom skip s = true -> continued skip s = true ->
  countRunes skip s = leads s.
Proof.
  induction s as [|c rest IH]; intros skip Hv Hc; [reflexivity|].
  destruct skip as [|k]; cbn [validFrom continued countRunes leads] in *.
  - apply andb_true_iff in Hv as [Hstart Hv].
    apply orb_true_iff in Hstart as [Hascii|Hwhole].
    + apply Z.ltb_lt in Hascii.
      rewrite runeWidth_ascii in * by assumption.
      rewrite lead_not_continuation by (now left).
      now rewrite (IH _ Hv).
    + apply Nat.leb_le in Hwhole.
      destruct (runeWidth_continued _ _ Hwhole) as [Hlead Hcont].
      rewrite lead_not_continuation by (now right).
      now rewrite (IH _ Hv Hcont).
  - apply andb_true_iff in Hc as [-> Hc]. now rewrite (IH _ Hv Hc).
Qed.

(** On well-formed text the runes are the bytes that continue no
    encoding. *)
Lemma runeCount_leads s : ValidString s = true -> runeCount s = leads s.
Proof. intros H. now apply countRunes_leads. Qed.

Lemma leads_append a b : leads (a +:+ b) = leads a + leads b.
Proof.
  induction a as [|c a IH]; [reflexivity|].
  change (String c a +:+ b) with (String c (a +:+ b)).
  cbn [leads]. rewrite IH. lia.
Qed.

Lemma validFrom_append a b : forall skip,
  validFrom skip a = true -> ValidString b = true ->
  validFrom skip (a +:+ b) = true.
Proof.
  induction a as [|c rest IH]; intros skip Ha Hb.
  - cbn in Ha. apply Nat.eqb_eq in Ha. now subst.
  - change (String c rest +:+ b) with (String c (rest +:+ b)).
    destruct skip as [|k]; cbn [validFrom] in *; [|now apply IH].
    apply andb_true_iff in Ha as [Hstart Ha].
    apply orb_true_iff in Hstart as [Hascii|Hwhole].
    + rewrite Hascii. cbn [orb andb]. apply Z.ltb_lt in Hascii.
      rewrite runeWidth_ascii in * by assumption. now apply IH.
    + apply Nat.leb_le in Hwhole.
      rewrite runeWidth_append by assumption.
      apply andb_true_iff. split; [|now apply IH].
      apply orb_true_iff. right. now apply Nat.leb_le.
Qed.

Lemma ValidString_append a b :
  ValidString a = true -> ValidString b = true ->
  ValidString (a +:+ b) = true.
Proof. apply validFrom_append. Qed.

(** The runes of well-formed texts add up. *)
Lemma runeCount_append a b :
  ValidString a = true -> ValidString b = true ->
  runeCount (a +:+ b) = runeCount a + runeCount b.
Proof.
  intros Ha Hb.
  rewrite !runeCount_leads by (assumption || now apply ValidString_append).
  apply leads_append.
Qed.

Lemma asciiOnly_append a b :
  asciiOnly (a +:+ b) = asciiOnly a && asciiOnly b.
Proof.
  induction a as [|c a IH]; [reflexivity|].
  change (String c a +:+ b) with (String c (a +:+ b)).
  cbn [asciiOnly]. now rewrite IH, andb_assoc.
Qed.

Lemma asciiOnly_valid s : asciiOnly s = true -> ValidString s = true.
Proof.
  unfold ValidString. induction s as [|c rest IH]; intros H; [reflexivity|].
  cbn [asciiOnly validFrom] in *. apply andb_true_iff in H as [Hc H].
  rewrite Hc. cbn [orb andb]. apply Z.ltb_lt in Hc.
  rewrite runeWidth_ascii by assumption. now apply IH.
Qed.

(** ASCII text has one rune per byte. *)
Lemma asciiOnly_runeCount s :
  asciiOnly s = true -> runeCount s = Z.of_nat (String.length s).
Proof.
  intros H. rewrite runeCount_leads by now apply asciiOnly_valid.
  induction s as [|c rest IH]; [reflexivity|].
  cbn [asciiOnly leads String.length] in *.
  apply andb_true_iff in H as [Hc H]. apply Z.ltb_lt in Hc.
  rewrite lead_not_continuation, IH by (assumption || now left). lia.
Qed.

Lemma runeCount_nonneg s : 0 <= runeCount s.
Proof.
  unfold runeCount. generalize 0%nat.
  induction s as [|c rest IH]; intros skip; cbn [countRunes]; [lia|].
  destruct skip; [|apply IH].
  pose proof (IH (runeWidth c rest - 1)%nat). lia.
Qed.

Lemma asciiOnly_repeat s n :
  asciiOnly s = true -> asciiOnly (Digits.repeat s n) = true.
Proof.
  intros H. induction n as [|n IH]; [reflexivity|].
  cbn [Digits.repeat]. now rewrite asciiOnly_append, H, IH.
Qed.

Lemma asciiOnly_spaces n : asciiOnly (spaces n) = true.
Proof. now apply asciiOnly_repeat. Qed.

Lemma length_repeat_byte c n :
  String.length (Digits.repeat (String c "") n) = n.
Proof.
  induction n as [|n IH]; [reflexivity|].
  cbn [Digits.repeat]. change (String c "" +:+ ?s) with (String c s).
  cbn [String.length]. now rewrite IH.
Qed.

Lemma runeCount_spaces n : 0 <= n -> runeCount (spaces n) = n.
Proof.
  intros H. rewrite asciiOnly_runeCount by apply asciiOnly_spaces.
  unfold spaces. rewrite length_repeat_byte. lia.
Qed.

Lemma ValidString_pad minus wid s :
  ValidString s = true -> ValidString (pad minus wid s) = true.
Proof.
  intros H. unfold pad. destruct (_ <=? 0); [exact H|].
  destruct minus; apply ValidString_append;
    (exact H || apply asciiOnly_valid, asciiOnly_spaces).
Qed.

(** A field of [wid] runes holds [wid] runes, or the text when that is
    longer. *)
Lemma runeCount_pad minus wid s :
  ValidString s = true ->
  runeCount (pad minus wid s) = Z.max wid (runeCount s).
Proof.
  intros H. unfold pad. pose proof (runeCount_nonneg s).
  destruct (Z.leb_spec (wid - runeCount s) 0); [lia|].
  destruct minus;
    rewrite runeCount_append, runeCount_spaces
      by (lia || exact H || apply asciiOnly_valid, asciiOnly_spaces);
    lia.
Qed.

Lemma ValidString_star minus w s :
  0 <= w <= 1000000 ->
  ValidString s = true -> ValidString (star minus w s) = true.
Proof.
  intros Hw H. unfold star.
  destruct (Z.ltb_spec 1000000 w); [lia|].
  destruct (Z.ltb_spec w (-1000000)); [lia|]. cbn [orb].
  destruct (Z.ltb_spec w 0); [lia|]. now apply ValidString_pad.
Qed.

Lemma runeCount_star minus w s :
  0 <= w <= 1000000 -> ValidString s = true ->
  runeCount (star minus w s) = Z.max w (runeCount s).
Proof.
  intros Hw H. unfold star.
  destruct (Z.ltb_spec 1000000 w); [lia|].
  destruct (Z.ltb_spec w (-1000000)); [lia|]. cbn [orb].
  destruct (Z.ltb_spec w 0); [lia|]. now apply runeCount_pad.
Qed.

(** *** Decimal numerals *)

Lemma digitsFrom_uint u : forall acc : positive,
  digitsFrom (Z.pos acc) (NilEmpty.string_of_uint u)
  = Some (Z.pos (Pos.of_uint_acc u acc)).
Proof.
  induction u; intros acc; cbn [NilEmpty.string_of_uint Pos.of_uint_acc];
    [reflexivity|..];
    cbn [digitsFrom];
    match goal with
    | |- context [isDigit ?c] =>
        change (isDigit c) with true; cbv iota;
        let v := eval vm_compute in (digitVal c) in
        change (digitVal c) with v
    end;
    match goal with
    | |- digitsFrom ?a _ = Some (Z.pos (Pos.of_uint_acc _ ?b)) =>
        replace a with (Z.pos b) by lia
    end; apply IHu.
Qed.

Lemma digitsFrom_of_uint u :
  digitsFrom 0 (NilEmpty.string_of_uint u) = Some (Z.of_N (Pos.of_uint u)).
Proof.
  induction u; cbn [NilEmpty.string_of_uint Pos.of_uint];
    [reflexivity|exact IHu|..];
    cbn [digitsFrom];
    match goal with
    | |- context [isDigit ?c] =>
        change (isDigit c) with true; cbv iota;
        let v := eval vm_compute in (digitVal c) in
        change (digitVal c) with v
    end; cbn [Z.mul Z.add Z.of_N]; apply digitsFrom_uint.
Qed.

(** The digits of a number, read back, give the number. *)
Lemma digitsFrom_decimal n : 0 <= n -> digitsFrom 0 (decimal n) = Some n.
Proof.
  intros H. unfold decimal. rewrite digitsFrom_of_uint.
  change (Pos.of_uint ?u) with (N.of_uint u).
  rewrite DecimalN.Unsigned.of_to. f_equal. lia.
Qed.

Lemma to_uint_no_leading_zero p u : Pos.to_uint p <> Decimal.D0 u.
Proof.
  intros E.
  pose proof (DecimalPos.Unsigned.to_of (Pos.to_uint p)) as Hn.
  rewrite DecimalPos.Unsigned.of_to in Hn. cbn [N.to_uint] in Hn.
  rewrite E, DecimalFacts.unorm_D0 in Hn.
  assert (u = Decimal.Nil \/ u <> Decimal.Nil) as [->|Hu]
    by (destruct u; [left|right..]; congruence).
  - now apply (DecimalPos.Unsigned.to_uint_nonzero p).
  - pose proof (DecimalFacts.nb_digits_unorm u Hu) as Hd.
    rewrite <- Hn in Hd. cbn [Decimal.nb_digits] in Hd. lia.
Qed.

(** The digits of a positive number start with none of [0] and [-]. *)
Lemma decimal_first n :
  0 < n ->
  exists c rest, decimal n = String c rest
    /\ Ascii.eqb c "0" = false /\ Ascii.eqb c "-" = false.
Proof.
  intros H. unfold decimal. destruct (Z.to_N n) as [|p] eqn:E; [lia|].
  cbn [N.to_uint]. pose proof (to_uint_no_leading_zero p) as H0.
  pose proof (DecimalPos.Unsigned.to_uint_nonnil p) as Hnil.
  destruct (Pos.to_uint p) as [|u|u|u|u|u|u|u|u|u|u];
    [congruence|exfalso; now apply (H0 u)|..];
    cbn [NilEmpty.string_of_uint]; eexists _, _; repeat split.
Qed.

(** The numeral that [%d] writes denotes the number written. *)
Lemma readDecimal_itoa n : readDecimal (itoa n) = Some n.
Proof.
  unfold itoa. destruct (Z.ltb_spec n 0) as [Hneg|Hpos].
  - change ("-" +:+ decimal (- n)) with (String "-" (decimal (- n))).
    cbn [readDecimal]. change (Ascii.eqb "-" "-") with true. cbv iota.
    destruct (decimal_first (- n)) as (c & rest & E & Hz & _); [lia|].
    pose proof (digitsFrom_decimal (- n) ltac:(lia)) as Hd.
    rewrite E in Hd |- *. rewrite Hz, Hd. cbn [option_map]. f_equal. lia.
  - destruct (Z.eq_dec n 0) as [->|Hn]; [reflexivity|].
    destruct (decimal_first n) as (c & rest & E & Hz & Hm); [lia|].
    pose proof (digitsFrom_decimal n Hpos) as Hd.
    rewrite E in Hd |- *. cbn [readDecimal]. now rewrite Hm, Hz.
Qed.

Lemma asciiOnly_uint u : asciiOnly (NilEmpty.string_of_uint u) = true.
Proof. induction u; cbn [NilEmpty.string_of_uint asciiOnly]; auto. Qed.

Lemma asciiOnly_itoa n : asciiOnly (itoa n) = true.
Proof.
  unfold itoa, decimal. destruct (n <? 0); [|apply asciiOnly_uint].
  change ("-" +:+ ?s) with (String "-" s). cbn [asciiOnly].
  now rewrite asciiOnly_uint.
Qed.

(** A numeral has one rune per byte. *)
Lemma runeCount_itoa n : runeCount (itoa n) = Z.of_nat (String.length (itoa n)).
Proof. apply asciiOnly_runeCount, asciiOnly_itoa. Qed.

(** *** Go maps *)

Lemma index_empty key : GoMap.index ∅ key = 0.
Proof. unfold GoMap.index. now rewrite lookup_empty. Qed.

Lemma index_addAssign_eq (m : gmap string Z) key count :
  GoMap.index (GoMap.addAssign m key count) key
  = GoInt.add (GoMap.index m key) count.
Proof. unfold GoMap.addAssign, GoMap.index at 1. now rewrite lookup_insert_eq. Qed.

Lemma index_addAssign_ne (m : gmap string Z) key key' count :
  key <> key' ->
  GoMap.index (GoMap.addAssign m key count) key' = GoMap.index m key'.
Proof.
  intros H. unfold GoMap.addAssign, GoMap.index at 1.
  now rewrite lookup_insert_ne.
Qed.

Lemma intValued_empty : intValued ∅.
Proof.
  intros key. rewrite index_empty. unfold GoInt.inRange. int_consts. lia.
Qed.

Lemma intValued_addAssign m key count :
  intValued m -> intValued (GoMap.addAssign m key count).
Proof.
  intros H key'. destruct (decide (key = key')) as [->|Hne].
  - rewrite index_addAssign_eq. apply wrap_range.
  - now rewrite index_addAssign_ne.
Qed.

Lemma add_zero z : GoInt.inRange z -> GoInt.add z 0 = z.
Proof. intros H. unfold GoInt.add. rewrite Z.add_0_r. now apply wrap_id. Qed.

(** *** The aggregation loop of the histogram *)

Lemma addEntries_intValued entries : forall m,
  intValued m -> intValued (addEntries m entries).
Proof.
  induction entries as [|[k c] entries IH]; intros m H; [exact H|].
  cbn. apply IH. now apply intValued_addAssign.
Qed.

Lemma addEntries_index entries : forall (m : gmap string Z) key,
  NoDup entries.*1 ->
  GoMap.index (addEntries m entries) key =
  match list_find (fun e => bool_decide (e.1 = key)) entries with
  | Some (_, (_, count)) => GoInt.add (GoMap.index m key) count
  | None => GoMap.index m key
  end.
Proof.
  induction entries as [|[k c] entries IH]; intros m key Hnd; [reflexivity|].
  apply NoDup_cons in Hnd as [Hk Hnd].
  cbn [addEntries fold_left]. change (fold_left _ entries ?x) with (addEntries x entries).
  rewrite IH by assumption. cbn [list_find fst].
  destruct (decide (k = key)) as [->|Hne].
  - rewrite decide_True by (apply bool_decide_pack; reflexivity).
    cbn. rewrite index_addAssign_eq.
    destruct (list_find _ entries) as [[i [k' c']]|] eqn:E; [|reflexivity].
    exfalso. apply list_find_Some in E as (Hl & Hp & _).
    apply bool_decide_unpack in Hp. cbn in Hp. subst k'.
    apply Hk. apply list_elem_of_fmap. exists (key, c'). split; [reflexivity|].
    eapply list_elem_of_lookup_2; eassumption.
  - rewrite decide_False by (intros Hp; apply bool_decide_unpack in Hp; auto).
    rewrite index_addAssign_ne by assumption.
    destruct (list_find _ entries) as [[i [k' c']]|]; reflexivity.
Qed.

(** Going through the entries of a job's map adds the job's count of a
    week to the total of that week. *)
Lemma addEntries_map (m counts : gmap string Z) key :
  intValued m ->
  GoMap.index (addEntries m (map_to_list counts)) key
  = GoInt.add (GoMap.index m key) (GoMap.index counts key).
Proof.
  intros Hm. rewrite addEntries_index by apply NoDup_fst_map_to_list.
  destruct (list_find _ _) as [[i [k c]]|] eqn:E.
  - apply list_find_Some in E as (Hl & Hp & _).
    apply bool_decide_unpack in Hp. cbn in Hp. subst k.
    apply list_elem_of_lookup_2, elem_of_map_to_list in Hl.
    unfold GoMap.index at 3. now rewrite Hl.
  - assert (Hn : counts !! key = None).
    { destruct (counts !! key) as [c|] eqn:Ec; [|reflexivity].
      exfalso. apply elem_of_map_to_list in Ec.
      apply list_find_None in E. rewrite Forall_forall in E.
      apply (E _ Ec). now apply bool_decide_pack. }
    unfold GoMap.index at 3. rewrite Hn. cbn. now rewrite add_zero.
Qed.

Lemma aggregate_from metrics : forall m key,
  intValued m ->
  intValued (fold_left (fun weekTotals j =>
               addEntries weekTotals (map_to_list (WeekCounts j))) metrics m)
  /\ GoMap.index
       (fold_left (fun weekTotals j =>
          addEntries weekTotals (map_to_list (WeekCounts j))) metrics m) key
     = GoInt.sumFrom (GoMap.index m key)
         (List.map (fun j => GoMap.index (WeekCounts j) key) metrics).
Proof.
  induction metrics as [|j metrics IH]; intros m key Hm; [now split|].
  cbn [fold_left List.map GoInt.sumFrom].
  destruct (IH (addEntries m (map_to_list (WeekCounts j))) key
              (addEntries_intValued _ _ Hm)) as [H1 H2].
  split; [exact H1|]. now rewrite H2, addEntries_map.
Qed.

(** The aggregated total of a week is the sum over the jobs of their
    counts for that week. *)
Lemma aggregate_index metrics key :
  GoMap.index (aggregate metrics) key
  = GoInt.sumFrom 0 (List.map (fun j => GoMap.index (WeekCounts j) key) metrics).
Proof.
  destruct (aggregate_from metrics ∅ key intValued_empty) as [_ H].
  rewrite index_empty in H. exact H.
Qed.

(** *** The counts and their maximum *)

Lemma collect_from weekTotals weeks : forall counts maxCount,
  fold_left (fun '(counts, maxCount) week =>
      let count := GoMap.index weekTotals week in
      (counts ++ [count], if maxCount <? count then count else maxCount))
    weeks (counts, maxCount)
  = (counts ++ List.map (GoMap.index weekTotals) weeks,
     maxFrom maxCount (List.map (GoMap.index weekTotals) weeks)).
Proof.
  induction weeks as [|week weeks IH]; intros counts maxCount.
  - cbn. now rewrite app_nil_r.
  - cbn [fold_left List.map maxFrom]. rewrite IH, <- app_assoc. reflexivity.
Qed.

Lemma collect_spec weekTotals weeks :
  collect weekTotals weeks
  = (List.map (GoMap.index weekTotals) weeks,
     maxFrom 0 (List.map (GoMap.index weekTotals) weeks)).
Proof. unfold collect. now rewrite collect_from. Qed.

Lemma maxFrom_bounds counts : forall acc,
  acc <= maxFrom acc counts
  /\ Forall (fun count => count <= maxFrom acc counts) counts
  /\ (maxFrom acc counts = acc \/ In (maxFrom acc counts) counts).
Proof.
  induction counts as [|c counts IH]; intros acc; cbn [maxFrom fold_left].
  - repeat split; [lia|constructor|now left].
  - change (fold_left _ counts ?x) with (maxFrom x counts).
    destruct (IH (if acc <? c then c else acc)) as (H1 & H2 & H3).
    destruct (Z.ltb_spec acc c); repeat split; try lia.
    + constructor; [lia|exact H2].
    + destruct H3 as [->|H3]; right; [now left|now right].
    + constructor; [lia|exact H2].
    + destruct H3 as [H3|H3]; [now left|right; now right].
Qed.

Lemma maxFrom_zero counts :
  Forall (fun count => count <= 0) counts -> maxFrom 0 counts = 0.
Proof.
  intros H. destruct (maxFrom_bounds counts 0) as (H1 & _ & [H3|H3]); [exact H3|].
  rewrite Forall_forall in H. apply list_elem_of_In, H in H3. lia.
Qed.

Lemma maxFrom_pos counts :
  Exists (fun count => 0 < count) counts -> 0 < maxFrom 0 counts.
Proof.
  intros H. apply Exists_exists in H as (c & Hc & Hp).
  destruct (maxFrom_bounds counts 0) as (_ & H2 & _).
  rewrite Forall_forall in H2. apply H2 in Hc. lia.
Qed.

(** *** Running the grouped table *)

Lemma invoke_val {A} table values (method : M Env A) out a text :
  method (mkEnv table values out) = (Val a, emit (mkEnv table values out) text) ->
  invoke table values method out = (Val (a, table, values), out ++ text).
Proof. intros H. unfold invoke. now rewrite H. Qed.

Lemma invoke_panic {A} table values (method : M Env A) out :
  method (mkEnv table values out) = (Panic, mkEnv table values out) ->
  invoke table values method out = (Panic, out).
Proof. intros H. unfold invoke. now rewrite H. Qed.

Lemma Print_run text out : Print text out = (Val tt, out ++ [text]).
Proof. reflexivity. Qed.






(** *** What the totals maps hold *)

Lemma addWeeks_intValued counts weeks : forall m,
  intValued m -> intValued (addWeeks counts m weeks).
Proof.
  induction weeks as [|week weeks IH]; intros m H; [exact H|].
  cbn. apply IH. now apply intValued_addAssign.
Qed.


Lemma addJob_intValued weeks cw m job :
  intValued m -> intValued (addJob weeks cw m job).
Proof.
  intros H. unfold addJob. now apply intValued_addAssign, addWeeks_intValued.
Qed.



(** A row shows the counts of the configured weeks and of the current
    week only. *)
Lemma rowText_ext t label f g cw :
  (forall key, key ∈ weeks t \/ key = cw -> f key = g key) ->
  rowText t label f cw = rowText t label g cw.
Proof.
  intros H. unfold rowText.
  assert (Hm : List.map f (weeks t) = List.map g (weeks t)).
  { apply map_ext_in. intros k Hk. apply H. left. now apply list_elem_of_In. }
  f_equal. f_equal.
  - apply map_ext_in. intros k Hk. f_equal. apply H. left.
    now apply list_elem_of_In.
  - rewrite Hm, (H cw) by now right. reflexivity.
Qed.

(** *** Grouping and sorting *)



Lemma insertSorted_perm {A} (less : A -> A -> bool) x l :
  insertSorted less x l ≡ₚ x :: l.
Proof.
  induction l as [|y l IH]; [reflexivity|].
  cbn. destruct (less y x); [|reflexivity].
  rewrite IH. apply Permutation_swap.
Qed.

Lemma sortBy_perm {A} (less : A -> A -> bool) l : sortBy less l ≡ₚ l.
Proof.
  induction l as [|x l IH]; [reflexivity|].
  cbn. now rewrite insertSorted_perm, IH.
Qed.

Lemma total_perm xs ys : xs ≡ₚ ys -> sumZ xs = sumZ ys.
Proof.
  induction 1; unfold sumZ in *; cbn in *; lia.
Qed.




(** *** The weeks of a report *)

Lemma utcDay_midnight d : utcDay (midnight d) = d.
Proof. unfold utcDay, midnight, secondsPerDay. cbn. apply Z.div_mul. lia. Qed.

(** The anchor is the Monday of the last completed week, unless its key
    does not parse: then it is day one of year one. *)
Lemma anchorDay_cases now :
  anchorDay now = lastCompletedDay now
  \/ (anchorDay now = -719162 /\ ~ inLayoutRange (lastCompletedDay now)).
Proof.
  unfold anchorDay. rewrite getLastCompletedWeekStart_key.
  unfold ParseIgnoringError.
  destruct (Parse_2006_01_02 (dateKey (lastCompletedDay now))) as [t|] eqn:E.
  - left. apply Parse_sound in E as [_ E]. now apply dateKey_inj.
  - right. split; [reflexivity|]. intros Hr.
    rewrite Parse_dateKey in E by assumption. discriminate E.
Qed.

Lemma anchorDay_in_range now :
  inLayoutRange (lastCompletedDay now) -> anchorDay now = lastCompletedDay now.
Proof. intros H. destruct (anchorDay_cases now) as [E|[_ E]]; tauto. Qed.

Lemma getLastNWeeks_anchor now n : 0 <= n <= maxStrings ->
  getLastNWeeks now n =
  Some (List.map (fun j => dateKey (anchorDay now - 7 * (n - 1 - Z.of_nat j)))
          (seq 0 (Z.to_nat n))).
Proof. apply getLastNWeeks_keys. Qed.

Lemma getLast4Weeks_keys now :
  getLast4Weeks now =
  [dateKey (anchorDay now - 21); dateKey (anchorDay now - 14);
   dateKey (anchorDay now - 7); dateKey (anchorDay now)].
Proof.
  unfold getLast4Weeks. rewrite getLastNWeeks_anchor by (unfold maxStrings; lia).
  cbn [default]. change (Z.to_nat 4) with 4%nat. cbn [seq List.map].
  unfold id.
  replace (anchorDay now - 7 * (4 - 1 - Z.of_nat 0)) with (anchorDay now - 21)
    by (cbn; lia).
  replace (anchorDay now - 7 * (4 - 1 - Z.of_nat 1)) with (anchorDay now - 14)
    by (cbn; lia).
  replace (anchorDay now - 7 * (4 - 1 - Z.of_nat 2)) with (anchorDay now - 7)
    by (cbn; lia).
  replace (anchorDay now - 7 * (4 - 1 - Z.of_nat 3)) with (anchorDay now)
    by (cbn; lia).
  reflexivity.
Qed.


Lemma dateKey_NoDup (days : list Z) : NoDup days -> NoDup (List.map dateKey days).
Proof.
  intros H. assert (Hinj : Inj eq eq dateKey) by (intros a b; apply dateKey_inj).
  now apply (NoDup_fmap_2 dateKey).
Qed.

Lemma getLast4Weeks_NoDup now : NoDup (getLast4Weeks now).
Proof.
  rewrite getLast4Weeks_keys.
  change (NoDup (List.map dateKey [anchorDay now - 21; anchorDay now - 14;
                                   anchorDay now - 7; anchorDay now])).
  apply dateKey_NoDup.
  repeat (apply NoDup_cons; split;
          [rewrite ?elem_of_cons, elem_of_nil; lia|]).
  apply NoDup_nil_2.
Qed.


Lemma getCurrentWeekStart_nonempty now : getCurrentWeekStart now <> ""%string.
Proof.
  unfold getCurrentWeekStart. rewrite getWeekStart_key. apply dateKey_nonempty.
Qed.

Lemma getLast4Weeks_length now : length (getLast4Weeks now) = 4%nat.
Proof. now rewrite getLast4Weeks_keys. Qed.

(** *** The grouped table *)



(** ** The week calendar *)

(** The last completed week has ended: its Sunday 23:59:59 UTC lies
    before the clock reading. *)
Lemma lastCompletedDay_elapsed now :
  sundayEnd (lastCompletedDay now) < unixSec now.
Proof.
  pose proof (weekStartDay_bounds now) as Hb.
  unfold lastCompletedDay, sundayEnd, weekStartDay, utcDay, secondsPerDay in *.
  Z.div_mod_to_equations; lia.
Qed.

(** C2. For every clock reading that Go holds and dates, two weeks back,
    without wrap-around: on a Sunday (UTC) the function goes back seven
    days to the last completed Sunday, on any other weekday it goes back
    [weekday] days to the prior Sunday, and then six more days to that
    week's Monday.  The key returned is the key of a Monday whose Sunday
    23:59:59 UTC lies before the reading, and it is the most recent such
    Monday: the Sunday 23:59:59 UTC of the following week does not lie
    before the reading. *)
Theorem last_completed_week_start_is_latest_elapsed_monday (now : Time) :
  inGoRange 13 now ->
  let weekday := Weekday (UTC now) in
  let monday := lastCompletedDay now in
  getLastCompletedWeekStart now
    = dateKey (utcDay now - (if weekday =? 0 then 7 else weekday) - 6)
  /\ getLastCompletedWeekStart now = dateKey monday
  /\ isMonday monday
  /\ sundayEnd monday < unixSec now
  /\ unixSec now <= sundayEnd (monday + 7)
  /\ inGoRange 0 (midnight monday).
Proof.
  intros Hrange. cbv zeta. rewrite getLastCompletedWeekStart_key, Weekday_UTC.
  pose proof (weekStartDay_monday now) as Hmon.
  pose proof (weekStartDay_bounds now) as Hb.
  unfold inGoRange, goFloor, goCeiling, midnight in *. cbn [unixSec].
  unfold lastCompletedDay, isMonday, sundayEnd, weekStartDay, utcDay,
    secondsPerDay in *.
  repeat split.
  - f_equal. destruct (Z.eqb_spec ((unixSec now / 86400 + 4) mod 7) 0);
      Z.div_mod_to_equations; lia.
  - Z.div_mod_to_equations; lia.
  - Z.div_mod_to_equations; lia.
  - Z.div_mod_to_equations; lia.
  - Z.div_mod_to_equations; lia.
  - Z.div_mod_to_equations; lia.
Qed.

(** On Wednesday 2024-03-20 the last completed week started on Monday
    2024-03-11, and on Sunday 2024-03-24 it still does. *)
Lemma last_completed_week_start_is_latest_elapsed_monday_witness :
  getLastCompletedWeekStart (Date 2024 3 20 0 0) = dateKey 19793
  /\ getLastCompletedWeekStart (Date 2024 3 24 0 0) = dateKey 19793.
Proof.
  split.
  - refine (proj1 (proj2 (last_completed_week_start_is_latest_elapsed_monday
                            (Date 2024 3 20 0 0) _))).
    vm_compute. split; [discriminate|reflexivity].
  - refine (proj1 (proj2 (last_completed_week_start_is_latest_elapsed_monday
                            (Date 2024 3 24 0 0) _))).
    vm_compute. split; [discriminate|reflexivity].
Defined.

(** C3. At a clock reading in the year 10000 [getLastNWeeks] does not
    return the last four completed weeks, which its comment promises and
    the claim describes.  The key of the last completed week,
    "10000-01-03", has a five-digit year, which [time.Parse] does not
    read back under layout "2006-01-02"; the error is dropped and the
    list is counted back from the zero time instead, so that it neither
    ends at the last completed week nor holds any of the four weeks
    before the reading. *)
Lemma last_n_completed_weeks_year_10000 :
  let monday := lastCompletedDay year10000 in
  getLastCompletedWeekStart year10000 = "10000-01-03"%string
  /\ Parse_2006_01_02 "10000-01-03" = None
  /\ getLastNWeeks year10000 4
     = Some ["0000-12-11"; "0000-12-18"; "0000-12-25"; "0001-01-01"]%string
  /\ List.map dateKey [monday - 21; monday - 14; monday - 7; monday]
     = ["9999-12-13"; "9999-12-20"; "9999-12-27"; "10000-01-03"]%string
  /\ ~ (exists weeks, getLastNWeeks year10000 4 = Some weeks
          /\ last weeks = Some (getLastCompletedWeekStart year10000)).
Proof.
  cbv zeta.
  assert (H1 : getLastCompletedWeekStart year10000 = "10000-01-03"%string)
    by (vm_compute; reflexivity).
  assert (H2 : getLastNWeeks year10000 4
               = Some ["0000-12-11"; "0000-12-18"; "0000-12-25"; "0001-01-01"]%string)
    by (vm_compute; reflexivity).
  split; [exact H1|]. split; [vm_compute; reflexivity|].
  split; [exact H2|]. split; [vm_compute; reflexivity|].
  intros (weeks & Hw & Hl). rewrite H2 in Hw. injection Hw as <-.
  rewrite H1 in Hl. cbn in Hl. discriminate Hl.
Qed.

(** Within the years that the layout covers the list is the promised
    one.  For every length [n] from 0 to what [make] allocates and every
    clock reading whose last completed week starts in the years 0000 to
    9999, [getLastNWeeks] returns exactly [n] week keys, oldest first
    and seven days apart: the key at index [j] is that of the day
    [7 * (n - 1 - j)] days before the Monday of the last completed week,
    so the last key is the result of [getLastCompletedWeekStart], and
    the Sunday 23:59:59 UTC of its week lies before the reading.  For
    [n = 0] the list is empty.  At any time of Wednesday 2024-03-20
    (UTC) the four weeks are 2024-02-19, 2024-02-26, 2024-03-04 and
    2024-03-11. *)
Lemma last_n_completed_weeks (now : Time) (n : Z) :
  0 <= n <= maxStrings -> inLayoutRange (lastCompletedDay now) ->
  let monday := lastCompletedDay now in
  let weeks :=
    List.map (fun j => dateKey (monday - 7 * (n - 1 - Z.of_nat j)))
      (seq 0 (Z.to_nat n)) in
  getLastNWeeks now n = Some weeks
  /\ Z.of_nat (length weeks) = n
  /\ (0 < n -> last weeks = Some (getLastCompletedWeekStart now))
  /\ sundayEnd monday < unixSec now
  /\ (n = 0 -> weeks = [])
  /\ (forall sec, 0 <= sec < secondsPerDay ->
        getLastNWeeks (Date 2024 3 20 sec 0) 4
        = Some ["2024-02-19"; "2024-02-26"; "2024-03-04"; "2024-03-11"]%string).
Proof.
  intros Hn Hr. cbv zeta.
  pose proof (getLastCompletedWeekStart_key now) as Hkey.
  pose proof (lastCompletedDay_elapsed now) as Hsun.
  split; [|split; [|split; [|split; [|split]]]].
  - rewrite getLastNWeeks_anchor by assumption.
    now rewrite anchorDay_in_range by assumption.
  - rewrite length_map, length_seq. lia.
  - intros Hpos. rewrite Hkey.
    replace (Z.to_nat n) with (S (Z.to_nat (n - 1))) by lia.
    rewrite seq_S, map_app. cbn [List.map]. rewrite last_snoc.
    do 3 f_equal. lia.
  - exact Hsun.
  - intros ->. reflexivity.
  - intros sec Hsec.
    assert (Hday : utcDay (Date 2024 3 20 sec 0) = 19802).
    { unfold utcDay, Date, secondsPerDay in *. cbn [unixSec].
      change (dateToDays 2024 3 20) with 19802.
      Z.div_mod_to_equations. lia. }
    assert (Hlast : lastCompletedDay (Date 2024 3 20 sec 0) = 19793).
    { unfold lastCompletedDay, weekStartDay. rewrite Hday. reflexivity. }
    rewrite getLastNWeeks_anchor by (unfold maxStrings; lia).
    rewrite anchorDay_in_range by (rewrite Hlast; unfold inLayoutRange; lia).
    rewrite Hlast. vm_compute. reflexivity.
Qed.

Lemma last_n_completed_weeks_example :
  getLastNWeeks (Date 2024 3 20 0 0) 4
  = Some ["2024-02-19"; "2024-02-26"; "2024-03-04"; "2024-03-11"]%string.
Proof.
  refine (proj1 (last_n_completed_weeks (Date 2024 3 20 0 0) 4 _ _)).
  - unfold maxStrings. lia.
  - unfold inLayoutRange. vm_compute. split; [discriminate|reflexivity].
Defined.

(** C4. At a timestamp in the year 10000 [weekStartToEnd] does not
    return the Sunday that corresponds to the Monday it is given, which
    its comment promises and the claim describes.  [getWeekStart] gives
    the key "10000-01-03" of the Monday before the timestamp; its
    five-digit year is not read back by [time.Parse] under layout
    "2006-01-02", the error is dropped, and [weekStartToEnd] returns the
    sixth day after the zero time, "0001-01-07", instead of the Sunday
    "10000-01-09": a day long before the timestamp. *)
Lemma week_end_year_10000 :
  let monday := weekStartDay early10000 in
  getWeekStart early10000 = "10000-01-03"%string
  /\ getWeekStart early10000 = dateKey monday
  /\ Parse_2006_01_02 "10000-01-03" = None
  /\ weekStartToEnd (getWeekStart early10000) = "0001-01-07"%string
  /\ weekStartToEnd (getWeekStart early10000) = dateKey (-719156)
  /\ dateKey (monday + 6) = "10000-01-09"%string
  /\ ~ (utcDay early10000 <= -719156).
Proof. vm_compute. repeat split; try reflexivity. intros H. now apply H. Qed.

(** Elsewhere the week is the promised one.  For every timestamp that
    Go holds and dates, six days back, without wrap-around,
    [getWeekStart] returns the key of a Monday in UTC, the day found by
    counting Sunday as weekday 7 and going back [weekday - 1] days, and
    that Monday is on or before the timestamp's day, its midnight at or
    before the timestamp.  When that Monday lies in the years 0000 to
    9999, [weekStartToEnd] maps its key to the key of the day six days
    later, the week's Sunday, and the timestamp falls on or before that
    day, before the midnight that ends it. *)
Lemma week_start_bounds (t : Time) :
  inGoRange 6 t ->
  let weekday := if Weekday (UTC t) =? 0 then 7 else Weekday (UTC t) in
  let monday := weekStartDay t in
  getWeekStart t = dateKey (utcDay t - (weekday - 1))
  /\ getWeekStart t = dateKey monday
  /\ isMonday monday
  /\ monday <= utcDay t
  /\ unixSec (midnight monday) <= unixSec t
  /\ (inLayoutRange monday ->
        weekStartToEnd (getWeekStart t) = dateKey (monday + 6)
        /\ isSunday (monday + 6)
        /\ utcDay t <= monday + 6
        /\ unixSec t < unixSec (midnight (monday + 7))).
Proof.
  intros _. cbv zeta. rewrite getWeekStart_key, Weekday_UTC.
  pose proof (weekStartDay_monday t) as Hmon.
  pose proof (weekStartDay_bounds t) as Hb.
  split; [|split; [|split; [|split; [|split]]]].
  - f_equal. unfold weekStartDay.
    destruct (Z.eqb_spec ((utcDay t + 4) mod 7) 0);
      Z.div_mod_to_equations; lia.
  - reflexivity.
  - exact Hmon.
  - lia.
  - unfold midnight, utcDay, secondsPerDay in *. cbn [unixSec].
    Z.div_mod_to_equations; lia.
  - intros Hr. split; [|split; [|split]].
    + unfold weekStartToEnd. rewrite ParseIgnoringError_dateKey by assumption.
      rewrite AddDate_days, Format_day. unfold dateKey. f_equal. f_equal.
      unfold dayNumber, wallSec, midnight, secondsPerDay. cbn.
      rewrite Z.add_0_r, Z.div_add by lia. f_equal. apply Z.div_mul. lia.
    + unfold isMonday, isSunday in *. Z.div_mod_to_equations; lia.
    + lia.
    + unfold midnight, utcDay, secondsPerDay in *. cbn [unixSec].
      Z.div_mod_to_equations; lia.
Qed.

Lemma week_start_bounds_example :
  weekStartToEnd (getWeekStart (Date 2024 3 20 0 0))
  = dateKey (weekStartDay (Date 2024 3 20 0 0) + 6).
Proof.
  refine (proj1 (proj2 (proj2 (proj2 (proj2 (proj2
            (week_start_bounds (Date 2024 3 20 0 0) _))))) _)).
  - vm_compute. split; [discriminate|reflexivity].
  - unfold inLayoutRange. vm_compute. split; [discriminate|reflexivity].
Defined.

(** C8. [getWeekStart] is idempotent.  For a timestamp [t] that Go holds
    and dates, six days back, without wrap-around: when [getWeekStart]
    returns for [t] the key of day [monday], it returns the same key for
    every instant [u] that Go holds from that Monday 00:00:00 UTC up to,
    but excluding, the following Monday 00:00:00 UTC, in whatever
    location [u] is given; in particular for the start of the week
    itself, which Go holds and dates as well. *)
Theorem week_start_idempotent (t : Time) (monday : Z) :
  inGoRange 6 t ->
  getWeekStart t = dateKey monday ->
  (forall u, inGoRange 0 u ->
             unixSec (midnight monday) <= unixSec u < unixSec (midnight (monday + 7)) ->
             getWeekStart u = getWeekStart t)
  /\ inGoRange 0 (midnight monday)
  /\ getWeekStart (midnight monday) = getWeekStart t.
Proof.
  intros Hrange Hkey.
  assert (Hmon : monday = weekStartDay t).
  { rewrite getWeekStart_key in Hkey. symmetry. now apply dateKey_inj. }
  pose proof (weekStartDay_monday t) as Hm. rewrite <- Hmon in Hm.
  assert (Hall : forall u,
    unixSec (midnight monday) <= unixSec u < unixSec (midnight (monday + 7)) ->
    getWeekStart u = getWeekStart t).
  { intros u Hu. rewrite Hkey, getWeekStart_key. f_equal.
    unfold weekStartDay, isMonday, midnight, utcDay, secondsPerDay in *.
    cbn [unixSec] in Hu. Z.div_mod_to_equations; lia. }
  split; [intros u _; apply Hall|]. split.
  - pose proof (weekStartDay_bounds t) as Hb. rewrite <- Hmon in Hb.
    unfold inGoRange, goFloor, goCeiling, midnight, utcDay, secondsPerDay in *.
    cbn [unixSec]. Z.div_mod_to_equations; lia.
  - apply Hall. unfold midnight, secondsPerDay. cbn [unixSec]. lia.
Qed.

Lemma week_start_idempotent_witness :
  getWeekStart (midnight 19800) = getWeekStart (Date 2024 3 20 0 0).
Proof.
  refine (proj2 (proj2 (week_start_idempotent (Date 2024 3 20 0 0) 19800 _ _))).
  - vm_compute. split; [discriminate|reflexivity].
  - vm_compute. reflexivity.
Defined.

(** ** The weekly table *)

(** C1. For every table, label, map of week counts and non-empty current
    week key, [printRow] returns, and prints in the last column, the sum
    of the counts of the configured week keys: the running total of Go
    [int]s, which is their sum reduced to the range of [int], and the sum
    itself when that fits.  The count of the current week is printed in a
    column of its own, before the total, and is no part of the total,
    whether or not the current week key is among the configured ones. *)
Theorem printRow_total_excludes_current_week
    (t : weeklyTable) (label currentWeek : string)
    (values : gmap string Z) (out : list string) :
  currentWeek <> ""%string ->
  let counts := List.map (GoMap.index values) (weeks t) in
  let total := GoInt.sumFrom 0 counts in
  printRow label currentWeek (mkEnv t values out)
  = (Val total,
     mkEnv t values
       (out ++ leftS (labelColWidth t) label
            :: List.map (fun week => cell (weekColWidth t)
                                       (GoMap.index values week)) (weeks t)
            ++ [cell (weekColWidth t) (GoMap.index values currentWeek);
                rightD (weekColWidth t) total +:+ nl]))
  /\ total = GoInt.wrap (sumZ counts)
  /\ (GoInt.inRange (sumZ counts) -> total = sumZ counts).
Proof.
  intros Hcw. cbv zeta. split; [|split].
  - rewrite printRow_run. unfold emit, rowText. cbn [self weekValues stdout].
    apply String.eqb_neq in Hcw. rewrite Hcw. reflexivity.
  - apply sumFrom_total.
  - apply sumFrom_exact.
Qed.

Lemma printRow_total_excludes_current_week_witness :
  fst (printRow "Active Users" "2024-03-11"
         (mkEnv (newWeeklyTable 20 10 ["2024-03-04"; "2024-03-11"]%string)
            (<["2024-03-04"%string := 5]> (<["2024-03-11"%string := 7]> ∅)) []))
  = Val 12.
Proof.
  rewrite (proj1 (printRow_total_excludes_current_week
                    (newWeeklyTable 20 10 ["2024-03-04"; "2024-03-11"]%string)
                    "Active Users" "2024-03-11"
                    (<["2024-03-04"%string := 5]> (<["2024-03-11"%string := 7]> ∅))
                    [] ltac:(discriminate))).
  vm_compute. reflexivity.
Defined.

(** C6. For every configured week key of a table, the column that
    [printRow] and [printTotalsRow] print for it - in the table with the
    current-week column and in the earlier one without - is the
    placeholder ["-"] formatted with the right-aligning verb [%*s] when the
    count is zero, and the count in decimal formatted with the
    right-aligning verb [%*d] otherwise; a key absent from the map counts
    as zero.  The decimal form of the count is a numeral - digits, most
    significant first, with no leading zero, after a minus sign for a
    negative count - that denotes the count, of as many runes as bytes.
    For a column width that [fmt] accepts, the column is the placeholder,
    or that numeral, preceded by the blanks that fill the width. *)
Theorem zero_counts_render_as_placeholder
    (t : weeklyTable) (label currentWeek : string)
    (values : gmap string Z) (out : list string)
    (i : nat) (week : string) :
  weeks t !! i = Some week ->
  let count := GoMap.index values week in
  let w := weekColWidth t in
  let shown := if count =? 0 then rightS w "-" else rightD w count in
  let e := mkEnv t values out in
  let column := (length out + 1 + i)%nat in
  stdout (snd (printRow label currentWeek e)) !! column = Some shown
  /\ stdout (snd (printTotalsRow label currentWeek e)) !! column = Some shown
  /\ stdout (snd (Legacy.printRow label e)) !! column = Some shown
  /\ stdout (snd (Legacy.printTotalsRow label e)) !! column = Some shown
  /\ (values !! week = None -> count = 0)
  /\ (0 <= w <= 1000000 ->
        rightS w "-" = spaces (w - 1) +:+ "-"
        /\ rightD w count = spaces (w - runeCount (itoa count)) +:+ itoa count)
  /\ readDecimal (itoa count) = Some count
  /\ runeCount (itoa count) = Z.of_nat (String.length (itoa count))
  /\ (0 <= w <= 1000000 -> count <> 0 ->
        exists numeral,
          readDecimal numeral = Some count
          /\ shown = spaces (w - Z.of_nat (String.length numeral)) +:+ numeral).
Proof.
  intros Hweek. cbv zeta.
  assert (Hrow : forall cw,
    (out ++ rowText t label (GoMap.index values) cw)
      !! (length out + 1 + i)%nat
    = Some (cell (weekColWidth t) (GoMap.index values week))).
  { intros cw. rewrite <- Nat.add_assoc, lookup_app_r by lia.
    replace (length out + (1 + i) - length out)%nat with (S i) by lia.
    unfold rowText.
    match goal with |- (?x :: ?l) !! S i = _ => change (l !! i = Some (cell (weekColWidth t) (GoMap.index values week))) end.
    rewrite lookup_app_l by (rewrite length_map; now apply lookup_lt_Some in Hweek).
    change (List.map ?f ?l) with (f <$> l).
    now rewrite list_lookup_fmap, Hweek. }
  rewrite printRow_run, printTotalsRow_run, Legacy_printRow_run,
    Legacy_printTotalsRow_run.
  cbn [snd stdout emit self weekValues].
  repeat (split; [apply Hrow|]).
  split; [|split; [|split; [|split]]].
  - intros Hnone. unfold GoMap.index. now rewrite Hnone.
  - intros Hw. split.
    + unfold rightS. rewrite right_aligned by assumption. reflexivity.
    + unfold rightD. now rewrite right_aligned by assumption.
  - apply readDecimal_itoa.
  - apply runeCount_itoa.
  - intros Hw Hcount. exists (itoa (GoMap.index values week)).
    split; [apply readDecimal_itoa|].
    destruct (Z.eqb_spec (GoMap.index values week) 0) as [E|_];
      [contradiction|].
    unfold rightD. rewrite right_aligned by assumption.
    now rewrite runeCount_itoa.
Qed.

(** In the row of a count of 5 for the first week and none for the
    second, the cells are the numeral 5 and the placeholder, each after
    nine blanks. *)
Lemma zero_counts_render_as_placeholder_witness :
  stdout (snd (printRow "Active Users" ""
                 (mkEnv (newWeeklyTable 20 10 ["2024-03-04"; "2024-03-11"]%string)
                    (<["2024-03-04"%string := 5]> ∅) [])))
    !! 1%nat
  = Some "         5"%string
  /\ stdout (snd (printRow "Active Users" ""
                    (mkEnv (newWeeklyTable 20 10 ["2024-03-04"; "2024-03-11"]%string)
                       (<["2024-03-04"%string := 5]> ∅) [])))
       !! 2%nat
     = Some "         -"%string.
Proof.
  split.
  - refine (proj1 (zero_counts_render_as_placeholder
                     (newWeeklyTable 20 10 ["2024-03-04"; "2024-03-11"]%string)
                     "Active Users" "" (<["2024-03-04"%string := 5]> ∅) []
                     0%nat "2024-03-04" _)).
    reflexivity.
  - refine (proj1 (zero_counts_render_as_placeholder
                     (newWeeklyTable 20 10 ["2024-03-04"; "2024-03-11"]%string)
                     "Active Users" "" (<["2024-03-04"%string := 5]> ∅) []
                     1%nat "2024-03-11" _)).
    reflexivity.
Defined.

(** C10. Every print method of the weekly table - [printHeader],
    [printSeparator], [printRow], [printRowWithSlice], [printTotalsRow],
    with and without the current-week column - leaves the table behind
    its receiver as it was: the label width, the week width and the week
    keys.  [printRow] and [printTotalsRow] also leave the map passed to
    them as it was.  This holds also when [printSeparator] panics.  No
    total is kept in the table: the row methods return the total of the
    row to the caller. *)
Theorem table_methods_leave_state_unchanged
    (e : Env) (labelTitle label currentWeek : string)
    (counts : list Z) (currentCount : Z) :
  let same (e' : Env) := self e' = self e /\ weekValues e' = weekValues e in
  let rowTotal :=
    GoInt.sumFrom 0 (List.map (GoMap.index (weekValues e)) (weeks (self e))) in
  same (snd (printHeader labelTitle currentWeek e))
  /\ same (snd (printSeparator currentWeek e))
  /\ same (snd (printRow label currentWeek e))
  /\ same (snd (printRowWithSlice label counts currentCount e))
  /\ same (snd (printTotalsRow label currentWeek e))
  /\ same (snd (Legacy.printHeader labelTitle e))
  /\ same (snd (Legacy.printSeparator e))
  /\ same (snd (Legacy.printRow label e))
  /\ same (snd (Legacy.printRowWithSlice label counts e))
  /\ same (snd (Legacy.printTotalsRow label e))
  /\ fst (printRow label currentWeek e) = Val rowTotal
  /\ fst (Legacy.printRow label e) = Val rowTotal
  /\ fst (printRowWithSlice label counts currentCount e)
     = Val (GoInt.sumFrom 0 counts)
  /\ fst (Legacy.printRowWithSlice label counts e)
     = Val (GoInt.sumFrom 0 counts).
Proof.
  cbv zeta.
  rewrite printHeader_run, printSeparator_run, printRow_run,
    printRowWithSlice_run, printTotalsRow_run, Legacy_printHeader_run,
    Legacy_printSeparator_run, Legacy_printRow_run,
    Legacy_printRowWithSlice_run, Legacy_printTotalsRow_run.
  destruct (Repeat "-" (ruleWidth (self e) (columnsOf (self e) currentWeek)));
    destruct (Repeat "-" (ruleWidth (self e) (columnsOf (self e) "")));
    cbn [fst snd self weekValues emit]; repeat split.
Qed.


(** ** The histogram *)

Lemma getLast26Weeks_length now : length (getLast26Weeks now) = 26%nat.
Proof.
  unfold getLast26Weeks. rewrite getLastNWeeks_anchor by (unfold maxStrings; lia).
  cbn [default]. unfold id. now rewrite length_map, length_seq.
Qed.

(** C7. At every clock reading and for all job metrics whose aggregated
    totals of the 26 weeks shown are all zero, [printHistogram] writes the
    line "No applications in the last 6 months" and nothing else - no
    title, bar rows, axis, month ticks, breakdown, total or average - and
    returns normally. *)
Theorem histogram_no_data
    (now : Time) (metrics : list ashbyJobMetrics) (out : list string) :
  (forall week, week ∈ getLast26Weeks now ->
                GoMap.index (aggregate metrics) week = 0) ->
  printHistogram now metrics out
  = (Val tt, out ++ ["No applications in the last 6 months" +:+ nl])
  /\ length (getLast26Weeks now) = 26%nat.
Proof.
  intros Hzero. split; [|apply getLast26Weeks_length].
  unfold printHistogram. cbv zeta. rewrite collect_spec.
  rewrite maxFrom_zero; [reflexivity|].
  apply Forall_forall. intros count Hin.
  apply list_elem_of_In, in_map_iff in Hin as (week & <- & Hin).
  apply list_elem_of_In in Hin. rewrite (Hzero week Hin). lia.
Qed.

Lemma histogram_no_data_witness :
  printHistogram (Date 2024 3 20 0 0) [] []
  = (Val tt, ["No applications in the last 6 months" +:+ nl]).
Proof.
  refine (proj1 (histogram_no_data (Date 2024 3 20 0 0) [] [] _)).
  intros week _. reflexivity.
Defined.

(** ** Bounds on [float64] results *)

(** *** Binary digits *)

Lemma digits2_pos_bounds p :
  2 ^ (Z.pos (digits2_pos p) - 1) <= Z.pos p < 2 ^ Z.pos (digits2_pos p).
Proof.
  induction p as [p IH|p IH|]; cbn [digits2_pos].
  - rewrite Pos2Z.inj_succ.
    replace (Z.succ (Z.pos (digits2_pos p)) - 1)
      with (Z.succ (Z.pos (digits2_pos p) - 1)) by lia.
    rewrite !Z.pow_succ_r by lia. lia.
  - rewrite Pos2Z.inj_succ.
    replace (Z.succ (Z.pos (digits2_pos p)) - 1)
      with (Z.succ (Z.pos (digits2_pos p) - 1)) by lia.
    rewrite !Z.pow_succ_r by lia. lia.
  - cbn. lia.
Qed.

(** A number below [2 ^ k] has at most [k] binary digits. *)
Lemma Zdigits2_le m k : 0 <= m -> 0 <= k -> m < 2 ^ k -> Zdigits2 m <= k.
Proof.
  intros Hm Hk Hlt. destruct m as [|p|p]; cbn [Zdigits2]; [lia| |lia].
  pose proof (digits2_pos_bounds p) as [Hlo _].
  destruct (Z_le_gt_dec (Z.pos (digits2_pos p)) k) as [|Hgt]; [assumption|].
  exfalso.
  assert (2 ^ k <= 2 ^ (Z.pos (digits2_pos p) - 1))
    by (apply Z.pow_le_mono_r; lia).
  lia.
Qed.

(** *** Shifting right keeps an upper bound *)

Lemma shr_1_bound mrs bound :
  0 <= shr_m mrs -> ceiling mrs <= 2 * bound ->
  0 <= shr_m (shr_1 mrs) /\ ceiling (shr_1 mrs) <= bound.
Proof.
  destruct mrs as [m r s]. unfold ceiling. cbn [shr_m shr_r shr_s].
  intros Hm Hb.
  destruct m as [|[p|p|]|p]; cbn [shr_1 shr_m shr_r shr_s]; try lia;
    destruct r, s; cbn [orb] in *; lia.
Qed.

Lemma pow2_xI p : 2 ^ Z.pos p~1 = 2 * (2 ^ Z.pos p * 2 ^ Z.pos p).
Proof.
  replace (Z.pos p~1) with (Z.pos p + Z.pos p + 1) by lia.
  rewrite !Z.pow_add_r by lia. change (2 ^ 1) with 2. ring.
Qed.

Lemma pow2_xO p : 2 ^ Z.pos p~0 = 2 ^ Z.pos p * 2 ^ Z.pos p.
Proof.
  replace (Z.pos p~0) with (Z.pos p + Z.pos p) by lia.
  now rewrite Z.pow_add_r by lia.
Qed.

Lemma iter_pos_shr_1_bound p : forall mrs bound,
  0 <= shr_m mrs -> ceiling mrs <= 2 ^ Z.pos p * bound ->
  0 <= shr_m (SpecFloat.iter_pos shr_1 p mrs)
  /\ ceiling (SpecFloat.iter_pos shr_1 p mrs) <= bound.
Proof.
  induction p as [p IH|p IH|]; intros mrs bound Hm Hb; cbn [SpecFloat.iter_pos].
  - rewrite pow2_xI in Hb.
    destruct (shr_1_bound mrs (2 ^ Z.pos p * (2 ^ Z.pos p * bound)) Hm)
      as [H1 H2]; [lia|].
    destruct (IH _ _ H1 H2) as [H3 H4]. now apply IH.
  - rewrite pow2_xO in Hb.
    destruct (IH mrs (2 ^ Z.pos p * bound) Hm) as [H1 H2]; [lia|]. now apply IH.
  - change (2 ^ 1) with 2 in Hb. now apply shr_1_bound.
Qed.

Lemma ceiling_of_loc m l :
  ceiling (shr_record_of_loc m l) = match l with loc_Exact => m | _ => m + 1 end.
Proof. destruct l as [|[]]; reflexivity. Qed.

Lemma shr_fexp_bound C m e l :
  1 <= C < 2 ^ 53 -> 0 <= m -> e <= 0 ->
  ceiling (shr_record_of_loc m l) <= C * 2 ^ (- e) ->
  0 <= shr_m (fst (shr_fexp GoFloat.prec GoFloat.emax m e l))
  /\ snd (shr_fexp GoFloat.prec GoFloat.emax m e l) <= 0
  /\ ceiling (fst (shr_fexp GoFloat.prec GoFloat.emax m e l))
     <= C * 2 ^ (- snd (shr_fexp GoFloat.prec GoFloat.emax m e l)).
Proof.
  intros HC Hm He Hb. unfold shr_fexp, shr.
  assert (Hm0 : shr_m (shr_record_of_loc m l) = m) by (destruct l as [|[]]; reflexivity).
  assert (Hle : m <= ceiling (shr_record_of_loc m l))
    by (rewrite ceiling_of_loc; destruct l; lia).
  assert (Hpow : 0 < 2 ^ (- e)) by (apply Z.pow_pos_nonneg; lia).
  assert (Hdig : Zdigits2 m + e <= 53).
  { assert (Zdigits2 m <= 53 - e); [|lia].
    apply Zdigits2_le; [lia|lia|].
    replace (53 - e) with (53 + - e) by lia. rewrite Z.pow_add_r by lia. nia. }
  destruct (fexp GoFloat.prec GoFloat.emax (Zdigits2 m + e) - e) as [|p|p] eqn:En;
    cbn [fst snd]; rewrite ?Hm0; try (repeat split; assumption).
  unfold fexp, emin, GoFloat.prec, GoFloat.emax in En.
  set (e' := e + Z.pos p).
  assert (He' : e' <= 0) by (subst e'; lia).
  destruct (iter_pos_shr_1_bound p (shr_record_of_loc m l) (C * 2 ^ (- e')))
    as [H1 H2].
  - now rewrite Hm0.
  - replace (- e) with (Z.pos p + - e') in Hb by (subst e'; lia).
    rewrite Z.pow_add_r in Hb by lia. lia.
  - repeat split; assumption.
Qed.

Lemma round_nearest_even_bound mrs :
  0 <= shr_m mrs ->
  0 <= round_nearest_even (shr_m mrs) (loc_of_shr_record mrs) <= ceiling mrs.
Proof.
  destruct mrs as [m r s]. unfold ceiling. cbn [shr_m shr_r shr_s]. intros Hm.
  destruct r, s; cbn [loc_of_shr_record round_nearest_even orb];
    try destruct (Z.even m); lia.
Qed.

(** Rounding to nearest does not step over an integer below [2 ^ 53]. *)
Lemma binary_round_aux_bound C m e l :
  1 <= C < 2 ^ 53 -> 0 <= m -> e <= 0 ->
  ceiling (shr_record_of_loc m l) <= C * 2 ^ (- e) ->
  atMost C (binary_round_aux GoFloat.prec GoFloat.emax false m e l).
Proof.
  intros HC Hm He Hb. unfold binary_round_aux.
  destruct (shr_fexp_bound C m e l HC Hm He Hb) as (H1 & H2 & H3).
  destruct (shr_fexp GoFloat.prec GoFloat.emax m e l) as [mrs' e'] eqn:E1. cbn [fst snd] in *.
  pose proof (round_nearest_even_bound mrs' H1) as [H4 H5].
  set (m1 := round_nearest_even (shr_m mrs') (loc_of_shr_record mrs')) in *.
  destruct (shr_fexp_bound C m1 e' loc_Exact HC H4 H2) as (H6 & H7 & H8).
  { rewrite ceiling_of_loc. lia. }
  destruct (shr_fexp GoFloat.prec GoFloat.emax m1 e' loc_Exact) as [mrs'' e''] eqn:E2.
  cbn [fst snd] in *.
  assert (H9 : shr_m mrs'' <= ceiling mrs'').
  { unfold ceiling. destruct (shr_r mrs'' || shr_s mrs''); lia. }
  destruct (shr_m mrs'') as [|p|p] eqn:E3; cbn [atMost]; [exact I| |lia].
  unfold GoFloat.prec, GoFloat.emax. destruct (Z.leb_spec e'' (1024 - 53)); [|lia].
  cbn [atMost]. split; lia.
Qed.

Lemma iter_xO_value p k : Z.pos (Pos.iter xO p k) = Z.pos p * 2 ^ Z.pos k.
Proof.
  induction k as [|k IH] using Pos.peano_ind.
  - cbn [Pos.iter]. lia.
  - rewrite Pos.iter_succ, Pos2Z.inj_xO, IH, Pos2Z.inj_succ, Z.pow_succ_r by lia.
    lia.
Qed.

Lemma iter_xO_digits p k :
  Z.pos (digits2_pos (Pos.iter xO p k)) = Z.pos (digits2_pos p) + Z.pos k.
Proof.
  induction k as [|k IH] using Pos.peano_ind.
  - cbn [Pos.iter digits2_pos]. lia.
  - rewrite Pos.iter_succ. cbn [digits2_pos]. lia.
Qed.

(** A mantissa of 53 bits with an exponent in range is a [float64] as it
    stands. *)
Lemma binary_round_aux_exact m e :
  Z.pos (digits2_pos m) = 53 -> -1074 <= e <= 971 ->
  binary_round_aux GoFloat.prec GoFloat.emax false (Z.pos m) e loc_Exact = S754_finite false m e.
Proof.
  intros Hd He.
  assert (Hs : forall l,
    shr_fexp GoFloat.prec GoFloat.emax (Z.pos m) e l = (shr_record_of_loc (Z.pos m) l, e)).
  { intros l. unfold shr_fexp. cbn [Zdigits2]. rewrite Hd.
    replace (fexp GoFloat.prec GoFloat.emax (53 + e) - e) with 0
      by (unfold fexp, emin, GoFloat.prec, GoFloat.emax; lia).
    reflexivity. }
  unfold binary_round_aux. rewrite Hs.
  cbn [shr_record_of_loc shr_m loc_of_shr_record round_nearest_even].
  rewrite Hs. cbn [shr_record_of_loc shr_m].
  unfold GoFloat.prec, GoFloat.emax. destruct (Z.leb_spec e (1024 - 53)); [reflexivity|lia].
Qed.

(** An integer below [2 ^ 53] converts to [float64] without rounding. *)
Lemma ofInt_exact z :
  0 < z < 2 ^ 53 ->
  exists m e, GoFloat.ofInt z = S754_finite false m e /\ -52 <= e <= 0
              /\ Z.pos m = z * 2 ^ (- e).
Proof.
  intros Hz. destruct z as [|p|p]; try lia.
  unfold GoFloat.ofInt, binary_normalize, binary_round.
  pose proof (digits2_pos_bounds p) as Hb.
  assert (Hd : Z.pos (digits2_pos p) <= 53).
  { change (Z.pos (digits2_pos p)) with (Zdigits2 (Z.pos p)).
    apply Zdigits2_le; lia. }
  replace (fexp GoFloat.prec GoFloat.emax (Z.pos (digits2_pos p) + 0))
    with (Z.pos (digits2_pos p) - 53)
    by (unfold fexp, emin, GoFloat.prec, GoFloat.emax; lia).
  unfold shl_align.
  destruct (Z.pos (digits2_pos p) - 53 - 0) as [|k|k] eqn:Ek; try lia.
  - exists p, 0. rewrite binary_round_aux_exact by lia.
    repeat split; lia.
  - exists (Pos.iter xO p k), (Z.pos (digits2_pos p) - 53).
    rewrite binary_round_aux_exact; [|rewrite iter_xO_digits; lia|lia].
    repeat split; try lia. rewrite iter_xO_value. f_equal. f_equal. lia.
Qed.

(** *** Shifting right keeps the order *)

Lemma shr_1_mono a b :
  0 <= shr_m a -> code a <= code b ->
  0 <= shr_m (shr_1 a) /\ code (shr_1 a) <= code (shr_1 b).
Proof.
  destruct a as [ma ra sa], b as [mb rb sb]. unfold code.
  cbn [shr_m shr_r shr_s]. intros Hm Hc.
  destruct ma as [|[pa|pa|]|pa], mb as [|[pb|pb|]|[pb|pb|]];
    destruct ra, sa, rb, sb; cbn [shr_1 shr_m shr_r shr_s orb] in *; lia.
Qed.

Lemma iter_pos_shr_1_mono k : forall a b,
  0 <= shr_m a -> code a <= code b ->
  0 <= shr_m (SpecFloat.iter_pos shr_1 k a)
  /\ code (SpecFloat.iter_pos shr_1 k a) <= code (SpecFloat.iter_pos shr_1 k b).
Proof.
  induction k as [k IH|k IH|]; intros a b Hm Hc; cbn [SpecFloat.iter_pos].
  - destruct (shr_1_mono a b Hm Hc) as [H1 H2].
    destruct (IH _ _ H1 H2) as [H3 H4]. now apply IH.
  - destruct (IH _ _ Hm Hc) as [H1 H2]. now apply IH.
  - now apply shr_1_mono.
Qed.

Lemma round_nearest_even_mono a b :
  0 <= shr_m a -> code a <= code b ->
  round_nearest_even (shr_m a) (loc_of_shr_record a)
  <= round_nearest_even (shr_m b) (loc_of_shr_record b).
Proof.
  destruct a as [ma ra sa], b as [mb rb sb]. unfold code.
  cbn [shr_m shr_r shr_s]. intros Hm Hc.
  destruct (Z.eq_dec ma mb) as [->|Hne].
  - destruct ra, sa, rb, sb; cbn [loc_of_shr_record round_nearest_even];
      destruct (Z.even mb); lia.
  - destruct ra, sa, rb, sb; cbn [loc_of_shr_record round_nearest_even];
      destruct (Z.even ma), (Z.even mb); lia.
Qed.

Lemma shr_1_floor mrs bound :
  0 <= shr_m mrs -> 2 * bound <= shr_m mrs ->
  0 <= shr_m (shr_1 mrs) /\ bound <= shr_m (shr_1 mrs).
Proof.
  destruct mrs as [m r s]. cbn [shr_m]. intros Hm Hb.
  destruct m as [|[p|p|]|p]; cbn [shr_1 shr_m]; lia.
Qed.

Lemma iter_pos_shr_1_floor p : forall mrs bound,
  0 <= shr_m mrs -> 2 ^ Z.pos p * bound <= shr_m mrs ->
  0 <= shr_m (SpecFloat.iter_pos shr_1 p mrs)
  /\ bound <= shr_m (SpecFloat.iter_pos shr_1 p mrs).
Proof.
  induction p as [p IH|p IH|]; intros mrs bound Hm Hb; cbn [SpecFloat.iter_pos].
  - rewrite pow2_xI in Hb.
    destruct (shr_1_floor mrs (2 ^ Z.pos p * (2 ^ Z.pos p * bound)) Hm)
      as [H1 H2]; [lia|].
    destruct (IH _ _ H1 H2) as [H3 H4]. now apply IH.
  - rewrite pow2_xO in Hb.
    destruct (IH mrs (2 ^ Z.pos p * bound) Hm) as [H1 H2]; [lia|]. now apply IH.
  - change (2 ^ 1) with 2 in Hb. now apply shr_1_floor.
Qed.

Lemma roundShift_mono k a b :
  0 <= a <= b -> roundShift k a <= roundShift k b.
Proof.
  intros H. unfold roundShift.
  destruct (iter_pos_shr_1_mono k (shr_record_of_loc a loc_Exact)
              (shr_record_of_loc b loc_Exact)) as [H1 H2].
  - cbn. lia.
  - unfold code. cbn. lia.
  - now apply round_nearest_even_mono.
Qed.

Lemma roundShift_bounds k z lo hi :
  0 <= z -> 2 ^ Z.pos k * lo <= z <= 2 ^ Z.pos k * hi ->
  lo <= roundShift k z <= hi.
Proof.
  intros Hz [Hlo Hhi]. unfold roundShift.
  destruct (iter_pos_shr_1_floor k (shr_record_of_loc z loc_Exact) lo)
    as [H1 H2]; [cbn; lia|cbn; lia|].
  destruct (iter_pos_shr_1_bound k (shr_record_of_loc z loc_Exact) hi)
    as [_ H3]; [cbn; lia|rewrite ceiling_of_loc; lia|].
  pose proof (round_nearest_even_bound _ H1) as [_ H4].
  assert (H5 : forall m l, m <= round_nearest_even m l)
    by (intros m [|[]]; cbn; try destruct (Z.even m); lia).
  specialize (H5 (shr_m (SpecFloat.iter_pos shr_1 k
                           (shr_record_of_loc z loc_Exact)))
                 (loc_of_shr_record (SpecFloat.iter_pos shr_1 k
                           (shr_record_of_loc z loc_Exact)))).
  lia.
Qed.

Ltac float_consts :=
  change (2 ^ 52) with 4503599627370496 in *;
  change (2 ^ 53) with 9007199254740992 in *.

(** A positive number from [2 ^ (n - 1)] up to, and excluding, [2 ^ n]
    has [n] binary digits. *)
Lemma Zdigits2_eq m n : 2 ^ (n - 1) <= m < 2 ^ n -> 0 < m -> Zdigits2 m = n.
Proof.
  intros Hb Hm. destruct m as [|p|p]; try lia. cbn [Zdigits2].
  pose proof (digits2_pos_bounds p) as Hd.
  destruct (Z.lt_trichotomy (Z.pos (digits2_pos p)) n) as [Hlt|[Heq|Hgt]];
    [exfalso|exact Heq|exfalso].
  - assert (2 ^ Z.pos (digits2_pos p) <= 2 ^ (n - 1))
      by (apply Z.pow_le_mono_r; lia). lia.
  - destruct (Z.le_gt_cases 0 n) as [Hn|Hn].
    + assert (2 ^ n <= 2 ^ (Z.pos (digits2_pos p) - 1))
        by (apply Z.pow_le_mono_r; lia). lia.
    + rewrite (Z.pow_neg_r 2 n) in Hb by lia. lia.
Qed.

(** An integer of more than 53 bits converts to [float64] by rounding
    away the bits beyond the 53rd. *)
Lemma ofInt_round p k :
  Z.pos (digits2_pos p) = 53 + Z.pos k -> Z.pos k <= 970 ->
  exists m e, GoFloat.ofInt (Z.pos p) = S754_finite false m e /\ -52 <= e
              /\ Z.pos m * 2 ^ (e + 52)
                 = roundShift k (Z.pos p) * 2 ^ (Z.pos k + 52).
Proof.
  intros Hd Hk.
  pose proof (digits2_pos_bounds p) as Hb. rewrite Hd in Hb.
  assert (Hq : 2 ^ 52 <= roundShift k (Z.pos p) <= 2 ^ 53).
  { apply roundShift_bounds; [lia|].
    replace (53 + Z.pos k - 1) with (Z.pos k + 52) in Hb by lia.
    replace (53 + Z.pos k) with (Z.pos k + 53) in Hb by lia.
    rewrite !Z.pow_add_r in Hb by lia. lia. }
  assert (E1 : shr_fexp GoFloat.prec GoFloat.emax (Z.pos p) 0 loc_Exact
               = (SpecFloat.iter_pos shr_1 k
                    (shr_record_of_loc (Z.pos p) loc_Exact), Z.pos k)).
  { unfold shr_fexp. cbn [Zdigits2]. rewrite Hd.
    replace (fexp GoFloat.prec GoFloat.emax (53 + Z.pos k + 0) - 0)
      with (Z.pos k)
      by (unfold fexp, emin, GoFloat.prec, GoFloat.emax; lia).
    reflexivity. }
  unfold GoFloat.ofInt, binary_normalize, binary_round. rewrite Hd.
  replace (fexp GoFloat.prec GoFloat.emax (53 + Z.pos k + 0)) with (Z.pos k)
    by (unfold fexp, emin, GoFloat.prec, GoFloat.emax; lia).
  unfold shl_align. rewrite Z.sub_0_r.
  unfold binary_round_aux. rewrite E1.
  change (round_nearest_even _ _) with (roundShift k (Z.pos p)).
  destruct (Z.eq_dec (roundShift k (Z.pos p)) (2 ^ 53)) as [Eq|Hne].
  - rewrite Eq.
    assert (E2 : shr_fexp GoFloat.prec GoFloat.emax (2 ^ 53) (Z.pos k) loc_Exact
                 = (Build_shr_record (2 ^ 52) false false, Z.pos k + 1)).
    { unfold shr_fexp. change (Zdigits2 (2 ^ 53)) with 54.
      replace (fexp GoFloat.prec GoFloat.emax (54 + Z.pos k) - Z.pos k) with 1
        by (unfold fexp, emin, GoFloat.prec, GoFloat.emax; lia).
      reflexivity. }
    rewrite E2. cbn [shr_m]. change (2 ^ 52) with (Z.pos 4503599627370496).
    cbv iota. unfold GoFloat.prec, GoFloat.emax.
    destruct (Z.leb_spec (Z.pos k + 1) (1024 - 53)); [|lia].
    exists 4503599627370496%positive, (Z.pos k + 1).
    split; [reflexivity|]. split; [lia|].
    replace (Z.pos k + 1 + 52) with (1 + (Z.pos k + 52)) by lia.
    rewrite (Z.pow_add_r 2 1) by lia. float_consts. lia.
  - assert (Hdig : Zdigits2 (roundShift k (Z.pos p)) = 53).
    { apply Zdigits2_eq; [|float_consts; lia].
      change (53 - 1) with 52. lia. }
    assert (E2 : shr_fexp GoFloat.prec GoFloat.emax (roundShift k (Z.pos p))
                   (Z.pos k) loc_Exact
                 = (shr_record_of_loc (roundShift k (Z.pos p)) loc_Exact,
                    Z.pos k)).
    { unfold shr_fexp. rewrite Hdig.
      replace (fexp GoFloat.prec GoFloat.emax (53 + Z.pos k) - Z.pos k) with 0
        by (unfold fexp, emin, GoFloat.prec, GoFloat.emax; lia).
      reflexivity. }
    rewrite E2. cbn [shr_record_of_loc shr_m].
    destruct (roundShift k (Z.pos p)) as [|q|q]; [float_consts; lia| |lia].
    unfold GoFloat.prec, GoFloat.emax.
    destruct (Z.leb_spec (Z.pos k) (1024 - 53)); [|lia].
    exists q, (Z.pos k). repeat split; lia.
Qed.

Lemma ofInt_scaled z :
  0 < z < 2 ^ 63 ->
  exists m e, GoFloat.ofInt z = S754_finite false m e /\ -52 <= e
              /\ Z.pos m * 2 ^ (e + 52) = scaledValue z.
Proof.
  intros Hz. unfold scaledValue.
  assert (Hd : Zdigits2 z <= 63) by (apply Zdigits2_le; lia).
  destruct (Zdigits2 z - 53) as [|k|k] eqn:Ek.
  - destruct (ofInt_exact z) as (m & e & Hm & He & Hv).
    + split; [lia|]. destruct z as [|p|p]; try lia.
      pose proof (digits2_pos_bounds p). cbn [Zdigits2] in Ek.
      replace (Z.pos (digits2_pos p)) with 53 in * by lia. lia.
    + exists m, e. split; [exact Hm|]. split; [lia|].
      rewrite Hv, <- Z.mul_assoc, <- Z.pow_add_r by lia. do 2 f_equal. lia.
  - destruct z as [|p|p]; try lia. cbn [Zdigits2] in Ek, Hd.
    apply ofInt_round; lia.
  - destruct (ofInt_exact z) as (m & e & Hm & He & Hv).
    + split; [lia|]. destruct z as [|p|p]; try lia.
      pose proof (digits2_pos_bounds p) as Hb. cbn [Zdigits2] in Ek.
      assert (2 ^ Z.pos (digits2_pos p) <= 2 ^ 53)
        by (apply Z.pow_le_mono_r; lia). lia.
    + exists m, e. split; [exact Hm|]. split; [lia|].
      rewrite Hv, <- Z.mul_assoc, <- Z.pow_add_r by lia. do 2 f_equal. lia.
Qed.

Lemma Zdigits2_mono a b : 0 < a <= b -> Zdigits2 a <= Zdigits2 b.
Proof.
  intros H. destruct b as [|q|q]; try lia.
  apply Zdigits2_le; [lia|cbn; lia|].
  pose proof (digits2_pos_bounds q). cbn [Zdigits2]. lia.
Qed.

Lemma roundShift_normal p k :
  Z.pos (digits2_pos p) - 53 = Z.pos k ->
  2 ^ 52 <= roundShift k (Z.pos p) <= 2 ^ 53.
Proof.
  intros Ek. pose proof (digits2_pos_bounds p) as Hp.
  apply roundShift_bounds; [lia|].
  replace (Z.pos (digits2_pos p)) with (Z.pos k + 53) in Hp by lia.
  replace (Z.pos k + 53 - 1) with (Z.pos k + 52) in Hp by lia.
  rewrite !Z.pow_add_r in Hp by lia. lia.
Qed.

(** Conversion to [float64] keeps the order of integers. *)
Lemma scaledValue_mono a b : 0 < a <= b -> scaledValue a <= scaledValue b.
Proof.
  intros H. pose proof (Zdigits2_mono a b H) as Hd. unfold scaledValue.
  destruct a as [|p|p]; try lia. destruct b as [|q|q]; try lia.
  pose proof (digits2_pos_bounds p) as Hp.
  cbn [Zdigits2] in *.
  assert (Hsmall : Z.pos (digits2_pos p) <= 53 ->
                   forall k, Z.pos (digits2_pos q) - 53 = Z.pos k ->
                   Z.pos p * 2 ^ 52
                   <= roundShift k (Z.pos q) * 2 ^ (Z.pos k + 52)).
  { intros Hp53 k Ek. pose proof (roundShift_normal q k Ek) as Hr.
    assert (2 ^ Z.pos (digits2_pos p) <= 2 ^ 53)
      by (apply Z.pow_le_mono_r; lia).
    assert (2 ^ 53 <= 2 ^ (Z.pos k + 52)) by (apply Z.pow_le_mono_r; lia).
    float_consts. nia. }
  destruct (Z.pos (digits2_pos p) - 53) as [|j|j] eqn:Ej;
    destruct (Z.pos (digits2_pos q) - 53) as [|k|k] eqn:Ek; try lia.
  - apply Hsmall; [lia|reflexivity].
  - pose proof (roundShift_normal p j Ej) as Hrp.
    pose proof (roundShift_normal q k Ek) as Hrq.
    destruct (Pos.eq_dec j k) as [->|Hne].
    + apply Z.mul_le_mono_nonneg_r; [apply Z.pow_nonneg; lia|].
      apply roundShift_mono. lia.
    + assert (Hjk : Z.pos j + 53 <= Z.pos k + 52) by lia.
      apply (Z.pow_le_mono_r 2) in Hjk; [|lia].
      replace (Z.pos j + 53) with (1 + (Z.pos j + 52)) in Hjk by lia.
      rewrite (Z.pow_add_r 2 1) in Hjk by lia.
      assert (0 < 2 ^ (Z.pos j + 52)) by (apply Z.pow_pos_nonneg; lia).
      float_consts. nia.
  - apply Hsmall; [lia|reflexivity].
Qed.

Lemma new_location_exact nb k :
  new_location nb k = loc_Exact \/ k <> 0 /\ exists c, new_location nb k = loc_Inexact c.
Proof.
  unfold new_location, new_location_even, new_location_odd.
  destruct (Z.even nb), (Z.eqb_spec k 0); eauto.
Qed.

Lemma pow2_53 : 2 ^ 53 = 9007199254740992.
Proof. reflexivity. Qed.

(** The quotient of two positive [float64]s, the first at most the
    second, is at most one. *)
Lemma SFdiv_bound m1 e1 m2 e2 :
  -52 <= e1 -> -52 <= e2 ->
  Z.pos m1 * 2 ^ (e1 + 52) <= Z.pos m2 * 2 ^ (e2 + 52) ->
  atMost 1 (SFdiv GoFloat.prec GoFloat.emax
              (S754_finite false m1 e1) (S754_finite false m2 e2)).
Proof.
  intros He1 He2 Hle.
  pose proof (digits2_pos_bounds m1) as Hd1.
  pose proof (digits2_pos_bounds m2) as Hd2.
  assert (Hp1 : 0 < 2 ^ (e1 + 52)) by (apply Z.pow_pos_nonneg; lia).
  assert (Hp2 : 0 < 2 ^ (e2 + 52)) by (apply Z.pow_pos_nonneg; lia).
  assert (HD : Z.pos (digits2_pos m1) + e1 - (Z.pos (digits2_pos m2) + e2) <= 0).
  { assert (Z.pos (digits2_pos m1) - 1 + (e1 + 52)
            < Z.pos (digits2_pos m2) + (e2 + 52)); [|lia].
    apply (Z.pow_lt_mono_r_iff 2); [lia|lia|].
    rewrite (Z.pow_add_r 2 (Z.pos (digits2_pos m1) - 1)),
      (Z.pow_add_r 2 (Z.pos (digits2_pos m2))) by lia.
    nia. }
  unfold SFdiv, SFdiv_core_binary. cbn [xorb Zdigits2].
  remember (Z.min (fexp GoFloat.prec GoFloat.emax
              (Z.pos (digits2_pos m1) + e1 - (Z.pos (digits2_pos m2) + e2)))
              (e1 - e2)) as e' eqn:Ee'.
  assert (He' : e' <= 0 /\ e' <= e1 - e2)
    by (subst e'; unfold fexp, emin, GoFloat.prec, GoFloat.emax; lia).
  remember (e1 - e2 - e') as s eqn:Es.
  remember (match s with
            | 0 => Z.pos m1
            | Z.pos _ => Z.shiftl (Z.pos m1) s
            | Z.neg _ => 0
            end) as m' eqn:Em'.
  assert (Hm' : m' = Z.pos m1 * 2 ^ s).
  { subst m'. destruct s as [|k|k]; [lia| |lia].
    now rewrite Z.shiftl_mul_pow2 by lia. }
  assert (Hpe : 0 < 2 ^ (- e')) by (apply Z.pow_pos_nonneg; lia).
  assert (Hquot : m' <= Z.pos m2 * 2 ^ (- e')).
  { apply (Z.mul_le_mono_pos_r _ _ (2 ^ (e2 + 52))); [exact Hp2|].
    rewrite Hm', <- Z.mul_assoc, <- Z.pow_add_r by lia.
    replace (s + (e2 + 52)) with (e1 + 52 + - e') by lia.
    rewrite Z.pow_add_r by lia. nia. }
  assert (Hm'0 : 0 <= m')
    by (rewrite Hm'; apply Z.mul_nonneg_nonneg; [lia|apply Z.pow_nonneg; lia]).
  pose proof (Z_div_mod m' (Z.pos m2) eq_refl) as Hdm.
  destruct (Z.div_eucl m' (Z.pos m2)) as [q r]. destruct Hdm as [Hq Hr].
  assert (Hq0 : 0 <= q) by nia.
  apply binary_round_aux_bound; [rewrite pow2_53; lia|exact Hq0|lia|].
  rewrite ceiling_of_loc, Z.mul_1_l.
  destruct (new_location_exact (Z.pos m2) r) as [->|[Hr0 [cmp ->]]]; nia.
Qed.

Lemma ofInt_thirty : GoFloat.ofInt 30 = S754_finite false 8444249301319680 (-48).
Proof. reflexivity. Qed.

Lemma SFmul_thirty_bound q : atMost 1 q -> atMost 30 (GoFloat.mul q (GoFloat.ofInt 30)).
Proof.
  rewrite ofInt_thirty. unfold GoFloat.mul.
  destruct q as [[]| | |[] mq eq]; cbn [atMost SFmul xorb]; try tauto.
  intros [He Hm].
  assert (Hp : 0 < 2 ^ (- eq)) by (apply Z.pow_pos_nonneg; lia).
  apply binary_round_aux_bound; [rewrite pow2_53; lia|lia|lia|].
  rewrite ceiling_of_loc.
  replace (- (eq + -48)) with (- eq + 48) by lia.
  rewrite Z.pow_add_r by lia. change (2 ^ 48) with 281474976710656. nia.
Qed.

Lemma toInt_bound C f :
  0 <= C < 2 ^ 63 -> atMost C f -> 0 <= GoFloat.toInt f <= C.
Proof.
  intros HC. destruct f as [[]| | |[] m e]; cbn [atMost GoFloat.toInt]; try tauto; [lia|].
  intros [He Hm].
  assert (Hp : 0 < 2 ^ (- e)) by (apply Z.pow_pos_nonneg; lia).
  assert (Hmag : 0 <= (if 0 <=? e then Z.pos m * 2 ^ e else Z.pos m / 2 ^ (- e)) <= C).
  { destruct (Z.leb_spec 0 e).
    - replace e with 0 in * by lia. cbn in Hm |- *. lia.
    - split; [apply Z.div_pos; lia|].
      apply Z.div_le_upper_bound; lia. }
  set (mag := if 0 <=? e then Z.pos m * 2 ^ e else Z.pos m / 2 ^ (- e)) in *.
  assert (E1 : (- 2 ^ 63 <=? mag) = true) by (apply Z.leb_le; int_consts; lia).
  assert (E2 : (mag <? 2 ^ 63) = true) by (apply Z.ltb_lt; int_consts; lia).
  rewrite E1, E2.
  exact Hmag.
Qed.

(** The secondary bar of a week is between 1 and 31 glyphs long. *)
Lemma barLength_bounds count maxCount :
  0 < count <= maxCount -> maxCount < 2 ^ 63 ->
  1 <= Ashby.barLength count maxCount <= 31.
Proof.
  intros Hc Hm. unfold Ashby.barLength.
  pose proof (scaledValue_mono count maxCount Hc) as Hle.
  destruct (ofInt_scaled count) as (m1 & e1 & -> & He1 & Hm1); [lia|].
  destruct (ofInt_scaled maxCount) as (m2 & e2 & -> & He2 & Hm2); [lia|].
  rewrite <- Hm1, <- Hm2 in Hle.
  pose proof (SFdiv_bound m1 e1 m2 e2 He1 He2 Hle) as Hq.
  apply SFmul_thirty_bound in Hq.
  apply (toInt_bound 30) in Hq; [|int_consts; lia].
  unfold GoFloat.div, GoInt.add. rewrite wrap_id; [lia|].
  unfold GoInt.inRange. int_consts. lia.
Qed.

Lemma div_eucl_multiple a b : 0 < b -> Z.div_eucl (b * a) b = (a, 0).
Proof.
  intros Hb. pose proof (Z.div_mul a b ltac:(lia)) as Hd.
  pose proof (Z.mod_mul a b ltac:(lia)) as Hr.
  rewrite (Z.mul_comm a b) in Hd, Hr. unfold Z.div, Z.modulo in Hd, Hr.
  destruct (Z.div_eucl (b * a) b) as [q r]. now subst.
Qed.

Lemma SFdiv_diag m e :
  SFdiv GoFloat.prec GoFloat.emax (S754_finite false m e) (S754_finite false m e)
  = S754_finite false 4503599627370496 (-52).
Proof.
  unfold SFdiv, SFdiv_core_binary. cbn [xorb Zdigits2].
  rewrite !Z.sub_diag.
  change (Z.min (fexp GoFloat.prec GoFloat.emax 0) 0) with (-53).
  change (0 - -53) with 53.
  rewrite Z.shiftl_mul_pow2 by lia. rewrite div_eucl_multiple by lia.
  destruct (new_location_exact (Z.pos m) 0) as [->|[H _]]; [|lia].
  reflexivity.
Qed.

(** The bar of a week with the maximal count is 31 glyphs long. *)
Lemma barLength_max maxCount :
  0 < maxCount < 2 ^ 63 -> Ashby.barLength maxCount maxCount = 31.
Proof.
  intros Hm. unfold Ashby.barLength.
  destruct (ofInt_scaled maxCount) as (m & e & -> & _); [lia|].
  unfold GoFloat.div. rewrite SFdiv_diag. reflexivity.
Qed.

(** *** Running the histogram *)

Lemma mret_run {S A} (a : A) (s : S) : (mret a : M S A) s = (Val a, s).
Proof. reflexivity. Qed.

Lemma Println_run text out : Println text out = (Val tt, out ++ [text +:+ nl]).
Proof. reflexivity. Qed.

Lemma forEach_run {A} (text : A -> list string) (body : A -> M (list string) unit) :
  (forall x out, body x out = (Val tt, out ++ text x)) ->
  forall xs out,
  forEach xs body out = (Val tt, out ++ concat (List.map text xs)).
Proof.
  intros Hbody. unfold forEach.
  induction xs as [|x xs IH]; intros out; cbn [foldM List.map concat].
  - now rewrite app_nil_r.
  - erewrite bind_val by apply Hbody. rewrite IH, <- app_assoc. reflexivity.
Qed.

Lemma concat_singletons {A B} (f : A -> B) xs :
  concat (List.map (fun x => [f x]) xs) = List.map f xs.
Proof. induction xs as [|x xs IH]; cbn; [reflexivity|now rewrite IH]. Qed.

Lemma chartRow_run counts maxCount row out :
  (Print (rightS 12 "");;
   forEach counts (fun count =>
     if GoFloat.geb (GoFloat.ofInt count)
          (GoFloat.mul (GoFloat.div (GoFloat.ofInt row) (GoFloat.ofInt 15))
             (GoFloat.ofInt maxCount))
     then Print "█" else Print " ");;
   Println "") out
  = (Val tt, out ++ chartRow counts maxCount row).
Proof.
  erewrite bind_val by apply Print_run.
  erewrite bind_val.
  2:{ apply (forEach_run (fun count =>
        [if GoFloat.geb (GoFloat.ofInt count) (threshold maxCount row)
         then "█" else " "]%string)).
      intros count o. unfold threshold. now destruct (GoFloat.geb _ _). }
  rewrite Println_run, concat_singletons, <- !app_assoc. reflexivity.
Qed.

Lemma shortMonthName_nonempty m :
  1 <= m <= 12 -> exists c rest, shortMonthName m = String c rest.
Proof.
  intros H.
  assert (E : m = 1 \/ m = 2 \/ m = 3 \/ m = 4 \/ m = 5 \/ m = 6 \/ m = 7
              \/ m = 8 \/ m = 9 \/ m = 10 \/ m = 11 \/ m = 12) by lia.
  repeat (destruct E as [->|E]; [cbn; eauto|]). subst. cbn. eauto.
Qed.

Lemma Format_Jan_nonempty t : exists c rest, Format t L_Jan = String c rest.
Proof.
  unfold Format, dateOf. destruct (civil (dayNumber t)) as [[y m] d] eqn:E.
  apply civil_dateToDays in E. apply shortMonthName_nonempty. lia.
Qed.

Lemma monthTicks_run weeks : forall lastMonth out,
  exists month,
  foldM (fun lastMonth week =>
      let t := ParseIgnoringError week in
      let month := Format t L_Jan in
      if negb (String.eqb month lastMonth) then
        match month with
        | String c _ => Print (String c "");; mret month
        | EmptyString => panic
        end
      else Print " ";; mret lastMonth) lastMonth weeks out
  = (Val month, out ++ monthTicks lastMonth weeks).
Proof.
  cbv zeta.
  induction weeks as [|week weeks IH]; intros lastMonth out;
    cbn [foldM monthTicks].
  - exists lastMonth. now rewrite app_nil_r.
  - rewrite bind_run.
    destruct (Format_Jan_nonempty (ParseIgnoringError week)) as (c & rest & E).
    rewrite E.
    destruct (negb (String.eqb (String c rest) lastMonth)).
    + erewrite (bind_val (Print (String c ""))) by apply Print_run.
      rewrite mret_run.
      destruct (IH (String c rest) (out ++ [String c ""])) as [month ->].
      exists month. now rewrite <- app_assoc.
    + erewrite (bind_val (Print " ")) by apply Print_run.
      rewrite mret_run.
      destruct (IH lastMonth (out ++ [" "%string])) as [month ->].
      exists month. now rewrite <- app_assoc.
Qed.

Lemma printBreakdownLine_run maxCount week count out :
  (0 < count -> 0 <= barLength count maxCount <= 31) ->
  printBreakdownLine maxCount week count out
  = (Val tt, out ++ [breakdownLine maxCount week count]).
Proof.
  intros Hbar. unfold printBreakdownLine, breakdownLine.
  destruct (Z.ltb_spec 0 count) as [Hc|Hc]; [|reflexivity].
  specialize (Hbar Hc). unfold Repeat.
  destruct (Z.ltb_spec (barLength count maxCount) 0); [lia|].
  change (Z.of_nat (String.length "▪")) with 3.
  destruct (Z.ltb_spec (2 ^ 63 - 1) (3 * barLength count maxCount));
    [int_consts; lia|].
  reflexivity.
Qed.

Lemma breakdownLoop_run maxCount (value : string -> Z) weeks :
  Forall (fun week =>
            0 < value week -> 0 <= barLength (value week) maxCount <= 31)
    weeks ->
  forall (shown : list Z) total out,
  foldM (fun total '(i, week) =>
      count ← orPanic ((shown ++ List.map value weeks) !! i);
      let total := GoInt.add total count in
      printBreakdownLine maxCount week count;;
      mret total) total
    (imap (fun i week => ((length shown + i)%nat, week)) weeks) out
  = (Val (GoInt.sumFrom total (List.map value weeks)),
     out ++ List.map (fun week => breakdownLine maxCount week (value week)) weeks).
Proof.
  cbv zeta.
  induction 1 as [|week weeks Hbar _ IH]; intros shown total out.
  - cbn. now rewrite app_nil_r.
  - rewrite imap_cons. cbn [foldM List.map].
    rewrite bind_run. cbv beta iota.
    rewrite Nat.add_0_r, list_lookup_middle by reflexivity.
    cbn [orPanic]. rewrite bind_run, mret_run.
    rewrite bind_run, (printBreakdownLine_run _ _ _ _ Hbar), mret_run.
    specialize (IH (shown ++ [value week]) (GoInt.add total (value week))
                  (out ++ [breakdownLine maxCount week (value week)])).
    rewrite <- app_assoc in IH. cbn [app] in IH.
    rewrite (imap_ext _ (fun i week => ((length shown + S i)%nat, week))) in IH.
    2:{ intros i x _. cbn. rewrite length_app. cbn. f_equal. lia. }
    unfold compose. rewrite IH, <- app_assoc. reflexivity.
Qed.

Lemma zip_with_map {A B C} (f : A -> B -> C) (g : A -> B) xs :
  zip_with f xs (List.map g xs) = List.map (fun x => f x (g x)) xs.
Proof. induction xs as [|x xs IH]; cbn; [reflexivity|now rewrite IH]. Qed.

Lemma axis_run (out : list string) :
  orPanic (Repeat "-" 26) out = (Val "--------------------------"%string, out).
Proof. reflexivity. Qed.

(** The histogram of a series that is not all zero: the chart, a line for
    each week, the summary. *)
Lemma printHistogram_run now metrics out :
  let weeks := getLast26Weeks now in
  let counts := List.map (GoMap.index (aggregate metrics)) weeks in
  let maxCount := maxFrom 0 counts in
  maxCount <> 0 ->
  Forall (fun count => 0 < count -> 0 <= barLength count maxCount <= 31)
    counts ->
  printHistogram now metrics out
  = (Val tt,
     out ++ chartText weeks counts maxCount
         ++ zip_with (breakdownLine maxCount) weeks counts
         ++ summaryText (GoInt.sumFrom 0 counts)).
Proof.
  intros weeks counts maxCount Hmax Hbars.
  unfold printHistogram. cbv zeta. rewrite collect_spec.
  fold weeks. fold counts. fold maxCount.
  destruct (Z.eqb_spec maxCount 0) as [|_]; [contradiction|].
  erewrite bind_val by apply Println_run.
  erewrite bind_val by apply Println_run.
  erewrite bind_val
    by apply (forEach_run (chartRow counts maxCount)), chartRow_run.
  erewrite bind_val by apply Print_run.
  erewrite bind_val by apply axis_run.
  erewrite bind_val by apply Println_run.
  erewrite bind_val by apply Print_run.
  destruct (monthTicks_run weeks ""%string
    ((((((out ++ ["Applicants per Week (Last 6 Months)" +:+ nl]) ++ ["" +:+ nl])
        ++ concat (List.map (chartRow counts maxCount)
                     (List.map (fun k => 15 - Z.of_nat k) (seq 0 (Z.to_nat 15)))))
       ++ [rightS 12 ""]) ++ ["--------------------------" +:+ nl])
     ++ [rightS 12 ""])) as [month Hticks].
  cbv zeta in Hticks.
  erewrite bind_val by exact Hticks.
  erewrite bind_val by apply Println_run.
  erewrite bind_val by apply Println_run.
  erewrite bind_val by apply Print_run.
  erewrite bind_val by apply Print_run.
  erewrite bind_val by apply Println_run.
  erewrite bind_val by apply Println_run.
  erewrite bind_val by apply Println_run.
  erewrite bind_val.
  2:{ apply (breakdownLoop_run maxCount (GoMap.index (aggregate metrics)) weeks
               ltac:(now apply Forall_map in Hbars) []). }
  erewrite bind_val by apply Println_run.
  erewrite bind_val by apply Print_run.
  rewrite Print_run. fold counts.
  unfold chartText, summaryText, chartRows.
  pose proof (zip_with_map (breakdownLine maxCount)
                (GoMap.index (aggregate metrics)) weeks) as Hzip.
  fold counts in Hzip. rewrite Hzip.
  rewrite <- !app_assoc. cbn [app]. change ("" +:+ nl) with nl.
  reflexivity.
Qed.

(** ** The weekly breakdown of the histogram *)

(** C9, as stated, fails for the week with the maximal count: with weekly
    totals 2 and 5 the maximum is 5, and the line of the week of
    2024-03-11 (count 5) carries 31 glyphs where [count / max * 30] is
    30; the line of the week of 2024-03-04 (count 2) carries 13 where it
    is 12. *)
Lemma histogram_bar_of_maximal_week :
  collect (aggregate twoJobs) (getLast26Weeks wednesday)
  = (replicate 24 0 ++ [2; 5], 5)
  /\ drop 482 (snd (printHistogram wednesday twoJobs []))
     = [barLine "2024-03-04" 2 13; barLine "2024-03-11" 5 31; nl;
        "  Total: 7 applicants over 26 weeks" +:+ nl;
        "  Average: 0.3 applicants/week" +:+ nl]
  /\ specifiedBarLength 2 5 = 12
  /\ specifiedBarLength 5 5 = 30
  /\ barLine "2024-03-11" 5 31
     <> barLine "2024-03-11" 5 (Z.to_nat (specifiedBarLength 5 5)).
Proof.
  split; [vm_compute; reflexivity|]. split; [vm_compute; reflexivity|].
  split; [reflexivity|]. split; [reflexivity|].
  vm_compute. intros H. discriminate H.
Qed.

Lemma aggregate_intValued metrics : intValued (aggregate metrics).
Proof. exact (proj1 (aggregate_from metrics ∅ ""%string intValued_empty)). Qed.

(** C9 (amended). When the largest of the 26 weekly totals is not zero,
    [printHistogram] returns normally, having written the chart, one
    breakdown line per week, oldest first, and the summary.  The line of
    a week with count > 0 ends with a bar of
    [int(float64(count) / float64(max) * 30) + 1] glyphs, which is
    between 1 and 31 glyphs; the bar of a week with the maximal count has
    31 glyphs, and there is such a week.  The line of a week with count 0
    has no bar. *)
Theorem histogram_breakdown_bars
    (now : Time) (metrics : list ashbyJobMetrics) (out : list string) :
  let weeks := getLast26Weeks now in
  let counts := List.map (GoMap.index (aggregate metrics)) weeks in
  let maxCount := maxFrom 0 counts in
  maxCount <> 0 ->
  collect (aggregate metrics) weeks = (counts, maxCount)
  /\ printHistogram now metrics out
     = (Val tt,
        out ++ chartText weeks counts maxCount
            ++ zip_with (fun week count =>
                 if 0 <? count
                 then barLine week count (Z.to_nat (barLength count maxCount))
                 else plainLine week count) weeks counts
            ++ summaryText (GoInt.sumFrom 0 counts))
  /\ Forall (fun count => 0 < count -> 1 <= barLength count maxCount <= 31)
       counts
  /\ maxCount ∈ counts
  /\ barLength maxCount maxCount = 31.
Proof.
  intros weeks counts maxCount Hmax.
  destruct (maxFrom_bounds counts 0) as (Hpos & Hle & Hin).
  fold maxCount in Hpos, Hle, Hin.
  destruct Hin as [Hin|Hin]; [contradiction|].
  assert (Hint : maxCount < 2 ^ 63).
  { apply in_map_iff in Hin as (week & <- & _).
    apply aggregate_intValued. }
  assert (Hbars : Forall (fun count => 0 < count ->
                            1 <= barLength count maxCount <= 31) counts).
  { eapply Forall_impl; [exact Hle|]. cbv beta. intros count Hc Hcount.
    apply barLength_bounds; [lia|exact Hint]. }
  split; [apply collect_spec|]. split; [|split; [exact Hbars|split]].
  - apply (printHistogram_run now metrics out); [exact Hmax|].
    eapply Forall_impl; [exact Hbars|]. cbv beta. intros count Hc Hcount.
    change (0 <= barLength count maxCount <= 31). specialize (Hc Hcount). lia.
  - now apply list_elem_of_In.
  - apply barLength_max. split; [lia|exact Hint].
Qed.

Lemma histogram_breakdown_bars_witness :
  barLength
    (maxFrom 0 (List.map (GoMap.index (aggregate twoJobs))
                  (getLast26Weeks wednesday)))
    (maxFrom 0 (List.map (GoMap.index (aggregate twoJobs))
                  (getLast26Weeks wednesday)))
  = 31.
Proof.
  refine (proj2 (proj2 (proj2 (proj2
            (histogram_breakdown_bars wednesday twoJobs [] _))))).
  vm_compute. discriminate.
Defined.

(** ** The grouping of applications *)

Lemma groupApplications_snoc jobs applications app :
  Applicants.groupApplications jobs (applications ++ [app])
  = Applicants.groupStep jobs (Applicants.groupApplications jobs applications)
      app.
Proof. unfold Applicants.groupApplications. now rewrite fold_left_app. Qed.

Lemma groupStep_other jobs metrics app jobID :
  jobOf app <> jobID ->
  Applicants.groupStep jobs metrics app !! jobID = metrics !! jobID.
Proof.
  unfold jobOf. intros Hne. unfold Applicants.groupStep. cbv zeta.
  rewrite lookup_alter_ne by assumption.
  destruct (metrics !! _); [reflexivity|].
  now rewrite lookup_insert_ne.
Qed.

Lemma groupStep_same jobs metrics app :
  exists m,
    Applicants.groupStep jobs metrics app !! jobOf app = Some m
    /\ WeekCounts m
       = GoMap.addAssign
           (match metrics !! jobOf app with
            | Some old => WeekCounts old
            | None => ∅
            end) (weekOf app) 1
    /\ (Department m, Title m)
       = match metrics !! jobOf app with
         | Some old => (Department old, Title old)
         | None => labelsOf jobs app
         end.
Proof.
  unfold Applicants.groupStep, labelsOf, jobOf, weekOf. cbv zeta.
  set (jobID := Applicants.JobRef.ID (Applicants.App.Job app)).
  set (week := getWeekStart (Applicants.App.CreatedAt app)).
  rewrite lookup_alter_eq.
  destruct (metrics !! jobID) as [old|] eqn:E.
  - rewrite E.
    exists (mkMetrics (Department old) (Title old)
              (GoMap.addAssign (WeekCounts old) week 1)).
    split; [reflexivity|]. split; reflexivity.
  - rewrite lookup_insert_eq.
    destruct (jobs !! jobID) as [info|].
    + exists (mkMetrics (Applicants.JobInfo.Department info)
                (Applicants.JobInfo.Title info)
                (GoMap.addAssign ∅ week 1)).
      split; [reflexivity|]. split; reflexivity.
    + destruct (String.eqb_spec
                  (Applicants.JobRef.Title (Applicants.App.Job app)) "")
        as [Ht|Ht].
      * exists (mkMetrics "No Department" "Unknown Job"
                  (GoMap.addAssign ∅ week 1)).
        cbn [Applicants.JobInfo.Title]. rewrite Ht.
        split; [reflexivity|]. split; reflexivity.
      * exists (mkMetrics "No Department"
                  (Applicants.JobRef.Title (Applicants.App.Job app))
                  (GoMap.addAssign ∅ week 1)).
        cbn [Applicants.JobInfo.Title].
        apply String.eqb_neq in Ht. rewrite Ht.
        split; [reflexivity|]. split; reflexivity.
Qed.

Lemma countOf_step jobs metrics app jobID week :
  countOf (Applicants.groupStep jobs metrics app) jobID week
  = if bool_decide (jobOf app = jobID) && bool_decide (weekOf app = week)
    then GoInt.add (countOf metrics jobID week) 1
    else countOf metrics jobID week.
Proof.
  unfold countOf at 1.
  destruct (decide (jobOf app = jobID)) as [<-|Hne].
  - rewrite bool_decide_eq_true_2 by reflexivity. cbn [andb].
    destruct (groupStep_same jobs metrics app) as (m & -> & Hw & _).
    rewrite Hw. unfold countOf.
    destruct (decide (weekOf app = week)) as [<-|Hw'].
    + rewrite bool_decide_eq_true_2 by reflexivity.
      rewrite index_addAssign_eq.
      destruct (metrics !! jobOf app); [reflexivity|]. now rewrite index_empty.
    + rewrite bool_decide_eq_false_2 by assumption.
      rewrite index_addAssign_ne by assumption.
      destruct (metrics !! jobOf app); [reflexivity|]. now rewrite index_empty.
  - rewrite bool_decide_eq_false_2 by assumption. cbn [andb].
    now rewrite groupStep_other by assumption.
Qed.

Lemma countOf_wrap jobs applications jobID week :
  countOf (Applicants.groupApplications jobs applications) jobID week
  = GoInt.wrap (applicantsOf jobID week applications).
Proof.
  induction applications as [|app applications IH] using rev_ind.
  - reflexivity.
  - rewrite groupApplications_snoc, countOf_step, IH.
    unfold applicantsOf. rewrite List.filter_app, length_app. cbn [List.filter].
    destruct (bool_decide (jobOf app = jobID) && bool_decide (weekOf app = week)).
    + cbn [length]. unfold GoInt.add. rewrite wrap_add_l. f_equal. lia.
    + cbn [length]. f_equal. lia.
Qed.

Lemma applicantsOf_le jobID week applications :
  0 <= applicantsOf jobID week applications <= Z.of_nat (length applications).
Proof.
  unfold applicantsOf. pose proof (List.filter_length_le
    (fun app => bool_decide (jobOf app = jobID) && bool_decide (weekOf app = week))
    applications). lia.
Qed.

Lemma group_absent jobs applications jobID :
  Applicants.groupApplications jobs applications !! jobID = None
  <-> Forall (fun app => jobOf app <> jobID) applications.
Proof.
  induction applications as [|app applications IH] using rev_ind.
  - split; [constructor|reflexivity].
  - rewrite groupApplications_snoc, Forall_app, <- IH.
    destruct (decide (jobOf app = jobID)) as [<-|Hne].
    + destruct (groupStep_same jobs
                  (Applicants.groupApplications jobs applications) app)
        as (m & -> & _).
      split; [discriminate|]. intros [_ H].
      apply Forall_cons in H as [H _]. now contradiction H.
    + rewrite groupStep_other by assumption.
      split; [intros H; split; [exact H|now repeat constructor]|tauto].
Qed.

(** X1. After the grouping loop of [runApplicantsByWeek] over fewer than
    2^63 applications, the count kept for a job and a week is the number
    of applications for that job created in that week (zero for a job
    without metrics), and a job has no metrics exactly when no
    application names it. *)
Theorem grouping_counts_applications
    (jobs : gmap string Applicants.JobInfo.t)
    (applications : list Applicants.App.t) (jobID week : string) :
  Z.of_nat (length applications) < 2 ^ 63 ->
  countOf (Applicants.groupApplications jobs applications) jobID week
  = applicantsOf jobID week applications
  /\ (Applicants.groupApplications jobs applications !! jobID = None
      <-> Forall (fun app => jobOf app <> jobID) applications).
Proof.
  intros Hlen. split; [|apply group_absent].
  rewrite countOf_wrap. apply wrap_id.
  pose proof (applicantsOf_le jobID week applications).
  unfold GoInt.inRange. int_consts. lia.
Qed.

Lemma firstFor_snoc jobID applications app :
  firstFor jobID (applications ++ [app])
  = match firstFor jobID applications with
    | Some first => Some first
    | None => if bool_decide (jobOf app = jobID) then Some app else None
    end.
Proof.
  unfold firstFor. rewrite List.filter_app. cbn [List.filter].
  destruct (List.filter _ applications) as [|x xs]; cbn [head List.app].
  - now destruct (bool_decide _).
  - reflexivity.
Qed.

Lemma firstFor_job jobID applications first :
  firstFor jobID applications = Some first -> jobOf first = jobID.
Proof.
  unfold firstFor. intros H.
  assert (Hin : In first (List.filter (fun app => bool_decide (jobOf app = jobID))
                            applications)).
  { destruct (List.filter _ applications) as [|x xs]; [discriminate|].
    injection H as ->. now left. }
  apply filter_In in Hin as [_ Hin]. now apply bool_decide_eq_true in Hin.
Qed.

Lemma group_labels jobs applications jobID :
  match firstFor jobID applications with
  | Some first =>
      exists m,
        Applicants.groupApplications jobs applications !! jobID = Some m
        /\ (Department m, Title m) = labelsOf jobs first
  | None => Applicants.groupApplications jobs applications !! jobID = None
  end.
Proof.
  induction applications as [|app applications IH] using rev_ind.
  - reflexivity.
  - rewrite firstFor_snoc, groupApplications_snoc.
    destruct (firstFor jobID applications) as [first|] eqn:Ef.
    + destruct IH as (m & Hm & Hl).
      destruct (decide (jobOf app = jobID)) as [<-|Hne].
      * destruct (groupStep_same jobs
                    (Applicants.groupApplications jobs applications) app)
          as (m' & Hm' & _ & Hl').
        rewrite Hm in Hl'. exists m'. split; [exact Hm'|]. congruence.
      * exists m. now rewrite groupStep_other by assumption.
    + destruct (decide (jobOf app = jobID)) as [<-|Hne].
      * rewrite bool_decide_eq_true_2 by reflexivity.
        destruct (groupStep_same jobs
                    (Applicants.groupApplications jobs applications) app)
          as (m' & Hm' & _ & Hl').
        rewrite IH in Hl'. now exists m'.
      * rewrite bool_decide_eq_false_2 by assumption.
        now rewrite groupStep_other by assumption.
Qed.

Lemma group_labels_found
    (jobs : gmap string Applicants.JobInfo.t)
    (applications : list Applicants.App.t) (jobID : string)
    (m : ashbyJobMetrics) :
  Applicants.groupApplications jobs applications !! jobID = Some m ->
  exists first,
    firstFor jobID applications = Some first
    /\ jobOf first = jobID
    /\ Department m
       = match jobs !! jobID with
         | Some info => Applicants.JobInfo.Department info
         | None => "No Department"%string
         end
    /\ Title m
       = match jobs !! jobID with
         | Some info => Applicants.JobInfo.Title info
         | None =>
             if String.eqb (Applicants.JobRef.Title (Applicants.App.Job first)) ""
             then "Unknown Job"%string
             else Applicants.JobRef.Title (Applicants.App.Job first)
         end.
Proof.
  intros Hm. pose proof (group_labels jobs applications jobID) as H.
  destruct (firstFor jobID applications) as [first|] eqn:Ef; [|congruence].
  destruct H as (m' & Hm' & Hl). assert (m' = m) by congruence. subst m'.
  pose proof (firstFor_job _ _ _ Ef) as Hj.
  exists first. split; [reflexivity|]. split; [exact Hj|].
  unfold labelsOf in Hl. rewrite Hj in Hl.
  destruct (jobs !! jobID); injection Hl as -> ->; split; reflexivity.
Qed.

(** X2. The metrics that the grouping loop of [runApplicantsByWeek] keeps
    for a job carry the department and title of the job list when the job
    is listed; otherwise the department is "No Department" and the title
    is the one given by the first application for the job, or "Unknown
    Job" when that is empty. *)
Theorem grouping_labels_from_first_application
    (jobs : gmap string Applicants.JobInfo.t)
    (applications : list Applicants.App.t) (jobID : string)
    (m : ashbyJobMetrics) :
  Applicants.groupApplications jobs applications !! jobID = Some m ->
  exists first,
    firstFor jobID applications = Some first
    /\ jobOf first = jobID
    /\ Department m
       = match jobs !! jobID with
         | Some info => Applicants.JobInfo.Department info
         | None => "No Department"%string
         end
    /\ Title m
       = match jobs !! jobID with
         | Some info => Applicants.JobInfo.Title info
         | None =>
             if String.eqb (Applicants.JobRef.Title (Applicants.App.Job first)) ""
             then "Unknown Job"%string
             else Applicants.JobRef.Title (Applicants.App.Job first)
         end.
Proof. apply group_labels_found. Qed.

(** *** Departments of the listed jobs *)

Lemma recordJobs_department departments results : forall jobs,
  map_Forall (fun _ info => Applicants.JobInfo.Department info <> ""%string)
    jobs ->
  map_Forall (fun _ info => Applicants.JobInfo.Department info <> ""%string)
    (Applicants.recordJobs departments jobs results).
Proof.
  unfold Applicants.recordJobs.
  induction results as [|job results IH]; intros jobs H; [exact H|].
  cbn [fold_left]. apply IH. apply map_Forall_insert_2; [|exact H].
  cbn. destruct (String.eqb_spec
                   (Applicants.lookupName departments
                      (Applicants.Job.DepartmentID job)) "");
    [discriminate|assumption].
Qed.

Lemma recordPages_department departments pages : forall jobs,
  map_Forall (fun _ info => Applicants.JobInfo.Department info <> ""%string)
    jobs ->
  map_Forall (fun _ info => Applicants.JobInfo.Department info <> ""%string)
    (fold_left (Applicants.recordJobs departments) pages jobs).
Proof.
  induction pages as [|page pages IH]; intros jobs H; [exact H|].
  cbn [fold_left]. apply IH. now apply recordJobs_department.
Qed.

(** X3. With the job list that [fetchAllJobs] builds from pages of
    results, the department of every job in the grouped metrics is not
    empty, and it is "No Department" for a job that is not listed. *)
Theorem reported_department_never_empty
    (departments : gmap string string) (pages : list (list Applicants.Job.t))
    (applications : list Applicants.App.t) (jobID : string)
    (m : ashbyJobMetrics) :
  let jobs := fold_left (Applicants.recordJobs departments) pages ∅ in
  Applicants.groupApplications jobs applications !! jobID = Some m ->
  Department m <> ""%string
  /\ (jobs !! jobID = None -> Department m = "No Department"%string).
Proof.
  intros jobs Hm.
  destruct (group_labels_found jobs applications jobID m Hm)
    as (first & _ & _ & Hd & _).
  pose proof (recordPages_department departments pages ∅
                (map_Forall_empty _)) as Hjobs.
  fold jobs in Hjobs. rewrite Hd.
  destruct (jobs !! jobID) as [info|] eqn:E.
  - split; [exact (Hjobs jobID info E)|discriminate].
  - split; [discriminate|reflexivity].
Qed.

(** *** The weekly totals of the histogram *)

Lemma sumZ_cons x xs : sumZ (x :: xs) = x + sumZ xs.
Proof. reflexivity. Qed.

Lemma wrap_wrap_add a b : GoInt.wrap (a + GoInt.wrap b) = GoInt.wrap (a + b).
Proof. now rewrite Z.add_comm, wrap_add_l, Z.add_comm. Qed.

Lemma groupStep_insert jobs metrics app :
  exists m,
    Applicants.groupStep jobs metrics app = <[ jobOf app := m ]> metrics
    /\ WeekCounts m
       = GoMap.addAssign
           (match metrics !! jobOf app with
            | Some old => WeekCounts old
            | None => ∅
            end) (weekOf app) 1.
Proof.
  destruct (groupStep_same jobs metrics app) as (m & Hm & Hw & _).
  exists m. split; [|exact Hw]. apply map_eq. intros k.
  destruct (decide (jobOf app = k)) as [<-|Hne].
  - now rewrite lookup_insert_eq.
  - now rewrite lookup_insert_ne, groupStep_other by assumption.
Qed.

Lemma weekSum_step jobs metrics app week :
  GoInt.wrap (weekSum week (Applicants.groupStep jobs metrics app))
  = GoInt.wrap (weekSum week metrics
                + if bool_decide (weekOf app = week) then 1 else 0).
Proof.
  destruct (groupStep_insert jobs metrics app) as (m & -> & Hw).
  unfold weekSum.
  rewrite <- insert_delete_eq.
  rewrite (total_perm _ _ (Permutation_map _
             (map_to_list_insert (delete (jobOf app) metrics) (jobOf app) m
                (lookup_delete_eq _ _)))).
  cbn [List.map]. rewrite sumZ_cons, Hw.
  set (rest := sumZ (List.map _ (map_to_list (delete (jobOf app) metrics)))).
  assert (Hold : sumZ (List.map (fun '(_, m) => GoMap.index (WeekCounts m) week)
                         (map_to_list metrics))
                 = GoMap.index (match metrics !! jobOf app with
                                | Some old => WeekCounts old
                                | None => ∅
                                end) week + rest).
  { destruct (metrics !! jobOf app) as [old|] eqn:E.
    - rewrite <- (total_perm _ _ (Permutation_map _
                    (map_to_list_delete metrics (jobOf app) old E))).
      reflexivity.
    - rewrite index_empty. subst rest. now rewrite (delete_id _ _ E). }
  rewrite Hold.
  destruct (decide (weekOf app = week)) as [<-|Hne].
  - rewrite bool_decide_eq_true_2 by reflexivity.
    rewrite index_addAssign_eq. unfold GoInt.add.
    rewrite wrap_add_l. f_equal. lia.
  - rewrite bool_decide_eq_false_2 by assumption.
    rewrite index_addAssign_ne by assumption. f_equal. lia.
Qed.

Lemma weekSum_wrap jobs applications week :
  GoInt.wrap (weekSum week (Applicants.groupApplications jobs applications))
  = GoInt.wrap (applicantsIn week applications).
Proof.
  induction applications as [|app applications IH] using rev_ind.
  - reflexivity.
  - rewrite groupApplications_snoc, weekSum_step, <- wrap_add_l, IH, wrap_add_l.
    unfold applicantsIn. rewrite List.filter_app, length_app. cbn [List.filter].
    destruct (bool_decide (weekOf app = week)); cbn [length]; f_equal; lia.
Qed.

(** X4. The weekly totals of the histogram, computed over the metrics of
    the grouping loop in whatever order the map is visited, are for every
    week the number of applications created in that week (for fewer than
    2^63 applications). *)
Theorem histogram_totals_count_applications
    (jobs : gmap string Applicants.JobInfo.t)
    (applications : list Applicants.App.t)
    (visited : list ashbyJobMetrics) (week : string) :
  visited ≡ₚ (map_to_list (Applicants.groupApplications jobs applications)).*2 ->
  Z.of_nat (length applications) < 2 ^ 63 ->
  GoMap.index (aggregate visited) week = applicantsIn week applications.
Proof.
  intros Hperm Hlen. rewrite aggregate_index, sumFrom_total.
  rewrite (total_perm _ _ (Permutation_map _ Hperm)).
  replace (sumZ _)
    with (weekSum week (Applicants.groupApplications jobs applications)).
  - rewrite weekSum_wrap. apply wrap_id.
    unfold applicantsIn, GoInt.inRange.
    pose proof (List.filter_length_le
      (fun app => bool_decide (weekOf app = week)) applications).
    int_consts. lia.
  - unfold weekSum. f_equal.
    change (List.map ?f ?l) with (f <$> l). rewrite <- list_fmap_compose.
    apply list_fmap_ext. now intros i [k m] _.
Qed.

(** *** A sample run of the grouping *)

Lemma grouping_counts_applications_witness :
  countOf
    (Applicants.groupApplications
       (fold_left (Applicants.recordJobs sampleDepartments) samplePages ∅)
       sampleApplications) "job-1" "2024-03-11"
  = applicantsOf "job-1" "2024-03-11" sampleApplications.
Proof.
  refine (proj1 (grouping_counts_applications
                   (fold_left (Applicants.recordJobs sampleDepartments)
                      samplePages ∅) sampleApplications
                   "job-1" "2024-03-11" _)).
  vm_compute. reflexivity.
Defined.

Lemma grouping_labels_from_first_application_witness :
  exists first,
    firstFor "job-2" sampleApplications = Some first
    /\ jobOf first = "job-2"%string
    /\ Department
         (mkMetrics "No Department" "Unknown Job"
            (<["2024-03-04"%string := 1]> ∅))
       = match fold_left (Applicants.recordJobs sampleDepartments)
                 samplePages ∅ !! "job-2"%string with
         | Some info => Applicants.JobInfo.Department info
         | None => "No Department"%string
         end
    /\ Title
         (mkMetrics "No Department" "Unknown Job"
            (<["2024-03-04"%string := 1]> ∅))
       = match fold_left (Applicants.recordJobs sampleDepartments)
                 samplePages ∅ !! "job-2"%string with
         | Some info => Applicants.JobInfo.Title info
         | None =>
             if String.eqb
                  (Applicants.JobRef.Title (Applicants.App.Job first)) ""
             then "Unknown Job"%string
             else Applicants.JobRef.Title (Applicants.App.Job first)
         end.
Proof.
  refine (grouping_labels_from_first_application
            (fold_left (Applicants.recordJobs sampleDepartments)
               samplePages ∅) sampleApplications "job-2"
            (mkMetrics "No Department" "Unknown Job"
               (<["2024-03-04"%string := 1]> ∅)) _).
  vm_compute. reflexivity.
Defined.

Lemma reported_department_never_empty_witness :
  Department
    (mkMetrics "Engineering" "Engineer" (<["2024-03-11"%string := 2]> ∅))
  <> ""%string.
Proof.
  refine (proj1 (reported_department_never_empty sampleDepartments
                   samplePages sampleApplications "job-1"
                   (mkMetrics "Engineering" "Engineer"
                      (<["2024-03-11"%string := 2]> ∅)) _)).
  vm_compute. reflexivity.
Defined.

Lemma histogram_totals_count_applications_witness :
  GoMap.index
    (aggregate
       (map_to_list
          (Applicants.groupApplications
             (fold_left (Applicants.recordJobs sampleDepartments)
                samplePages ∅) sampleApplications)).*2) "2024-03-11"
  = applicantsIn "2024-03-11" sampleApplications.
Proof.
  refine (histogram_totals_count_applications
            (fold_left (Applicants.recordJobs sampleDepartments)
               samplePages ∅) sampleApplications
            (map_to_list
               (Applicants.groupApplications
                  (fold_left (Applicants.recordJobs sampleDepartments)
                     samplePages ∅) sampleApplications)).*2
            "2024-03-11" _ _).
  - reflexivity.
  - vm_compute. reflexivity.
Defined.

(** ** More on the week calendar *)

Lemma lastCompletedDay_monday now : isMonday (lastCompletedDay now).
Proof.
  pose proof (weekStartDay_monday now) as H.
  unfold lastCompletedDay, isMonday in *. Z.div_mod_to_equations; lia.
Qed.

Lemma weekStartDay_of_week t monday :
  isMonday monday ->
  (weekStartDay t = monday <-> monday <= utcDay t < monday + 7).
Proof.
  unfold weekStartDay, isMonday. intros Hm.
  split; intros H; Z.div_mod_to_equations; lia.
Qed.

(** X5. When the last completed week lies in the years that the date
    layout prints with four digits, the week key of an instant is the
    entry [j] of [getLast4Weeks] exactly when the instant falls, in UTC,
    in the seven days from the Monday [3 - j] weeks before the last
    completed one; it is among the four exactly when the instant falls in
    the 28 days that end with the Sunday of the last completed week. *)
Theorem last_four_weeks_window (now t : Time) (j : nat) :
  inLayoutRange (lastCompletedDay now) -> (j < 4)%nat ->
  let monday := lastCompletedDay now - 7 * (3 - Z.of_nat j) in
  (getLast4Weeks now !! j = Some (getWeekStart t)
   <-> monday <= utcDay t < monday + 7)
  /\ (getWeekStart t ∈ getLast4Weeks now
      <-> lastCompletedDay now - 21 <= utcDay t < lastCompletedDay now + 7).
Proof.
  intros Hr Hj. cbv zeta.
  pose proof (lastCompletedDay_monday now) as Hmon.
  rewrite getLast4Weeks_keys, anchorDay_in_range, getWeekStart_key by assumption.
  assert (Hkey : forall d, isMonday d ->
    (Some (dateKey d) = Some (dateKey (weekStartDay t))
     <-> d <= utcDay t < d + 7)).
  { intros d Hd. rewrite <- (weekStartDay_of_week t d Hd). split.
    - intros H. injection H as H. symmetry. now apply dateKey_inj.
    - now intros ->. }
  split.
  - destruct j as [|[|[|[|j]]]]; try lia; cbn [lookup list_lookup];
      rewrite Hkey; unfold isMonday in *;
      try (split; intros; Z.div_mod_to_equations; lia);
      Z.div_mod_to_equations; lia.
  - rewrite !elem_of_cons, elem_of_nil.
    assert (Hin : forall d, isMonday d ->
      (dateKey (weekStartDay t) = dateKey d <-> d <= utcDay t < d + 7)).
    { intros d Hd. rewrite <- (weekStartDay_of_week t d Hd). split.
      - apply dateKey_inj.
      - now intros ->. }
    rewrite !Hin by (unfold isMonday in *; Z.div_mod_to_equations; lia).
    lia.
Qed.

Lemma last_four_weeks_window_witness :
  getLast4Weeks (Date 2024 3 20 0 0) !! 3%nat
  = Some (getWeekStart (Date 2024 3 14 0 0)).
Proof.
  apply (proj1 (last_four_weeks_window (Date 2024 3 20 0 0)
                  (Date 2024 3 14 0 0) 3
                  ltac:(unfold inLayoutRange; vm_compute;
                        split; [discriminate|reflexivity])
                  ltac:(lia))).
  vm_compute. split; [discriminate|reflexivity].
Defined.

(** X6. For every string, [weekStartToEnd] and [formatWeekEnd] either
    get a date key and give the day six days later (as a key, and as
    month and day), or get something that is no date key of the years 0
    to 9999 and give the sixth day after the zero time: "0001-01-07" and
    "Jan 07". *)
Theorem week_end_of_any_string (s : string) :
  (exists day,
      s = dateKey day
      /\ weekStartToEnd s = dateKey (day + 6)
      /\ formatWeekEnd s = Format (midnight (day + 6)) L_Jan_02)
  \/ ((forall day, inLayoutRange day -> s <> dateKey day)
      /\ weekStartToEnd s = "0001-01-07"%string
      /\ formatWeekEnd s = "Jan 07"%string).
Proof.
  unfold weekStartToEnd, formatWeekEnd, ParseIgnoringError.
  destruct (Parse_2006_01_02 s) as [t|] eqn:E.
  - left. apply Parse_sound in E as [Ht Hs]. exists (utcDay t).
    split; [now symmetry|].
    assert (Hday : forall layout,
      Format (AddDate t 0 0 6) layout
      = Format (midnight (utcDay t + 6)) layout).
    { intros layout. rewrite Ht at 1. rewrite AddDate_days, Format_day.
      f_equal. f_equal. unfold dayNumber, wallSec, midnight, secondsPerDay.
      cbn [unixSec zoneOffset]. rewrite Z.add_0_r.
      replace (utcDay t * 86400 + 6 * 86400) with ((utcDay t + 6) * 86400)
        by lia.
      apply Z.div_mul. lia. }
    split; [apply Hday|apply Hday].
  - right. split; [|split; vm_compute; reflexivity].
    intros day Hr ->. rewrite Parse_dateKey in E by assumption. discriminate.
Qed.

(** ** More on the weekly table *)

(** X7. [printRowWithSlice] on the counts that a map gives for the
    configured weeks prints and returns what [printRow] does on that map:
    with the current-week column when it is given the (non-negative)
    current count, without it when it is given a negative one. *)
Theorem printRowWithSlice_as_printRow
    (t : weeklyTable) (label currentWeek : string)
    (values : gmap string Z) (out : list string) :
  let e := mkEnv t values out in
  let counts := List.map (GoMap.index values) (weeks t) in
  let current := GoMap.index values currentWeek in
  (currentWeek <> ""%string -> 0 <= current ->
   printRowWithSlice label counts current e = printRow label currentWeek e)
  /\ (forall skipped, skipped < 0 ->
        printRowWithSlice label counts skipped e = printRow label "" e).
Proof.
  cbv zeta. split.
  - intros Hcw Hcur. rewrite printRowWithSlice_run, printRow_run.
    cbn [self weekValues]. unfold sliceText, rowText.
    apply String.eqb_neq in Hcw. rewrite Hcw.
    destruct (Z.leb_spec 0 (GoMap.index values currentWeek)); [|lia].
    now rewrite List.map_map.
  - intros skipped Hneg. rewrite printRowWithSlice_run, printRow_run.
    cbn [self weekValues]. unfold sliceText, rowText.
    destruct (Z.leb_spec 0 skipped); [lia|].
    now rewrite List.map_map.
Qed.

Lemma printRowWithSlice_as_printRow_witness :
  printRowWithSlice "Active Users"
    (List.map (GoMap.index (<["2024-03-04"%string := 5]>
                              (<["2024-03-18"%string := 7]> ∅)))
       ["2024-03-04"; "2024-03-11"]%string)
    (GoMap.index (<["2024-03-04"%string := 5]> (<["2024-03-18"%string := 7]> ∅))
       "2024-03-18")
    (mkEnv (newWeeklyTable 20 10 ["2024-03-04"; "2024-03-11"]%string)
       (<["2024-03-04"%string := 5]> (<["2024-03-18"%string := 7]> ∅)) [])
  = printRow "Active Users" "2024-03-18"
      (mkEnv (newWeeklyTable 20 10 ["2024-03-04"; "2024-03-11"]%string)
         (<["2024-03-04"%string := 5]> (<["2024-03-18"%string := 7]> ∅)) []).
Proof.
  refine (proj1 (printRowWithSlice_as_printRow
                   (newWeeklyTable 20 10 ["2024-03-04"; "2024-03-11"]%string)
                   "Active Users" "2024-03-18"
                   (<["2024-03-04"%string := 5]> (<["2024-03-18"%string := 7]> ∅))
                   []) _ _).
  - discriminate.
  - vm_compute. discriminate.
Defined.

(** X8. The methods of the earlier table (table.go, without a current
    week) behave as the methods of the current table called with an empty
    current-week key, and with a current count of -1 for
    [printRowWithSlice]. *)
Theorem earlier_table_is_table_without_current_week
    (e : Env) (labelTitle label : string) (counts : list Z) :
  Legacy.printHeader labelTitle e = printHeader labelTitle "" e
  /\ Legacy.printSeparator e = printSeparator "" e
  /\ Legacy.printRow label e = printRow label "" e
  /\ Legacy.printRowWithSlice label counts e
     = printRowWithSlice label counts (-1) e
  /\ Legacy.printTotalsRow label e = printTotalsRow label "" e.
Proof.
  rewrite Legacy_printHeader_run, Legacy_printSeparator_run,
    Legacy_printRow_run, Legacy_printRowWithSlice_run,
    Legacy_printTotalsRow_run, printHeader_run, printSeparator_run,
    printRow_run, printRowWithSlice_run, printTotalsRow_run.
  repeat split.
Qed.

(** X9. [printTotalsRow] writes what [printRow] writes for the same
    label, map and current week, does not panic, and its last write is
    the total of the configured weeks only. *)
Theorem printTotalsRow_prints_as_printRow
    (t : weeklyTable) (label currentWeek : string)
    (values : gmap string Z) (out : list string) :
  let e := mkEnv t values out in
  let grandTotal :=
    GoInt.sumFrom 0 (List.map (GoMap.index values) (weeks t)) in
  snd (printTotalsRow label currentWeek e) = snd (printRow label currentWeek e)
  /\ fst (printTotalsRow label currentWeek e) = Val tt
  /\ last (stdout (snd (printTotalsRow label currentWeek e)))
     = Some (rightD (weekColWidth t) grandTotal +:+ nl).
Proof.
  cbv zeta. rewrite printTotalsRow_run, printRow_run.
  cbn [fst snd self weekValues stdout emit].
  repeat split. unfold rowText.
  rewrite app_comm_cons, !app_assoc. apply last_snoc.
Qed.

(** *** Job titles in the grouped table *)

Lemma length_substring n s :
  (n <= String.length s)%nat -> String.length (substring 0 n s) = n.
Proof.
  revert s. induction n as [|n IH]; intros s H.
  - destruct s; reflexivity.
  - destruct s as [|c s].
    + cbn [String.length] in H. lia.
    + cbn [String.length] in H. cbn [substring String.length].
      f_equal. apply IH. lia.
Qed.

(** X10. In a table whose label column is at least 5 wide, the job title
    shown by [printTableGrouped] is never longer than the label column
    less two bytes: a title that fits is shown whole after two spaces,
    and a longer one is cut and ends with three dots, at exactly that
    length. *)
Theorem displayTitle_fits_label_column
    (table : weeklyTable) (job : ashbyJobMetrics) :
  5 <= labelColWidth table ->
  let shown := displayTitle table job in
  let width := labelColWidth table in
  let len := Z.of_nat (String.length (Title job)) in
  Z.of_nat (String.length shown) <= width - 2
  /\ (len + 2 <= width - 2 -> shown = "  " +:+ Title job)
  /\ (width - 2 < len + 2 ->
      shown = substring 0 (Z.to_nat (width - 5)) ("  " +:+ Title job) +:+ "..."
      /\ Z.of_nat (String.length shown) = width - 2).
Proof.
  intros Hw. cbv zeta. unfold displayTitle.
  assert (Hlen : Z.of_nat (String.length ("  " +:+ Title job))
                 = Z.of_nat (String.length (Title job)) + 2).
  { rewrite length_append. change (String.length "  ") with 2%nat. lia. }
  destruct (Z.ltb_spec (labelColWidth table - 2)
              (Z.of_nat (String.length ("  " +:+ Title job)))) as [Hlong|Hshort].
  - assert (Hcut : Z.of_nat (String.length
                     (substring 0 (Z.to_nat (labelColWidth table - 5))
                        ("  " +:+ Title job) +:+ "..."))
                   = labelColWidth table - 2).
    { rewrite length_append, length_substring by lia.
      change (String.length "...") with 3%nat. lia. }
    rewrite Hcut. split; [lia|]. split; [lia|]. intros _. split; reflexivity.
  - split; [lia|]. split; [reflexivity|lia].
Qed.

Lemma displayTitle_fits_label_column_witness :
  Z.of_nat (String.length
     (displayTitle (newWeeklyTable 35 10 [])
        (mkMetrics "Engineering"
           "Senior Staff Site Reliability Engineer (Remote)" ∅)))
  <= 35 - 2.
Proof.
  apply (displayTitle_fits_label_column (newWeeklyTable 35 10 [])
           (mkMetrics "Engineering"
              "Senior Staff Site Reliability Engineer (Remote)" ∅)).
  vm_compute. discriminate.
Defined.

(** ** The width of the table lines *)

Lemma ValidString_itoa n : ValidString (itoa n) = true.
Proof. apply asciiOnly_valid, asciiOnly_itoa. Qed.

Lemma runeCount_dashes n : runeCount (Digits.repeat "-" n) = Z.of_nat n.
Proof.
  rewrite asciiOnly_runeCount by now apply asciiOnly_repeat.
  now rewrite length_repeat_byte.
Qed.

Lemma runeCount_line s : ValidString s = true -> runeCount (s +:+ nl) = runeCount s + 1.
Proof. intros H. now rewrite runeCount_append. Qed.

Lemma asciiOnly_digit k : 0 <= k <= 9 -> asciiOnly (String (Digits.digit k) "") = true.
Proof.
  intros H.
  assert (E : k = 0 \/ k = 1 \/ k = 2 \/ k = 3 \/ k = 4 \/ k = 5 \/ k = 6
              \/ k = 7 \/ k = 8 \/ k = 9) by lia.
  repeat (destruct E as [->|E]; [reflexivity|]). now subst.
Qed.

Lemma asciiOnly_shortMonthName m :
  1 <= m <= 12 ->
  asciiOnly (shortMonthName m) = true /\ String.length (shortMonthName m) = 3%nat.
Proof.
  intros H.
  assert (E : m = 1 \/ m = 2 \/ m = 3 \/ m = 4 \/ m = 5 \/ m = 6 \/ m = 7
              \/ m = 8 \/ m = 9 \/ m = 10 \/ m = 11 \/ m = 12) by lia.
  repeat (destruct E as [->|E]; [now split|]). now subst.
Qed.

(** A week label, "Jan 02", is six ASCII bytes, whatever the time. *)
Lemma asciiOnly_Format_Jan_02 t :
  asciiOnly (Format t L_Jan_02) = true
  /\ String.length (Format t L_Jan_02) = 6%nat.
Proof.
  unfold Format, dateOf. destruct (civil (dayNumber t)) as [[y m] d] eqn:E.
  destruct (civil_day_range _ _ _ _ E) as [Hm Hd].
  destruct (asciiOnly_shortMonthName m Hm) as [Ha Hlen].
  rewrite appendInt_2 by lia.
  pose proof (asciiOnly_digit (d / 10) ltac:(Z.div_mod_to_equations; lia)) as H1.
  pose proof (asciiOnly_digit (d mod 10) ltac:(Z.div_mod_to_equations; lia)) as H2.
  cbn [asciiOnly] in H1, H2. rewrite andb_true_r in H1, H2.
  split.
  - rewrite !asciiOnly_append, Ha. cbn [asciiOnly]. now rewrite H1, H2.
  - rewrite !length_append, Hlen. reflexivity.
Qed.

Lemma ValidString_formatWeekEnd week : ValidString (formatWeekEnd week) = true.
Proof. apply asciiOnly_valid, asciiOnly_Format_Jan_02. Qed.

Lemma runeCount_formatWeekEnd week : runeCount (formatWeekEnd week) = 6.
Proof.
  unfold formatWeekEnd. cbv zeta.
  destruct (asciiOnly_Format_Jan_02
              (AddDate (ParseIgnoringError week) 0 0 6)) as [Ha Hlen].
  now rewrite asciiOnly_runeCount, Hlen.
Qed.

Lemma runesOf_app a b : runesOf (a ++ b) = runesOf a + runesOf b.
Proof.
  unfold runesOf. induction a as [|x a IH]; [reflexivity|].
  cbn [List.map List.app]. change (sumZ (?y :: ?l)) with (y + sumZ l).
  rewrite IH. lia.
Qed.

Lemma runesOf_cons x a : runesOf (x :: a) = runeCount x + runesOf a.
Proof. reflexivity. Qed.

Lemma runesOf_columns {A} (f : A -> string) (w : Z) (l : list A) :
  Forall (fun x => runeCount (f x) = w) l ->
  runesOf (List.map f l) = w * Z.of_nat (length l).
Proof.
  induction 1 as [|x l Hx _ IH]; [cbn; lia|].
  cbn [List.map length]. rewrite runesOf_cons, Hx, IH. lia.
Qed.

Lemma ValidString_cell w count :
  0 <= w <= 1000000 -> ValidString (cell w count) = true.
Proof.
  intros Hw. unfold cell, rightS, rightD.
  destruct (count =? 0); apply ValidString_star;
    (exact Hw || reflexivity || apply ValidString_itoa).
Qed.

Lemma runeCount_cell w count :
  1 <= w <= 1000000 -> runeCount (itoa count) <= w ->
  runeCount (cell w count) = w.
Proof.
  intros Hw Hfit. unfold cell, rightS, rightD.
  destruct (count =? 0);
    rewrite runeCount_star by (lia || reflexivity || apply ValidString_itoa);
    [change (runeCount "-") with 1; lia|lia].
Qed.

Lemma ruleWidth_exact t cw :
  0 <= labelColWidth t <= 1000000 -> 0 <= weekColWidth t <= 1000000 ->
  Z.of_nat (length (weeks t)) <= 1000000 ->
  ruleWidth t (columnsOf t cw)
  = labelColWidth t
    + weekColWidth t
      * (Z.of_nat (length (weeks t)) + if String.eqb cw "" then 1 else 2).
Proof.
  intros Hl Hw Hn. unfold ruleWidth, columnsOf, GoInt.add.
  assert (Hid : forall z, 0 <= z <= 2000000000000 -> GoInt.wrap z = z).
  { intros z Hz. apply wrap_id. unfold GoInt.inRange. int_consts. lia. }
  rewrite (Hid (Z.of_nat (length (weeks t)) + 1)) by lia.
  destruct (String.eqb cw "").
  - rewrite (Hid (weekColWidth t * _)) by nia. apply Hid. nia.
  - rewrite (Hid (Z.of_nat (length (weeks t)) + 1 + 1)) by lia.
    rewrite (Hid (weekColWidth t * _)) by nia.
    rewrite Hid by nia. lia.
Qed.

Lemma Repeat_dashes n :
  0 <= n <= 2000000000000 ->
  Repeat "-" n = Some (Digits.repeat "-" (Z.to_nat n)).
Proof.
  intros H. unfold Repeat.
  destruct (Z.ltb_spec n 0); [lia|].
  change (Z.of_nat (String.length "-")) with 1.
  destruct (Z.ltb_spec (2 ^ 63 - 1) (1 * n)); [int_consts; lia|reflexivity].
Qed.

(** X11. When the labels are well-formed UTF-8 and they and the numbers
    fit their columns (week columns at least 7 wide), the header, the
    rule and a row of the weekly table all have the same width in runes:
    the label column plus one week column per configured week, per total
    and per current week, followed by the line feed. *)
Theorem table_lines_as_wide_as_rule
    (t : weeklyTable) (labelTitle label currentWeek : string)
    (values : gmap string Z) (out : list string) :
  let e := mkEnv t values out in
  let w := weekColWidth t in
  let columns :=
    Z.of_nat (length (weeks t))
    + (if String.eqb currentWeek "" then 1 else 2) in
  let width := labelColWidth t + w * columns in
  let total := GoInt.sumFrom 0 (List.map (GoMap.index values) (weeks t)) in
  0 <= labelColWidth t <= 1000000 -> 7 <= w <= 1000000 ->
  Z.of_nat (length (weeks t)) <= 1000000 ->
  ValidString labelTitle = true -> ValidString label = true ->
  runeCount labelTitle <= labelColWidth t ->
  runeCount label <= labelColWidth t ->
  Forall (fun week => runeCount (itoa (GoMap.index values week)) <= w)
    (currentWeek :: weeks t) ->
  runeCount (itoa total) <= w ->
  exists header rule row,
    printHeader labelTitle currentWeek e
    = (Val tt, mkEnv t values (out ++ header))
    /\ printSeparator currentWeek e
       = (Val tt, mkEnv t values (out ++ [rule]))
    /\ printRow label currentWeek e
       = (Val total, mkEnv t values (out ++ row))
    /\ rule = Digits.repeat "-" (Z.to_nat width) +:+ nl
    /\ runesOf header = width + 1
    /\ runeCount rule = width + 1
    /\ runesOf row = width + 1.
Proof.
  cbv zeta. intros Hl Hw Hn Vtitle Vlabel Htitle Hlabel Hfit Htotal.
  apply Forall_cons in Hfit as [Hcur Hfit].
  exists (headerText t labelTitle currentWeek),
    (Digits.repeat "-"
       (Z.to_nat (labelColWidth t
                  + weekColWidth t
                    * (Z.of_nat (length (weeks t))
                       + if String.eqb currentWeek "" then 1 else 2)))
     +:+ nl),
    (rowText t label (GoMap.index values) currentWeek).
  rewrite printHeader_run, printSeparator_run, printRow_run.
  cbn [self weekValues]. unfold emit. cbn [self weekValues stdout].
  rewrite ruleWidth_exact by lia.
  rewrite Repeat_dashes by (destruct (String.eqb currentWeek ""); nia).
  repeat (split; [reflexivity|]).
  assert (Hword : forall s, asciiOnly s = true ->
            runeCount s <= weekColWidth t ->
            runeCount (rightS (weekColWidth t) s +:+ nl) = weekColWidth t + 1
            /\ runeCount (rightS (weekColWidth t) s) = weekColWidth t).
  { intros s Hs Hfits. unfold rightS.
    rewrite runeCount_line
      by (apply ValidString_star; [lia|now apply asciiOnly_valid]).
    rewrite runeCount_star by (lia || now apply asciiOnly_valid). lia. }
  split; [|split].
  - unfold headerText. rewrite runesOf_cons, !runesOf_app.
    rewrite (runesOf_columns _ (weekColWidth t)).
    2:{ apply Forall_forall. intros week _. unfold rightS.
        rewrite runeCount_star, runeCount_formatWeekEnd
          by (lia || apply ValidString_formatWeekEnd). lia. }
    unfold leftS. rewrite runeCount_star by (lia || assumption).
    destruct (Hword "Total"%string eq_refl) as [Htot _];
      [change (runeCount "Total") with 5; lia|].
    destruct (Hword "Current"%string eq_refl) as [_ Hcurrent];
      [change (runeCount "Current") with 7; lia|].
    destruct (String.eqb currentWeek ""); unfold runesOf;
      cbn [List.map]; unfold sumZ; cbn [fold_right];
      rewrite Htot, ?Hcurrent; lia.
  - rewrite runeCount_line, runeCount_dashes
      by now apply asciiOnly_valid, asciiOnly_repeat.
    destruct (String.eqb currentWeek ""); nia.
  - unfold rowText. rewrite runesOf_cons, !runesOf_app.
    rewrite (runesOf_columns _ (weekColWidth t)).
    2:{ eapply Forall_impl; [exact Hfit|]. cbv beta. intros week Hweek.
        apply runeCount_cell; lia. }
    unfold leftS. rewrite runeCount_star by (lia || assumption).
    assert (Hsum : runeCount
              (rightD (weekColWidth t)
                 (GoInt.sumFrom 0 (List.map (GoMap.index values) (weeks t)))
               +:+ nl) = weekColWidth t + 1).
    { unfold rightD.
      rewrite runeCount_line
        by (apply ValidString_star; [lia|apply ValidString_itoa]).
      rewrite runeCount_star by (lia || apply ValidString_itoa). lia. }
    destruct (String.eqb currentWeek ""); unfold runesOf;
      cbn [List.map]; unfold sumZ; cbn [fold_right];
      rewrite Hsum, ?runeCount_cell by lia; lia.
Qed.

Lemma table_lines_as_wide_as_rule_witness :
  exists header rule row,
    printHeader "Metric" "2024-03-18" (mkEnv usersTable usersCounts [])
    = (Val tt, mkEnv usersTable usersCounts ([] ++ header))
    /\ printSeparator "2024-03-18" (mkEnv usersTable usersCounts [])
       = (Val tt, mkEnv usersTable usersCounts ([] ++ [rule]))
    /\ printRow "Active Users" "2024-03-18" (mkEnv usersTable usersCounts [])
       = (Val (GoInt.sumFrom 0
                 (List.map (GoMap.index usersCounts) (weeks usersTable))),
          mkEnv usersTable usersCounts ([] ++ row))
    /\ rule
       = Digits.repeat "-"
           (Z.to_nat
              (labelColWidth usersTable
               + weekColWidth usersTable
                 * (Z.of_nat (length (weeks usersTable))
                    + (if String.eqb "2024-03-18" "" then 1 else 2))))
         +:+ nl
    /\ runesOf header
       = labelColWidth usersTable
         + weekColWidth usersTable
           * (Z.of_nat (length (weeks usersTable))
              + (if String.eqb "2024-03-18" "" then 1 else 2)) + 1
    /\ runeCount rule
       = labelColWidth usersTable
         + weekColWidth usersTable
           * (Z.of_nat (length (weeks usersTable))
              + (if String.eqb "2024-03-18" "" then 1 else 2)) + 1
    /\ runesOf row
       = labelColWidth usersTable
         + weekColWidth usersTable
           * (Z.of_nat (length (weeks usersTable))
              + (if String.eqb "2024-03-18" "" then 1 else 2)) + 1.
Proof.
  refine (table_lines_as_wide_as_rule usersTable "Metric" "Active Users"
            "2024-03-18" usersCounts [] _ _ _ _ _ _ _ _ _).
  - vm_compute. split; discriminate.
  - vm_compute. split; discriminate.
  - vm_compute. discriminate.
  - reflexivity.
  - reflexivity.
  - vm_compute. discriminate.
  - vm_compute. discriminate.
  - repeat constructor; vm_compute; discriminate.
  - vm_compute. discriminate.
Defined.

(** ** The incidents command *)

Lemma mret_run_ {S A} (a : A) (s : S) : (mret a : M S A) s = (Val a, s).
Proof. reflexivity. Qed.

Lemma Println_run_ text out : Println text out = (Val tt, out ++ [text +:+ nl]).
Proof. reflexivity. Qed.

Lemma initCounts_from weeks : forall done,
  fold_left (fun counts '(i, week) =>
      alter (fun c => Incidents.mkCounts week (Incidents.IncidentIssues c)
                        (Incidents.IncidentReports c)) i counts)
    (imap (fun i week => ((length done + i)%nat, week)) weeks)
    (countsBy (fun _ => 0) (fun _ => 0) done
     ++ replicate (length weeks) (Incidents.mkCounts "" 0 0))
  = countsBy (fun _ => 0) (fun _ => 0) (done ++ weeks).
Proof.
  induction weeks as [|week weeks IH]; intros done.
  - cbn. now rewrite !app_nil_r.
  - rewrite imap_cons. cbn [fold_left replicate length].
    rewrite Nat.add_0_r.
    set (cs := countsBy (fun _ => 0) (fun _ => 0) done).
    replace (length done) with (length cs + 0)%nat
      by (subst cs; unfold countsBy; rewrite length_map; lia).
    rewrite alter_app_r. cbn [alter list_alter]. subst cs.
    rewrite (cons_middle week done weeks), app_assoc, <- (IH (done ++ [week])).
    f_equal.
    + apply imap_ext. intros i x _. unfold compose.
      unfold countsBy. rewrite length_map, length_app. cbn [length].
      f_equal. lia.
    + unfold countsBy. rewrite map_app, <- app_assoc. reflexivity.
Qed.

Lemma initCounts_spec weeks :
  Incidents.initCounts weeks = countsBy (fun _ => 0) (fun _ => 0) weeks.
Proof. exact (initCounts_from weeks []). Qed.

Lemma findWeek_spec weekStart weeks : forall i,
  match Incidents.findWeek weekStart weeks i with
  | Some j =>
      (i <= j)%nat /\ weeks !! (j - i)%nat = Some weekStart
  | None => weekStart ∉ weeks
  end.
Proof.
  induction weeks as [|week weeks IH]; intros i; cbn [Incidents.findWeek].
  - apply not_elem_of_nil.
  - destruct (String.eqb_spec weekStart week) as [->|Hne].
    + split; [lia|]. now rewrite Nat.sub_diag.
    + specialize (IH (S i)).
      destruct (Incidents.findWeek weekStart weeks (S i)) as [j|].
      * destruct IH as [Hle Hj]. split; [lia|].
        replace (j - i)%nat with (S (j - S i)) by lia. exact Hj.
      * rewrite elem_of_cons. tauto.
Qed.

Lemma countsBy_update issues reports issues' reports' weeks i week :
  NoDup weeks -> weeks !! i = Some week ->
  (forall w, w <> week -> issues' w = issues w /\ reports' w = reports w) ->
  <[ i := Incidents.mkCounts week (issues' week) (reports' week) ]>
    (countsBy issues reports weeks)
  = countsBy issues' reports' weeks.
Proof.
  intros Hnd Hi Hsame. apply list_eq. intros j.
  unfold countsBy.
  destruct (decide (i = j)) as [<-|Hne].
  - rewrite list_lookup_insert_eq
      by (rewrite length_map; now apply lookup_lt_Some in Hi).
    change (List.map ?f ?l) with (f <$> l).
    now rewrite list_lookup_fmap, Hi.
  - rewrite list_lookup_insert_ne by assumption.
    change (List.map ?f ?l) with (f <$> l).
    rewrite !list_lookup_fmap.
    destruct (weeks !! j) as [w|] eqn:Ej; [|reflexivity].
    cbn. assert (Hw : w <> week).
    { intros ->. apply Hne. eapply NoDup_lookup; eassumption. }
    destruct (Hsame w Hw) as [-> ->]. reflexivity.
Qed.

Lemma countsBy_ext issues reports issues' reports' weeks :
  (forall w, w ∈ weeks -> issues' w = issues w /\ reports' w = reports w) ->
  countsBy issues reports weeks = countsBy issues' reports' weeks.
Proof.
  intros H. unfold countsBy. apply map_ext_in. intros w Hin.
  apply list_elem_of_In in Hin. destruct (H w Hin) as [-> ->]. reflexivity.
Qed.

Lemma tallied_count issues week :
  tallied (fun _ => 0) issues week = GoInt.wrap (issuesIn week issues).
Proof.
  unfold tallied, issuesIn.
  induction issues as [|issue issues IH] using rev_ind; [reflexivity|].
  rewrite fold_left_app, List.filter_app, length_app. cbn [fold_left List.filter].
  unfold oneMore at 1. rewrite IH.
  destruct (String.eqb_spec week
              (getWeekStart (Incidents.Issue.CreatedAt issue))) as [->|Hne].
  - rewrite bool_decide_eq_true_2 by reflexivity. cbn [length].
    unfold GoInt.add. rewrite wrap_add_l. f_equal. lia.
  - rewrite bool_decide_eq_false_2 by congruence. cbn [length]. f_equal. lia.
Qed.

Lemma issuesIn_le week issues :
  0 <= issuesIn week issues <= Z.of_nat (length issues).
Proof.
  unfold issuesIn.
  pose proof (List.filter_length_le (fun issue =>
    bool_decide (getWeekStart (Incidents.Issue.CreatedAt issue) = week))
    issues). lia.
Qed.

Lemma tally_issues_run {S} weeks issues : NoDup weeks ->
  forall f g (s : S),
  Incidents.tally Incidents.bumpIssues weeks issues (countsBy f g weeks) s
  = (Val (countsBy (tallied f issues) g weeks), s).
Proof.
  intros Hnd. unfold Incidents.tally, tallied.
  induction issues as [|issue issues IH]; intros f g s; [reflexivity|].
  cbn [foldM fold_left]. rewrite bind_run. cbv zeta.
  set (ws := getWeekStart (Incidents.Issue.CreatedAt issue)).
  pose proof (findWeek_spec ws weeks 0) as Hfind.
  destruct (Incidents.findWeek ws weeks 0) as [j|].
  - destruct Hfind as [_ Hj]. rewrite Nat.sub_0_r in Hj.
    assert (Hc : countsBy f g weeks !! j
                 = Some (Incidents.mkCounts ws (f ws) (g ws))).
    { unfold countsBy. change (List.map ?h ?l) with (h <$> l).
      now rewrite list_lookup_fmap, Hj. }
    rewrite bind_run, Hc. cbn [orPanic]. rewrite !mret_run_.
    unfold Incidents.bumpIssues.
    cbn [Incidents.WeekStart Incidents.IncidentIssues Incidents.IncidentReports].
    match goal with
    | |- foldM _ ?updated _ _ = _ =>
        assert (E : updated = countsBy (oneMore ws f) g weeks)
    end.
    { rewrite <- (countsBy_update f g (oneMore ws f) g weeks j ws Hnd Hj).
      - unfold oneMore. now rewrite String.eqb_refl.
      - intros w Hw. unfold oneMore.
        apply String.eqb_neq in Hw. now rewrite Hw. }
    rewrite E. apply IH.
  - rewrite mret_run_.
    rewrite (countsBy_ext f g (oneMore ws f) g weeks); [apply IH|].
    intros w Hin. unfold oneMore.
    destruct (String.eqb_spec w ws) as [->|]; [contradiction|tauto].
Qed.

Lemma tally_reports_run {S} weeks issues : NoDup weeks ->
  forall f g (s : S),
  Incidents.tally Incidents.bumpReports weeks issues (countsBy f g weeks) s
  = (Val (countsBy f (tallied g issues) weeks), s).
Proof.
  intros Hnd. unfold Incidents.tally, tallied.
  induction issues as [|issue issues IH]; intros f g s; [reflexivity|].
  cbn [foldM fold_left]. rewrite bind_run. cbv zeta.
  set (ws := getWeekStart (Incidents.Issue.CreatedAt issue)).
  pose proof (findWeek_spec ws weeks 0) as Hfind.
  destruct (Incidents.findWeek ws weeks 0) as [j|].
  - destruct Hfind as [_ Hj]. rewrite Nat.sub_0_r in Hj.
    assert (Hc : countsBy f g weeks !! j
                 = Some (Incidents.mkCounts ws (f ws) (g ws))).
    { unfold countsBy. change (List.map ?h ?l) with (h <$> l).
      now rewrite list_lookup_fmap, Hj. }
    rewrite bind_run, Hc. cbn [orPanic]. rewrite !mret_run_.
    unfold Incidents.bumpReports.
    cbn [Incidents.WeekStart Incidents.IncidentIssues Incidents.IncidentReports].
    match goal with
    | |- foldM _ ?updated _ _ = _ =>
        assert (E : updated = countsBy f (oneMore ws g) weeks)
    end.
    { rewrite <- (countsBy_update f g f (oneMore ws g) weeks j ws Hnd Hj).
      - unfold oneMore. now rewrite String.eqb_refl.
      - intros w Hw. unfold oneMore.
        apply String.eqb_neq in Hw. now rewrite Hw. }
    rewrite E. apply IH.
  - rewrite mret_run_.
    rewrite (countsBy_ext f g f (oneMore ws g) weeks); [apply IH|].
    intros w Hin. unfold oneMore.
    destruct (String.eqb_spec w ws) as [->|]; [contradiction|tauto].
Qed.

Lemma legacy_separator weeks values out :
  Z.of_nat (length weeks) <= 1000000 ->
  Legacy.printSeparator (mkEnv (newWeeklyTable 20 10 weeks) values out)
  = (Val tt, emit (mkEnv (newWeeklyTable 20 10 weeks) values out)
               [rule20 (length weeks + 1)]).
Proof.
  intros Hn. rewrite Legacy_printSeparator_run. cbn [self].
  rewrite ruleWidth_exact
    by (cbn [labelColWidth weekColWidth Table.weeks newWeeklyTable]; lia).
  cbn [labelColWidth weekColWidth Table.weeks newWeeklyTable String.eqb].
  rewrite Repeat_dashes by lia. unfold rule20.
  replace (Z.to_nat (20 + 10 * (Z.of_nat (length weeks) + 1)))
    with (20 + 10 * (length weeks + 1))%nat by lia.
  reflexivity.
Qed.

Lemma zip_with_fields {A} (f g : A -> Z) (l : list A) :
  zip_with GoInt.add (List.map f l) (List.map g l)
  = List.map (fun x => GoInt.add (f x) (g x)) l.
Proof. induction l as [|x l IH]; cbn; [reflexivity|now rewrite IH]. Qed.

Lemma printIncidentsTable_run repo weeks counts out :
  Z.of_nat (length weeks) <= 1000000 ->
  Incidents.printIncidentsTable repo weeks counts out
  = (Val tt,
     out ++ incidentsText repo weeks
              (List.map Incidents.IncidentIssues counts)
              (List.map Incidents.IncidentReports counts)).
Proof.
  intros Hn. unfold Incidents.printIncidentsTable. cbv zeta.
  erewrite bind_val by apply Print_run.
  erewrite bind_val by (apply invoke_val, Legacy_printHeader_run).
  cbv beta iota.
  erewrite bind_val by (apply invoke_val, legacy_separator; assumption).
  cbv beta iota.
  erewrite bind_val by (apply invoke_val, Legacy_printRowWithSlice_run).
  cbv beta iota.
  erewrite bind_val by (apply invoke_val, Legacy_printRowWithSlice_run).
  cbv beta iota.
  erewrite bind_val by (apply invoke_val, legacy_separator; assumption).
  cbv beta iota.
  erewrite bind_val by (apply invoke_val, Legacy_printRowWithSlice_run).
  cbv beta iota. rewrite mret_run_.
  unfold incidentsText. cbv zeta. rewrite zip_with_fields.
  cbn [self]. rewrite <- !app_assoc. reflexivity.
Qed.

Lemma Eprint_run text s :
  Cli.Eprint text s
  = (Val tt, Cli.mkStreams (Cli.out s) (Cli.err s ++ [text])).
Proof. reflexivity. Qed.

Lemma onStdout_run {A} (m : M (list string) A) s r o :
  m (Cli.out s) = (r, o) ->
  Cli.onStdout m s = (r, Cli.mkStreams o (Cli.err s)).
Proof. intros H. unfold Cli.onStdout. now rewrite H. Qed.

Lemma countsBy_fields f g weeks :
  List.map Incidents.IncidentIssues (countsBy f g weeks) = List.map f weeks
  /\ List.map Incidents.IncidentReports (countsBy f g weeks) = List.map g weeks.
Proof. unfold countsBy. rewrite !List.map_map. split; reflexivity. Qed.

Lemma tallied_exact issues week :
  Z.of_nat (length issues) < 2 ^ 62 ->
  tallied (fun _ => 0) issues week = issuesIn week issues.
Proof.
  intros H. rewrite tallied_count. apply wrap_id.
  pose proof (issuesIn_le week issues). unfold GoInt.inRange.
  change (2 ^ 62) with 4611686018427387904 in H. int_consts. lia.
Qed.

(** X12. With a token and two successful fetches of fewer than 2^62
    issues each, [runIncidents] without [--json] returns no error, writes
    its progress line to standard error and prints the table whose two
    rows hold, for each of the last four weeks, the number of issues
    created in that week; the row of totals holds their sums. *)
Theorem incidents_table_counts_issues_per_week
    (quote : string -> string) (now : Time) (token repo : string)
    (fetch : string -> string + list Incidents.Issue.t)
    (issues reports : list Incidents.Issue.t) (s : Cli.Streams) :
  token <> ""%string ->
  fetch ":incident/issue"%string = inr issues ->
  fetch ":incident/report"%string = inr reports ->
  Z.of_nat (length issues) < 2 ^ 62 ->
  Z.of_nat (length reports) < 2 ^ 62 ->
  let weeks := getLast4Weeks now in
  let issueCounts := List.map (fun week => issuesIn week issues) weeks in
  let reportCounts := List.map (fun week => issuesIn week reports) weeks in
  Incidents.runIncidents quote now token fetch false repo s
  = (Val None,
     Cli.mkStreams
       (Cli.out s ++ incidentsText repo weeks issueCounts reportCounts)
       (Cli.err s ++ ["Fetching incidents for " +:+ repo +:+ "..." +:+ nl]))
  /\ zip_with GoInt.add issueCounts reportCounts
     = List.map (fun week => issuesIn week issues + issuesIn week reports)
         weeks.
Proof.
  intros Htoken Hissues Hreports Hi Hr. cbv zeta. split.
  - unfold Incidents.runIncidents.
    apply String.eqb_neq in Htoken. rewrite Htoken. cbv zeta.
    erewrite bind_val by apply Eprint_run.
    rewrite Hissues, Hreports, initCounts_spec.
    erewrite bind_val
      by (apply tally_issues_run, getLast4Weeks_NoDup).
    erewrite bind_val
      by (apply tally_reports_run, getLast4Weeks_NoDup).
    erewrite bind_val.
    2:{ apply onStdout_run, printIncidentsTable_run.
        rewrite getLast4Weeks_length. lia. }
    rewrite mret_run_. cbn [Cli.out Cli.err].
    destruct (countsBy_fields (tallied (fun _ => 0) issues)
                (tallied (fun _ => 0) reports) (getLast4Weeks now))
      as [-> ->].
    do 4 f_equal.
    + apply map_ext. intros week. now apply tallied_exact.
    + apply map_ext. intros week. now apply tallied_exact.
  - rewrite (zip_with_fields (fun week => issuesIn week issues)
               (fun week => issuesIn week reports)).
    apply map_ext. intros week. unfold GoInt.add. apply wrap_id.
    pose proof (issuesIn_le week issues). pose proof (issuesIn_le week reports).
    unfold GoInt.inRange. change (2 ^ 62) with 4611686018427387904 in Hi, Hr.
    int_consts. lia.
Qed.

Lemma incidents_table_counts_issues_per_week_witness :
  zip_with GoInt.add
    (List.map (fun week => issuesIn week [outage])
       (getLast4Weeks (Date 2024 3 20 0 0)))
    (List.map (fun week => issuesIn week [])
       (getLast4Weeks (Date 2024 3 20 0 0)))
  = List.map (fun week => issuesIn week [outage] + issuesIn week [])
      (getLast4Weeks (Date 2024 3 20 0 0)).
Proof.
  refine (proj2 (incidents_table_counts_issues_per_week (fun s => s)
                   (Date 2024 3 20 0 0) "token" "datum-cloud/scorecard"
                   fetchOutage [outage] [] (Cli.mkStreams [] [])
                   _ _ _ _ _)).
  - discriminate.
  - reflexivity.
  - reflexivity.
  - vm_compute. reflexivity.
  - vm_compute. reflexivity.
Defined.

(** X13. [runIncidents] returns an error and prints nothing to standard
    output when the token is empty or one of the two fetches fails; with
    an empty token it writes nothing at all. *)
Theorem incidents_errors_print_nothing
    (quote : string -> string) (now : Time) (token repo : string)
    (fetch : string -> string + list Incidents.Issue.t)
    (outputJSON : bool) (s : Cli.Streams) :
  token = ""%string
  \/ (exists message, fetch ":incident/issue"%string = inl message)
  \/ (exists message, fetch ":incident/report"%string = inl message) ->
  exists message s',
    Incidents.runIncidents quote now token fetch outputJSON repo s
    = (Val (Some message), s')
    /\ Cli.out s' = Cli.out s
    /\ (token = ""%string -> s' = s).
Proof.
  intros H. unfold Incidents.runIncidents.
  destruct (String.eqb_spec token "") as [->|Htoken].
  - eexists _, s. rewrite mret_run_. repeat split.
  - cbv zeta. erewrite bind_val by apply Eprint_run.
    destruct H as [H|[[message H]|[message H]]]; [contradiction| |].
    + rewrite H. eexists _, _. rewrite mret_run_.
      split; [reflexivity|]. split; [reflexivity|contradiction].
    + rewrite H. destruct (fetch ":incident/issue"%string) as [e|issues];
        eexists _, _; rewrite mret_run_;
        (split; [reflexivity|]); (split; [reflexivity|contradiction]).
Qed.

Lemma incidents_errors_print_nothing_witness :
  exists message s',
    Incidents.runIncidents (fun s => s) (Date 2024 3 20 0 0) ""
      fetchOutage false "datum-cloud/scorecard" (Cli.mkStreams [] [])
    = (Val (Some message), s')
    /\ Cli.out s' = Cli.out (Cli.mkStreams [] [])
    /\ (""%string = ""%string -> s' = Cli.mkStreams [] []).
Proof.
  refine (incidents_errors_print_nothing (fun s => s) (Date 2024 3 20 0 0) ""
            "datum-cloud/scorecard" fetchOutage false (Cli.mkStreams [] []) _).
  left. reflexivity.
Defined.

(** *** The JSON report *)

Lemma incidentsLoop_run {St} f g weeks : forall done output (s : St),
  foldM (fun output '(i, week) =>
      c ← orPanic (countsBy f g (done ++ weeks) !! i);
      let weekData :=
        Incidents.WeekData.mk (weekStartToEnd week)
          (Incidents.IncidentIssues c) (Incidents.IncidentReports c)
          (GoInt.add (Incidents.IncidentIssues c)
             (Incidents.IncidentReports c)) in
      let totals := Incidents.Output.Totals output in
      mret (Incidents.Output.mk (Incidents.Output.Repository output)
              (Incidents.Output.Weeks output ++ [weekData])
              (Incidents.Totals.mk
                 (GoInt.add (Incidents.Totals.IncidentIssue totals)
                    (Incidents.IncidentIssues c))
                 (GoInt.add (Incidents.Totals.IncidentReport totals)
                    (Incidents.IncidentReports c))
                 (Incidents.Totals.Total totals))))
    output (imap (fun i week => ((length done + i)%nat, week)) weeks) s
  = (Val (Incidents.Output.mk (Incidents.Output.Repository output)
            (Incidents.Output.Weeks output ++ List.map (weekEntry f g) weeks)
            (Incidents.Totals.mk
               (GoInt.sumFrom
                  (Incidents.Totals.IncidentIssue
                     (Incidents.Output.Totals output)) (List.map f weeks))
               (GoInt.sumFrom
                  (Incidents.Totals.IncidentReport
                     (Incidents.Output.Totals output)) (List.map g weeks))
               (Incidents.Totals.Total (Incidents.Output.Totals output)))),
     s).
Proof.
  cbv zeta.
  induction weeks as [|week weeks IH]; intros done output s.
  - cbn. rewrite app_nil_r. now destruct output as [r w [a b c]].
  - rewrite imap_cons. cbn [foldM List.map GoInt.sumFrom fold_left].
    rewrite bind_run, bind_run, Nat.add_0_r.
    assert (Hc : countsBy f g (done ++ week :: weeks) !! length done
                 = Some (Incidents.mkCounts week (f week) (g week))).
    { unfold countsBy. change (List.map ?h ?l) with (h <$> l).
      now rewrite list_lookup_fmap, list_lookup_middle. }
    rewrite Hc. cbn [orPanic]. rewrite !mret_run_.
    cbn [Incidents.IncidentIssues Incidents.IncidentReports].
    specialize (IH (done ++ [week])).
    rewrite <- app_assoc in IH. cbn [List.app] in IH.
    rewrite (imap_ext _ (fun i week => ((length done + S i)%nat, week))) in IH.
    2:{ intros i x _. cbn. rewrite length_app. cbn [length]. f_equal. lia. }
    unfold compose. rewrite IH.
    cbn [Incidents.Output.Repository Incidents.Output.Weeks
         Incidents.Output.Totals Incidents.Totals.IncidentIssue
         Incidents.Totals.IncidentReport Incidents.Totals.Total].
    rewrite <- app_assoc. reflexivity.
Qed.

Lemma incidentsOutput_run {S} repo f g weeks (s : S) :
  Incidents.incidentsOutput repo weeks (countsBy f g weeks) s
  = (Val (Incidents.Output.mk repo (List.map (weekEntry f g) weeks)
            (Incidents.Totals.mk
               (GoInt.sumFrom 0 (List.map f weeks))
               (GoInt.sumFrom 0 (List.map g weeks))
               (GoInt.add (GoInt.sumFrom 0 (List.map f weeks))
                  (GoInt.sumFrom 0 (List.map g weeks))))),
     s).
Proof.
  unfold Incidents.incidentsOutput. cbv zeta.
  erewrite bind_val by apply (incidentsLoop_run f g weeks []).
  reflexivity.
Qed.

Lemma sumZ_bounds {A} (f : A -> Z) (bound : Z) (l : list A) :
  (forall x, 0 <= f x <= bound) ->
  0 <= sumZ (List.map f l) <= Z.of_nat (length l) * bound.
Proof.
  intros H. induction l as [|x l IH]; [cbn; lia|].
  cbn [List.map length]. change (sumZ (?y :: ?r)) with (y + sumZ r).
  pose proof (H x). lia.
Qed.

Lemma sumFrom_small {A} (f : A -> Z) (l : list A) :
  (forall x, 0 <= f x < 2 ^ 61) -> (length l <= 4)%nat ->
  GoInt.sumFrom 0 (List.map f l) = sumZ (List.map f l).
Proof.
  intros H Hl. apply sumFrom_exact.
  change (2 ^ 61) with 2305843009213693952 in H.
  assert (H' : forall x, 0 <= f x <= 2305843009213693951)
    by (intros x; pose proof (H x); lia).
  pose proof (sumZ_bounds f 2305843009213693951 l H') as Hb.
  unfold GoInt.inRange. int_consts.
  assert (Z.of_nat (length l) * 2305843009213693951
          <= 4 * 2305843009213693951)
    by (apply Z.mul_le_mono_nonneg_r; lia).
  lia.
Qed.

Lemma sumZ_plus {A} (f g : A -> Z) (l : list A) :
  sumZ (List.map (fun x => f x + g x) l)
  = sumZ (List.map f l) + sumZ (List.map g l).
Proof.
  induction l as [|x l IH]; [reflexivity|].
  cbn [List.map]. change (sumZ (?y :: ?r)) with (y + sumZ r) in *. lia.
Qed.

(** X14. With a token and two successful fetches of fewer than 2^60
    issues each, [runIncidents --json] prints one JSON document: per week
    the week ending, the number of issues and of reports created in that
    week and their sum, and the totals over the four weeks; these totals
    are the ones the table shows. *)
Theorem incidents_json_report
    (quote : string -> string) (now : Time) (token repo : string)
    (fetch : string -> string + list Incidents.Issue.t)
    (issues reports : list Incidents.Issue.t) (s : Cli.Streams) :
  token <> ""%string ->
  fetch ":incident/issue"%string = inr issues ->
  fetch ":incident/report"%string = inr reports ->
  Z.of_nat (length issues) < 2 ^ 60 ->
  Z.of_nat (length reports) < 2 ^ 60 ->
  let weeks := getLast4Weeks now in
  let issueCount week := issuesIn week issues in
  let reportCount week := issuesIn week reports in
  let issueTotal := sumZ (List.map issueCount weeks) in
  let reportTotal := sumZ (List.map reportCount weeks) in
  let output :=
    Incidents.Output.mk repo
      (List.map (fun week =>
         Incidents.WeekData.mk (weekStartToEnd week) (issueCount week)
           (reportCount week) (issueCount week + reportCount week)) weeks)
      (Incidents.Totals.mk issueTotal reportTotal
         (issueTotal + reportTotal)) in
  Incidents.runIncidents quote now token fetch true repo s
  = (Val None,
     Cli.mkStreams
       (Cli.out s
        ++ [Json.marshalIndent quote 0 (Incidents.outputJson output) +:+ nl])
       (Cli.err s ++ ["Fetching incidents for " +:+ repo +:+ "..." +:+ nl]))
  /\ GoInt.sumFrom 0 (List.map issueCount weeks) = issueTotal
  /\ GoInt.sumFrom 0 (List.map reportCount weeks) = reportTotal
  /\ GoInt.sumFrom 0
       (zip_with GoInt.add (List.map issueCount weeks)
          (List.map reportCount weeks))
     = issueTotal + reportTotal.
Proof.
  intros Htoken Hissues Hreports Hi Hr. cbv zeta.
  change (2 ^ 60) with 1152921504606846976 in Hi, Hr.
  assert (Hbi : forall week,
    0 <= issuesIn week issues <= 1152921504606846975)
    by (intros week; pose proof (issuesIn_le week issues); lia).
  assert (Hbr : forall week,
    0 <= issuesIn week reports <= 1152921504606846975)
    by (intros week; pose proof (issuesIn_le week reports); lia).
  assert (Hadd : forall week,
    GoInt.add (issuesIn week issues) (issuesIn week reports)
    = issuesIn week issues + issuesIn week reports).
  { intros week. apply wrap_id. pose proof (Hbi week). pose proof (Hbr week).
    unfold GoInt.inRange. int_consts. lia. }
  assert (Hlen : (length (getLast4Weeks now) <= 4)%nat)
    by (rewrite getLast4Weeks_length; lia).
  assert (Hsi : GoInt.sumFrom 0 (List.map (fun week => issuesIn week issues)
                                   (getLast4Weeks now))
                = sumZ (List.map (fun week => issuesIn week issues)
                          (getLast4Weeks now))).
  { apply sumFrom_small; [|exact Hlen]. intros week. pose proof (Hbi week).
    change (2 ^ 61) with 2305843009213693952. lia. }
  assert (Hsr : GoInt.sumFrom 0 (List.map (fun week => issuesIn week reports)
                                   (getLast4Weeks now))
                = sumZ (List.map (fun week => issuesIn week reports)
                          (getLast4Weeks now))).
  { apply sumFrom_small; [|exact Hlen]. intros week. pose proof (Hbr week).
    change (2 ^ 61) with 2305843009213693952. lia. }
  assert (Htotal : GoInt.add
                     (sumZ (List.map (fun week => issuesIn week issues)
                              (getLast4Weeks now)))
                     (sumZ (List.map (fun week => issuesIn week reports)
                              (getLast4Weeks now)))
                   = sumZ (List.map (fun week => issuesIn week issues)
                             (getLast4Weeks now))
                     + sumZ (List.map (fun week => issuesIn week reports)
                               (getLast4Weeks now))).
  { apply wrap_id.
    pose proof (sumZ_bounds (fun week => issuesIn week issues)
                  1152921504606846975 (getLast4Weeks now) Hbi).
    pose proof (sumZ_bounds (fun week => issuesIn week reports)
                  1152921504606846975 (getLast4Weeks now) Hbr).
    assert (Z.of_nat (length (getLast4Weeks now)) * 1152921504606846975
            <= 4 * 1152921504606846975)
      by (apply Z.mul_le_mono_nonneg_r; lia).
    unfold GoInt.inRange. int_consts. lia. }
  split; [|split; [exact Hsi|split; [exact Hsr|]]].
  - unfold Incidents.runIncidents.
    apply String.eqb_neq in Htoken. rewrite Htoken. cbv zeta.
    erewrite bind_val by apply Eprint_run.
    rewrite Hissues, Hreports, initCounts_spec.
    erewrite bind_val
      by (apply tally_issues_run, getLast4Weeks_NoDup).
    erewrite bind_val
      by (apply tally_reports_run, getLast4Weeks_NoDup).
    erewrite bind_val.
    2:{ apply onStdout_run. unfold Incidents.printIncidentsJSON.
        erewrite bind_val by apply incidentsOutput_run.
        apply Println_run_. }
    rewrite mret_run_. cbn [Cli.out Cli.err].
    assert (Ei : forall week,
      tallied (fun _ => 0) issues week = issuesIn week issues)
      by (intros week; apply tallied_exact;
          change (2 ^ 62) with 4611686018427387904; lia).
    assert (Er : forall week,
      tallied (fun _ => 0) reports week = issuesIn week reports)
      by (intros week; apply tallied_exact;
          change (2 ^ 62) with 4611686018427387904; lia).
    rewrite (map_ext _ _ Ei), (map_ext _ _ Er), Hsi, Hsr, Htotal.
    rewrite (map_ext (weekEntry _ _)
               (fun week =>
                  Incidents.WeekData.mk (weekStartToEnd week)
                    (issuesIn week issues) (issuesIn week reports)
                    (issuesIn week issues + issuesIn week reports))).
    + reflexivity.
    + intros week. unfold weekEntry. now rewrite Ei, Er, Hadd.
  - rewrite zip_with_fields, (map_ext _ _ Hadd), sumFrom_small, sumZ_plus.
    + reflexivity.
    + intros week. pose proof (Hbi week). pose proof (Hbr week).
      change (2 ^ 61) with 2305843009213693952. lia.
    + exact Hlen.
Qed.

Lemma incidents_json_report_witness :
  GoInt.sumFrom 0
    (List.map (fun week => issuesIn week [outage])
       (getLast4Weeks (Date 2024 3 20 0 0)))
  = sumZ (List.map (fun week => issuesIn week [outage])
            (getLast4Weeks (Date 2024 3 20 0 0))).
Proof.
  refine (proj1 (proj2 (incidents_json_report (fun s => s)
                   (Date 2024 3 20 0 0) "token" "datum-cloud/scorecard"
                   fetchOutage [outage] [] (Cli.mkStreams [] [])
                   _ _ _ _ _))).
  - discriminate.
  - reflexivity.
  - reflexivity.
  - vm_compute. reflexivity.
  - vm_compute. reflexivity.
Defined.

(** ** The paged requests *)

(** *** The list endpoints of Ashby *)

Lemma fetchLoop_pages {R A} (step : A -> list R -> A)
    (pages : list (AshbyApi.ListResponse R)) final rest :
  Forall continues pages ->
  AshbyApi.Success final = true ->
  AshbyApi.MoreDataAvailable final = false ->
  forall acc cursor,
  AshbyApi.fetchLoop step
    (List.map AshbyApi.Decoded (pages ++ [final]) ++ rest) acc cursor
  = (AshbyApi.bodyFor cursor :: followUps pages,
     Some (inr (fold_left step
                  (List.map AshbyApi.Results (pages ++ [final])) acc))).
Proof.
  intros Hpages Hs Hm.
  induction Hpages as [|page pages [Hps Hpm] _ IH]; intros acc cursor.
  - cbn. now rewrite Hs, Hm.
  - cbn [List.map List.app AshbyApi.fetchLoop]. rewrite Hps, Hpm.
    cbn [negb]. cbv zeta. rewrite IH. reflexivity.
Qed.

Lemma fold_append {A} (pages : list (list A)) : forall acc,
  fold_left (fun acc results => acc ++ results) pages acc
  = acc ++ concat pages.
Proof.
  induction pages as [|page pages IH]; intros acc; cbn.
  - now rewrite app_nil_r.
  - now rewrite IH, app_assoc.
Qed.

(** X15. When the replies to [fetchAllApplications] are successful pages
    of which the last is the first to announce no more data,
    the function returns the results of the pages joined in order; the
    first request carries no cursor and each later one the cursor named
    by the page before it. *)
Theorem fetchAllApplications_joins_pages
    (pages : list (AshbyApi.ListResponse Applicants.App.t))
    (final : AshbyApi.ListResponse Applicants.App.t)
    (rest : list (AshbyApi.Reply Applicants.App.t)) :
  Forall continues pages ->
  AshbyApi.Success final = true ->
  AshbyApi.MoreDataAvailable final = false ->
  AshbyApi.fetchAllApplications
    (List.map AshbyApi.Decoded (pages ++ [final]) ++ rest)
  = (AshbyApi.mkBody 100 None :: followUps pages,
     Some (inr (concat (List.map AshbyApi.Results (pages ++ [final]))))).
Proof.
  intros Hpages Hs Hm. unfold AshbyApi.fetchAllApplications.
  rewrite fetchLoop_pages by assumption. now rewrite fold_append.
Qed.

Lemma fetchLoop_failure {R A} (step : A -> list R -> A)
    (pages : list (AshbyApi.ListResponse R)) reply rest err :
  Forall continues pages ->
  failure reply = Some err ->
  forall acc cursor,
  AshbyApi.fetchLoop step
    (List.map AshbyApi.Decoded pages ++ reply :: rest) acc cursor
  = (AshbyApi.bodyFor cursor :: followUps pages, Some (inl err)).
Proof.
  intros Hpages Hf.
  induction Hpages as [|page pages [Hps Hpm] _ IH]; intros acc cursor.
  - cbn [List.map List.app followUps AshbyApi.fetchLoop].
    destruct reply as [e|e|response]; cbn in Hf.
    + now injection Hf as <-.
    + now injection Hf as <-.
    + destruct (AshbyApi.Success response); [discriminate|].
      now injection Hf as <-.
  - cbn [List.map List.app AshbyApi.fetchLoop]. rewrite Hps, Hpm.
    cbn [negb]. cbv zeta. rewrite IH. reflexivity.
Qed.

(** X16. When a page of [fetchAllJobs] fails (the request fails, the
    response does not parse, or it says [success=false]), the function
    returns that error and none of the jobs of the pages before it, and
    asks for no further page. *)
Theorem fetch_failure_discards_earlier_pages
    (departments : gmap string string)
    (pages : list (AshbyApi.ListResponse Applicants.Job.t))
    (reply : AshbyApi.Reply Applicants.Job.t)
    (rest : list (AshbyApi.Reply Applicants.Job.t)) (err : string) :
  Forall continues pages ->
  failure reply = Some err ->
  AshbyApi.fetchAllJobs departments
    (List.map AshbyApi.Decoded pages ++ reply :: rest)
  = (AshbyApi.mkBody 100 None :: followUps pages, Some (inl err)).
Proof.
  intros Hpages Hf. unfold AshbyApi.fetchAllJobs.
  now rewrite (fetchLoop_failure _ pages reply rest err).
Qed.

(** *** The job map *)

Lemma recordJobs_snoc departments jobs results job :
  Applicants.recordJobs departments jobs (results ++ [job])
  = <[ Applicants.Job.ID job := jobInfoOf departments job ]>
      (Applicants.recordJobs departments jobs results).
Proof. unfold Applicants.recordJobs. now rewrite fold_left_app. Qed.

Lemma recordJobs_lookup departments jobs results jobID :
  Applicants.recordJobs departments jobs results !! jobID
  = match last (listings jobID results) with
    | Some job => Some (jobInfoOf departments job)
    | None => jobs !! jobID
    end.
Proof.
  induction results as [|job results IH] using rev_ind; [reflexivity|].
  rewrite recordJobs_snoc. unfold listings in *.
  rewrite List.filter_app. cbn [List.filter].
  destruct (bool_decide_reflect (Applicants.Job.ID job = jobID)) as [->|Hne].
  - now rewrite lookup_insert_eq, last_snoc.
  - rewrite lookup_insert_ne by assumption. now rewrite app_nil_r.
Qed.

Lemma recordJobs_pages departments pages : forall jobs,
  fold_left (Applicants.recordJobs departments) pages jobs
  = Applicants.recordJobs departments jobs (concat pages).
Proof.
  induction pages as [|page pages IH]; intros jobs; [reflexivity|].
  cbn [fold_left concat]. rewrite IH. unfold Applicants.recordJobs.
  now rewrite fold_left_app.
Qed.

(** X17. In the map that [fetchAllJobs] returns, a job identifier stands
    for its last listing over all pages, with the name of its department
    or "No Department"; an identifier that is not listed is absent. *)
Theorem fetchAllJobs_last_listing_wins
    (departments : gmap string string)
    (pages : list (AshbyApi.ListResponse Applicants.Job.t))
    (final : AshbyApi.ListResponse Applicants.Job.t)
    (rest : list (AshbyApi.Reply Applicants.Job.t)) (jobID : string) :
  Forall continues pages ->
  AshbyApi.Success final = true ->
  AshbyApi.MoreDataAvailable final = false ->
  exists jobs,
    snd (AshbyApi.fetchAllJobs departments
           (List.map AshbyApi.Decoded (pages ++ [final]) ++ rest))
    = Some (inr jobs)
    /\ jobs !! jobID
       = jobInfoOf departments
           <$> last (listings jobID
                       (concat (List.map AshbyApi.Results (pages ++ [final])))).
Proof.
  intros Hpages Hs Hm. unfold AshbyApi.fetchAllJobs.
  rewrite fetchLoop_pages by assumption. cbn [snd].
  eexists. split; [reflexivity|].
  rewrite recordJobs_pages, recordJobs_lookup.
  now destruct (last _).
Qed.

(** *** The paged endpoints of GitHub *)

Lemma github_pages {R} (decode : string -> string + list R) notFound
    (bodies : list string) final rest :
  Forall (hasItems decode) bodies ->
  decode final = inr [] ->
  forall all page,
  - 2 ^ 63 <= page -> page + Z.of_nat (length bodies) < 2 ^ 63 ->
  GitHubApi.fetchLoop decode notFound
    (List.map (GitHubApi.Response 200) bodies
     ++ GitHubApi.Response 200 final :: rest) all page
  = (seqZ page (Z.of_nat (length bodies) + 1),
     Some (inr (all ++ concat (List.map (itemsOf decode) bodies)))).
Proof.
  intros Hbodies Hfinal.
  induction Hbodies as [|body bodies (items & Hd & Hne) _ IH];
    intros all page Hlo Hhi.
  - cbn. rewrite Hfinal. cbn. now rewrite app_nil_r.
  - cbn [List.map List.app GitHubApi.fetchLoop length concat].
    change (200 =? 404) with false. change (negb (200 =? 200)) with false.
    cbv iota. rewrite Hd.
    destruct items as [|item items]; [contradiction|].
    replace (Z.of_nat (length (item :: items)) =? 0) with false
      by (symmetry; apply Z.eqb_neq; cbn [length]; lia).
    cbn [length] in Hhi.
    replace (GoInt.add page 1) with (page + 1)
      by (symmetry; apply wrap_id; unfold GoInt.inRange; lia).
    rewrite IH by lia.
    unfold itemsOf at 2. rewrite Hd, <- app_assoc.
    rewrite (seqZ_cons page) by lia.
    do 3 f_equal. lia.
Qed.

(** X18. When the replies to [fetchGitHubRepos] or [fetchIncidentIssues]
    have status 200 and decode to non-empty pages followed by an empty
    one, the function returns the items of the pages joined in order,
    after asking for the pages 1, 2, ... up to the empty one. *)
Theorem github_fetch_reads_until_empty_page {R}
    (decode : string -> string + list R) (repo : string)
    (bodies : list string) (final : string) (rest : list GitHubApi.Reply) :
  Forall (hasItems decode) bodies ->
  decode final = inr [] ->
  Z.of_nat (length bodies) < 2 ^ 63 - 1 ->
  let replies :=
    List.map (GitHubApi.Response 200) bodies
    ++ GitHubApi.Response 200 final :: rest in
  let outcome :=
    (seqZ 1 (Z.of_nat (length bodies) + 1),
     Some (inr (concat (List.map (itemsOf decode) bodies)))) in
  GitHubApi.fetchGitHubRepos decode replies = outcome
  /\ GitHubApi.fetchIncidentIssues decode repo replies = outcome.
Proof.
  intros Hbodies Hfinal Hlen replies outcome.
  unfold GitHubApi.fetchGitHubRepos, GitHubApi.fetchIncidentIssues.
  subst replies outcome.
  split; rewrite github_pages by (assumption || lia); reflexivity.
Qed.

(** *** Sample replies *)

Lemma fetchAllApplications_joins_pages_witness :
  AshbyApi.fetchAllApplications
    (List.map AshbyApi.Decoded ([firstPage] ++ [finalPage]) ++ [])
  = (AshbyApi.mkBody 100 None :: followUps [firstPage],
     Some (inr (concat (List.map AshbyApi.Results
                          ([firstPage] ++ [finalPage]))))).
Proof.
  refine (fetchAllApplications_joins_pages [firstPage] finalPage [] _ _ _).
  - repeat constructor.
  - reflexivity.
  - reflexivity.
Defined.

Lemma fetch_failure_discards_earlier_pages_witness :
  AshbyApi.fetchAllJobs sampleDepartments
    (List.map AshbyApi.Decoded [firstJobs]
     ++ AshbyApi.RequestFailed "request failed: timeout" :: [])
  = (AshbyApi.mkBody 100 None :: followUps [firstJobs],
     Some (inl "request failed: timeout"%string)).
Proof.
  refine (fetch_failure_discards_earlier_pages sampleDepartments [firstJobs]
            (AshbyApi.RequestFailed "request failed: timeout") []
            "request failed: timeout" _ _).
  - repeat constructor.
  - reflexivity.
Defined.

Lemma fetchAllJobs_last_listing_wins_witness :
  exists jobs,
    snd (AshbyApi.fetchAllJobs sampleDepartments
           (List.map AshbyApi.Decoded ([firstJobs] ++ [finalJobs]) ++ []))
    = Some (inr jobs)
    /\ jobs !! "job-1"%string
       = jobInfoOf sampleDepartments
           <$> last (listings "job-1"
                       (concat (List.map AshbyApi.Results
                                  ([firstJobs] ++ [finalJobs])))).
Proof.
  refine (fetchAllJobs_last_listing_wins sampleDepartments [firstJobs]
            finalJobs [] "job-1" _ _ _).
  - repeat constructor.
  - reflexivity.
  - reflexivity.
Defined.

Lemma github_fetch_reads_until_empty_page_witness :
  GitHubApi.fetchGitHubRepos decodeNames
    (List.map (GitHubApi.Response 200) ["ab"; "c"]%string
     ++ GitHubApi.Response 200 "" :: [])
  = (seqZ 1 (Z.of_nat (length ["ab"; "c"]%string) + 1),
     Some (inr (concat (List.map (itemsOf decodeNames) ["ab"; "c"]%string)))).
Proof.
  refine (proj1 (github_fetch_reads_until_empty_page decodeNames "o/r"
                   ["ab"; "c"]%string "" [] _ _ _)).
  - repeat constructor; eexists; (split; [reflexivity|discriminate]).
  - reflexivity.
  - vm_compute. reflexivity.
Defined.

(** ** Sorting *)

Lemma ltb_before a b : String.ltb a b = true <-> before a b.
Proof.
  unfold String.ltb, before. rewrite <- OrderedTypeEx.String_as_OT.cmp_lt.
  unfold OrderedTypeEx.String_as_OT.cmp. destruct (String.compare a b); split;
    intros H; (reflexivity || discriminate).
Qed.

Lemma before_irrefl a : ~ before a a.
Proof. intros H. now apply (OrderedTypeEx.String_as_OT.lt_not_eq _ _ H). Qed.

Lemma before_trans a b c : before a b -> before b c -> before a c.
Proof. apply OrderedTypeEx.String_as_OT.lt_trans. Qed.

Lemma before_total a b : before a b \/ a = b \/ before b a.
Proof.
  destruct (String.compare a b) eqn:E.
  - right. left. now apply String.compare_eq_iff.
  - left. apply ltb_before. unfold String.ltb. now rewrite E.
  - right. right. apply ltb_before. unfold String.ltb.
    rewrite String.compare_antisym, E. reflexivity.
Qed.

Lemma ltb_false a b : String.ltb a b = false <-> (a = b \/ before b a).
Proof.
  split.
  - intros H. destruct (before_total a b) as [Hab|[Hab|Hab]]; [|tauto..].
    apply ltb_before in Hab. congruence.
  - intros [->|H]; apply not_true_is_false; rewrite ltb_before; intros H'.
    + now apply (before_irrefl b).
    + apply (before_irrefl a). now apply (before_trans a b a).
Qed.

Section Sorted.

Context {A : Type} (less : A -> A -> bool).

Hypothesis less_asym : forall a b, less a b = true -> less b a = false.

Hypothesis inOrder_trans :
  forall a b c, inOrder less a b -> inOrder less b c -> inOrder less a c.

Lemma insertSorted_sorted x l :
  StronglySorted (inOrder less) l ->
  StronglySorted (inOrder less) (insertSorted less x l).
Proof.
  induction 1 as [|y l Hl IH Hy]; cbn [insertSorted].
  - repeat constructor.
  - destruct (less y x) eqn:E.
    + constructor; [exact IH|].
      apply Forall_forall. intros z Hz.
      pose proof (insertSorted_perm less x l) as Hp.
      rewrite Hp in Hz.
      apply elem_of_cons in Hz as [->|Hz].
      * now apply less_asym.
      * rewrite Forall_forall in Hy. now apply Hy.
    + constructor; [now constructor|].
      constructor; [exact E|].
      eapply Forall_impl; [exact Hy|]. intros z Hz.
      now apply (inOrder_trans x y z).
Qed.

Lemma sortBy_sorted l : StronglySorted (inOrder less) (sortBy less l).
Proof.
  induction l as [|x l IH]; [constructor|].
  now apply insertSorted_sorted.
Qed.

End Sorted.

Lemma sorted_weaken {A} (R R' : A -> A -> Prop) l :
  (forall a b, R a b -> R' a b) -> StronglySorted R l -> StronglySorted R' l.
Proof.
  intros H. induction 1 as [|x l Hl IH Hx]; constructor; [exact IH|].
  eapply Forall_impl; [exact Hx|]. intros y. apply H.
Qed.



(** *** The order of the grouped table *)









(** ** The JSON report of the applicants command *)









Lemma less_false a b :
  GroupedJson.less b a = false <-> reportOrder a b.
Proof.
  unfold GroupedJson.less, reportOrder.
  destruct (String.eqb_spec (GroupedJson.JobData.Department b)
              (GroupedJson.JobData.Department a)) as [E|E]; cbn [negb].
  - rewrite ltb_false, E. split.
    + intros [H|H]; right; (split; [reflexivity|]); [left|right]; auto.
    + intros [H|[_ [H|H]]]; [now apply before_irrefl in H|left|right]; auto.
  - rewrite ltb_false. split.
    + intros [H|H]; [congruence|now left].
    + intros [H|[H _]]; [now right|congruence].
Qed.

Lemma reportOrder_trans a b c :
  reportOrder a b -> reportOrder b c -> reportOrder a c.
Proof.
  unfold reportOrder.
  intros [Hab|[Eab Jab]] [Hbc|[Ebc Jbc]].
  - left. now apply (before_trans _ (GroupedJson.JobData.Department b)).
  - left. now rewrite <- Ebc.
  - left. now rewrite Eab.
  - right. split; [congruence|].
    destruct Jab as [Jab|Jab]; [now rewrite Jab|].
    destruct Jbc as [Jbc|Jbc]; [rewrite <- Jbc; now right|].
    right. now apply (before_trans _ (GroupedJson.JobData.Job b)).
Qed.

Lemma less_asym a b :
  GroupedJson.less a b = true -> GroupedJson.less b a = false.
Proof.
  intros H. apply less_false.
  unfold GroupedJson.less in H. unfold reportOrder.
  destruct (String.eqb_spec (GroupedJson.JobData.Department a)
              (GroupedJson.JobData.Department b)) as [E|E]; cbn [negb] in H;
    apply ltb_before in H; [right|left]; auto.
Qed.

Lemma output_loop {A B} (f : A -> B) (l : list A) : forall acc,
  fold_left (fun output m => output ++ [f m]) l acc = acc ++ List.map f l.
Proof.
  induction l as [|x l IH]; intros acc; cbn.
  - now rewrite app_nil_r.
  - now rewrite IH, <- app_assoc.
Qed.

(** X21. [printJSONGrouped] prints one JSON document with one entry per
    job of the metrics, ordered by department and, within a department,
    by job title (byte order). *)
Theorem grouped_json_sorted_by_department_and_job
    (quote : string -> string) (now : Time)
    (metrics : list ashbyJobMetrics) (out : list string) :
  exists output,
    GroupedJson.printJSONGrouped quote now metrics out
    = (Val tt,
       out ++ [Json.marshalIndent quote 0
                 (Json.slice (List.map GroupedJson.jobDataJson output))
               +:+ nl])
    /\ output
       ≡ₚ List.map (GroupedJson.jobData (getLast4Weeks now)
                      (getCurrentWeekStart now)) metrics
    /\ StronglySorted reportOrder output.
Proof.
  exists (GroupedJson.groupedOutput now metrics).
  split; [reflexivity|].
  unfold GroupedJson.groupedOutput. cbv zeta. rewrite output_loop.
  cbn [List.app]. split; [apply sortBy_perm|].
  eapply sorted_weaken; [|apply sortBy_sorted].
  - intros a b H. now apply less_false.
  - apply less_asym.
  - unfold inOrder. intros a b c Hab Hbc.
    apply less_false. apply less_false in Hab, Hbc.
    now apply (reportOrder_trans a b c).
Qed.

(** X22. [printJSONGrouped] prints [null], not an empty array, exactly
    when there are no metrics. *)
Theorem grouped_json_is_null_without_jobs
    (quote : string -> string) (now : Time)
    (metrics : list ashbyJobMetrics) (out : list string) :
  GroupedJson.printJSONGrouped quote now metrics out
  = (Val tt, out ++ ["null" +:+ nl])
  <-> metrics = [].
Proof.
  split.
  - intros H. destruct metrics as [|m metrics]; [reflexivity|exfalso].
    unfold GroupedJson.printJSONGrouped, Json.PrintlnIndent in H.
    unfold Println, Print, modify in H.
    injection H as H. apply app_inv_head in H. injection H as H.
    unfold GroupedJson.groupedOutput in H. cbv zeta in H.
    rewrite output_loop in H. cbn [List.app List.map] in H.
    pose proof (sortBy_perm GroupedJson.less
      (GroupedJson.jobData (getLast4Weeks now) (getCurrentWeekStart now) m
       :: List.map (GroupedJson.jobData (getLast4Weeks now)
                      (getCurrentWeekStart now)) metrics)) as Hperm.
    destruct (sortBy _ _) as [|entry entries].
    + now apply Permutation_nil_cons in Hperm.
    + cbn [List.map Json.slice Json.marshalIndent] in H.
      discriminate H.
  - intros ->. reflexivity.
Qed.

(** ** The active-users command *)

Lemma usersWithin_snoc parse weeks items event :
  usersWithin parse weeks (items ++ [event])
  = usersWithin parse weeks items
    ∪ (if countsFor parse weeks event
       then {[ ActiveUsers.Username event ]} else ∅).
Proof.
  unfold usersWithin. rewrite List.filter_app, List.map_app, list_to_set_app_L.
  cbn [List.filter]. destruct (countsFor parse weeks event); cbn; set_solver.
Qed.

Lemma usersWithin_elem parse weeks items user :
  user ∈ usersWithin parse weeks items
  <-> exists event, event ∈ items /\ countsFor parse weeks event = true
                    /\ ActiveUsers.Username event = user.
Proof.
  unfold usersWithin. rewrite elem_of_list_to_set, list_elem_of_In, in_map_iff.
  split.
  - intros (event & Hu & Hin). apply filter_In in Hin as [Hin Hc].
    exists event. rewrite list_elem_of_In. auto.
  - intros (event & Hin & Hc & Hu). exists event. split; [exact Hu|].
    apply filter_In. rewrite <- list_elem_of_In. auto.
Qed.

Lemma countsFor_one parse week weeks event :
  week ∈ weeks -> countsFor parse [week] event = true ->
  countsFor parse weeks event = true.
Proof.
  unfold countsFor. intros Hw H.
  apply andb_true_iff in H as [Hn H]. rewrite Hn. cbn [andb].
  destruct (parse _); [|discriminate].
  apply bool_decide_eq_true in H. apply list_elem_of_singleton in H.
  apply bool_decide_eq_true. now rewrite H.
Qed.

Lemma countsFor_some parse weeks event :
  countsFor parse weeks event = true ->
  exists week, week ∈ weeks /\ countsFor parse [week] event = true.
Proof.
  unfold countsFor. intros H.
  apply andb_true_iff in H as [Hn H]. rewrite Hn. cbn [andb].
  destruct (parse _) as [t|]; [|discriminate].
  apply bool_decide_eq_true in H. exists (getWeekStart t).
  split; [exact H|]. apply bool_decide_eq_true, list_elem_of_here.
Qed.

(** *** The loop over the events *)

Lemma initWeekUsers_lookup weeks currentWeek week :
  ActiveUsers.initWeekUsers weeks currentWeek !! week
  = if bool_decide (week ∈ currentWeek :: weeks) then Some ∅ else None.
Proof.
  unfold ActiveUsers.initWeekUsers.
  assert (H : forall (acc : gmap string (gset string)),
    fold_left (fun weekUsers w => <[ w := ∅ ]> weekUsers) weeks acc !! week
    = if bool_decide (week ∈ weeks) then Some ∅ else acc !! week).
  { induction weeks as [|w weeks IH]; intros acc; [reflexivity|].
    cbn [fold_left]. rewrite IH.
    destruct (decide (week ∈ weeks)) as [I|I].
    - rewrite !bool_decide_eq_true_2;
        [reflexivity|now apply list_elem_of_further|exact I].
    - rewrite (bool_decide_eq_false_2 _ I).
      destruct (decide (w = week)) as [->|E].
      + rewrite lookup_insert_eq, bool_decide_eq_true_2;
          [reflexivity|apply list_elem_of_here].
      + rewrite lookup_insert_ne by assumption.
        rewrite bool_decide_eq_false_2; [reflexivity|].
        rewrite elem_of_cons. intros [->|?]; contradiction. }
  destruct (decide (currentWeek = week)) as [->|E].
  - rewrite lookup_insert_eq, bool_decide_eq_true_2;
      [reflexivity|apply list_elem_of_here].
  - rewrite lookup_insert_ne, H, lookup_empty by assumption.
    destruct (decide (week ∈ weeks)) as [I|I].
    + rewrite !bool_decide_eq_true_2;
        [reflexivity|now apply list_elem_of_further|exact I].
    + rewrite !bool_decide_eq_false_2; [reflexivity| |exact I].
      rewrite elem_of_cons. intros [->|?]; contradiction.
Qed.

Lemma recordEvent_lookup parse weekUsers event week :
  ActiveUsers.recordEvent parse weekUsers event !! week
  = (fun users =>
       users ∪ (if countsFor parse [week] event
                then {[ ActiveUsers.Username event ]} else ∅))
    <$> weekUsers !! week.
Proof.
  unfold ActiveUsers.recordEvent, countsFor.
  assert (Hid : forall o : option (gset string),
    o = (fun users => users ∪ ∅) <$> o).
  { intros [users|]; cbn; [f_equal; set_solver|reflexivity]. }
  destruct (String.eqb (ActiveUsers.Username event) ""); cbn [negb andb];
    [apply Hid|].
  destruct (parse _) as [t|]; [|apply Hid].
  destruct (decide (getWeekStart t = week)) as [->|E].
  - rewrite bool_decide_eq_true_2 by apply list_elem_of_here.
    destruct (weekUsers !! week) as [users|] eqn:L.
    + rewrite lookup_insert_eq. cbn. f_equal. set_solver.
    + rewrite L. reflexivity.
  - rewrite bool_decide_eq_false_2
      by (rewrite list_elem_of_singleton; exact E).
    destruct (weekUsers !! getWeekStart t);
      [rewrite lookup_insert_ne by assumption|]; apply Hid.
Qed.

Lemma events_lookup parse items : forall weekUsers week,
  fold_left (ActiveUsers.recordEvent parse) items weekUsers !! week
  = (fun users => users ∪ usersWithin parse [week] items)
    <$> weekUsers !! week.
Proof.
  induction items as [|event items IH] using rev_ind; intros weekUsers week.
  - cbn [fold_left]. destruct (weekUsers !! week) as [users|]; cbn;
      [f_equal; unfold usersWithin; cbn; set_solver|reflexivity].
  - rewrite fold_left_app. cbn [fold_left].
    rewrite recordEvent_lookup, IH, usersWithin_snoc.
    destruct (weekUsers !! week) as [users|]; cbn; [|reflexivity].
    f_equal. set_solver.
Qed.

(** The sets of users after the loop over the events. *)
Lemma weekUsers_lookup parse weeks currentWeek items week :
  fold_left (ActiveUsers.recordEvent parse) items
    (ActiveUsers.initWeekUsers weeks currentWeek) !! week
  = if bool_decide (week ∈ currentWeek :: weeks)
    then Some (usersWithin parse [week] items) else None.
Proof.
  rewrite events_lookup, initWeekUsers_lookup.
  destruct (bool_decide _); cbn; [f_equal; set_solver|reflexivity].
Qed.

(** *** The loop that counts *)

Lemma countUsers_snoc visited week users :
  ActiveUsers.countUsers (visited ++ [(week, users)])
  = (<[ week := Z.of_nat (size users) ]> (ActiveUsers.countUsers visited).1,
     (ActiveUsers.countUsers visited).2 ∪ users).
Proof.
  unfold ActiveUsers.countUsers. rewrite fold_left_app. cbn [fold_left].
  now destruct (fold_left _ visited _).
Qed.

Lemma countUsers_list (visited : list (string * gset string)) :
  NoDup visited.*1 ->
  (ActiveUsers.countUsers visited).1
  = (fun users => Z.of_nat (size users))
    <$> (list_to_map visited : gmap string (gset string))
  /\ (ActiveUsers.countUsers visited).2 = ⋃ visited.*2.
Proof.
  induction visited as [|[week users] visited IH] using rev_ind; intros Hnd.
  - split; [cbn; now rewrite fmap_empty|reflexivity].
  - rewrite fmap_app in Hnd. apply NoDup_app in Hnd as (Hnd & Hnot & _).
    destruct (IH Hnd) as [IH1 IH2].
    rewrite countUsers_snoc. cbn [fst snd]. split.
    + rewrite IH1, list_to_map_snoc, fmap_insert; [reflexivity|].
      intros Hin. apply (Hnot week Hin). cbn. apply list_elem_of_here.
    + rewrite IH2, fmap_app, union_list_app_L. cbn. set_solver.
Qed.

Lemma countUsers_spec (visited : list (string * gset string))
    (weekUsers : gmap string (gset string)) :
  visited ≡ₚ map_to_list weekUsers ->
  (ActiveUsers.countUsers visited).1
  = (fun users => Z.of_nat (size users)) <$> weekUsers
  /\ forall user,
       user ∈ (ActiveUsers.countUsers visited).2
       <-> exists week users, weekUsers !! week = Some users /\ user ∈ users.
Proof.
  intros Hperm.
  assert (Hnd : NoDup visited.*1)
    by (rewrite Hperm; apply NoDup_fst_map_to_list).
  destruct (countUsers_list visited Hnd) as [H1 H2]. split.
  - rewrite H1. f_equal.
    rewrite (list_to_map_proper visited (map_to_list weekUsers) Hnd Hperm).
    apply list_to_map_to_list.
  - intros user. rewrite H2, elem_of_union_list. split.
    + intros (users & Hin & Hu). rewrite Hperm in Hin.
      apply list_elem_of_fmap in Hin as ([week users'] & -> & Hin).
      apply elem_of_map_to_list in Hin. eauto.
    + intros (week & users & Hl & Hu). exists users. split; [|exact Hu].
      rewrite Hperm. apply list_elem_of_fmap. exists (week, users).
      split; [reflexivity|]. now apply elem_of_map_to_list.
Qed.

(** *** What the command prints *)

Lemma users_separator ws cw values out :
  length ws = 4%nat -> cw <> ""%string ->
  printSeparator cw (mkEnv (newWeeklyTable 20 10 ws) values out)
  = (Val tt, emit (mkEnv (newWeeklyTable 20 10 ws) values out) [rule80]).
Proof.
  intros Hl Hcw. rewrite printSeparator_run.
  unfold ruleWidth, columnsOf.
  cbn [self newWeeklyTable Table.weeks labelColWidth weekColWidth].
  rewrite Hl. apply String.eqb_neq in Hcw. rewrite Hcw.
  reflexivity.
Qed.

Lemma printTable_run weeks cw weekCounts allUsers out :
  length weeks = 4%nat -> cw <> ""%string ->
  ActiveUsers.printTable weeks cw weekCounts allUsers out
  = (Val tt,
     out ++ activeUsersReport (fun s => s) false weeks cw
              (GoMap.index weekCounts) (Z.of_nat (size allUsers))).
Proof.
  intros Hl Hcw. unfold ActiveUsers.printTable. cbv zeta.
  erewrite bind_val by (apply invoke_val, printHeader_run). cbv beta iota.
  erewrite bind_val by (apply invoke_val, users_separator; assumption).
  cbv beta iota.
  erewrite bind_val by (apply invoke_val, printRow_run). cbv beta iota.
  erewrite bind_val by (apply invoke_val, users_separator; assumption).
  cbv beta iota.
  rewrite Print_run. unfold activeUsersReport. cbn [self weekValues].
  now rewrite <- !app_assoc.
Qed.

Lemma printJSON_run quote weeks cw weekCounts allUsers out :
  ActiveUsers.printJSON quote weeks cw weekCounts allUsers out
  = (Val tt,
     out ++ activeUsersReport quote true weeks cw
              (GoMap.index weekCounts) (Z.of_nat (size allUsers))).
Proof.
  unfold ActiveUsers.printJSON, Json.PrintlnIndent. cbv zeta.
  rewrite Println_run_, output_loop. reflexivity.
Qed.

Lemma activeUsersReport_ext quote outputJSON weeks cw f g total :
  (forall key, key ∈ weeks \/ key = cw -> f key = g key) ->
  activeUsersReport quote outputJSON weeks cw f total
  = activeUsersReport quote outputJSON weeks cw g total.
Proof.
  intros H. unfold activeUsersReport. destruct outputJSON.
  - rewrite (H cw) by now right. do 5 f_equal.
    apply map_ext_in. intros week Hw. rewrite H; [reflexivity|].
    left. now apply list_elem_of_In.
  - cbv zeta. now rewrite (rowText_ext _ _ f g cw).
Qed.

Lemma table_ignores_quote quote weeks cw f total :
  activeUsersReport quote false weeks cw f total
  = activeUsersReport (fun s => s) false weeks cw f total.
Proof. reflexivity. Qed.

(** The users found by the loop that counts are those of the events that
    count for one of the five weeks. *)
Lemma allUsers_spec parse weeks cw items (allUsers : gset string) :
  (forall user,
     user ∈ allUsers
     <-> exists week users,
           fold_left (ActiveUsers.recordEvent parse) items
             (ActiveUsers.initWeekUsers weeks cw) !! week = Some users
           /\ user ∈ users) ->
  allUsers = usersWithin parse (cw :: weeks) items.
Proof.
  intros H. apply set_eq. intros user. rewrite H, usersWithin_elem. split.
  - intros (week & users & Hl & Hu). rewrite weekUsers_lookup in Hl.
    destruct (bool_decide_reflect (week ∈ cw :: weeks)) as [Hw|Hw];
      [|discriminate].
    injection Hl as <-. apply usersWithin_elem in Hu as (event & Hin & Hc & E).
    exists event. split; [exact Hin|]. split; [|exact E].
    now apply (countsFor_one parse week).
  - intros (event & Hin & Hc & E).
    apply countsFor_some in Hc as (week & Hw & Hc).
    exists week, (usersWithin parse [week] items). split.
    + rewrite weekUsers_lookup. now rewrite bool_decide_eq_true_2.
    + apply usersWithin_elem. eauto.
Qed.

(** X23. When the query succeeds and its output decodes,
    [runActiveUsers] returns no error and reports, for each of the last
    four weeks and for the current week, the number of distinct user
    names among the events of that week that name a user and have a
    timestamp that parses, and as total the number of distinct user names
    over these five weeks; this holds for every order in which the map of
    weeks is visited, for the table and for the JSON document. *)
Theorem active_users_counts_distinct_users
    (parse : string -> option Time) (quote : string -> string)
    (decode : string -> string + list ActiveUsers.auditEvent)
    (visit : gmap string (gset string) -> list (string * gset string))
    (now : Time) (path : string)
    (run : string -> list string -> ActiveUsers.QueryOutcome)
    (outputJSON : bool) (limit : Z) (output : string)
    (items : list ActiveUsers.auditEvent) (s : Cli.Streams) :
  (forall weekUsers, visit weekUsers ≡ₚ map_to_list weekUsers) ->
  run path (ActiveUsers.queryArgs limit) = ActiveUsers.Output output ->
  decode output = inr items ->
  let weeks := getLast4Weeks now in
  let currentWeek := getCurrentWeekStart now in
  ActiveUsers.runActiveUsers parse quote decode visit now (inr path) run
    outputJSON limit s
  = (Val None,
     Cli.mkStreams
       (Cli.out s
        ++ activeUsersReport quote outputJSON weeks currentWeek
             (fun week => Z.of_nat (size (usersWithin parse [week] items)))
             (Z.of_nat (size (usersWithin parse (currentWeek :: weeks) items))))
       (Cli.err s
        ++ ["Querying Datum Cloud audit logs for the last 4 weeks..." +:+ nl])).
Proof.
  intros Hvisit Hrun Hdecode weeks currentWeek.
  unfold ActiveUsers.runActiveUsers. fold weeks currentWeek.
  replace (Z.of_nat (length weeks) =? 0) with false
    by (unfold weeks; now rewrite getLast4Weeks_length).
  erewrite bind_val by apply Eprint_run.
  rewrite Hrun, Hdecode.
  set (weekUsers := fold_left _ items _).
  destruct (countUsers_spec (visit weekUsers) weekUsers (Hvisit weekUsers))
    as [Hcounts Hall].
  destruct (ActiveUsers.countUsers (visit weekUsers)) as [weekCounts allUsers].
  cbn [fst snd] in Hcounts, Hall.
  apply allUsers_spec in Hall. subst allUsers.
  assert (Hindex : forall key, key ∈ weeks \/ key = currentWeek ->
    GoMap.index weekCounts key
    = Z.of_nat (size (usersWithin parse [key] items))).
  { intros key Hkey. unfold GoMap.index. rewrite Hcounts, lookup_fmap.
    unfold weekUsers. rewrite weekUsers_lookup, bool_decide_eq_true_2;
      [reflexivity|].
    rewrite elem_of_cons. tauto. }
  assert (Hl : length weeks = 4%nat) by apply getLast4Weeks_length.
  assert (Hcw : currentWeek <> ""%string)
    by apply getCurrentWeekStart_nonempty.
  destruct outputJSON.
  - erewrite bind_val by (apply onStdout_run, printJSON_run).
    rewrite mret_run_. cbn [Cli.out Cli.err].
    now rewrite (activeUsersReport_ext _ _ _ _ _ _ _ Hindex).
  - erewrite bind_val by (apply onStdout_run, printTable_run; assumption).
    rewrite mret_run_. cbn [Cli.out Cli.err].
    rewrite <- (table_ignores_quote quote).
    now rewrite (activeUsersReport_ext _ _ _ _ _ _ _ Hindex).
Qed.

Lemma active_users_counts_distinct_users_witness :
  ActiveUsers.runActiveUsers Parse_2006_01_02 (fun s => s) sampleDecode
    map_to_list (Date 2024 3 20 0 0) (inr "/usr/bin/datumctl"%string)
    sampleRun false 0 (Cli.mkStreams [] [])
  = (Val None,
     Cli.mkStreams
       (Cli.out (Cli.mkStreams [] [])
        ++ activeUsersReport (fun s => s) false
             (getLast4Weeks (Date 2024 3 20 0 0))
             (getCurrentWeekStart (Date 2024 3 20 0 0))
             (fun week =>
                Z.of_nat (size (usersWithin Parse_2006_01_02 [week]
                                  sampleEvents)))
             (Z.of_nat
                (size (usersWithin Parse_2006_01_02
                         (getCurrentWeekStart (Date 2024 3 20 0 0)
                          :: getLast4Weeks (Date 2024 3 20 0 0))
                         sampleEvents))))
       (Cli.err (Cli.mkStreams [] [])
        ++ ["Querying Datum Cloud audit logs for the last 4 weeks..." +:+ nl])).
Proof.
  refine (active_users_counts_distinct_users Parse_2006_01_02 (fun s => s)
            sampleDecode map_to_list (Date 2024 3 20 0 0) "/usr/bin/datumctl"
            sampleRun false 0 "{}" sampleEvents (Cli.mkStreams [] []) _ _ _).
  - reflexivity.
  - reflexivity.
  - reflexivity.
Defined.

(** *** Bounds on the numbers *)

Lemma usersWithin_cons parse week weeks items :
  usersWithin parse (week :: weeks) items
  ⊆ usersWithin parse [week] items ∪ usersWithin parse weeks items.
Proof.
  intros user Hu. apply usersWithin_elem in Hu as (event & Hin & Hc & E).
  apply countsFor_some in Hc as (w & Hw & Hc).
  apply elem_of_union.
  apply elem_of_cons in Hw as [->|Hw].
  - left. apply usersWithin_elem. eauto.
  - right. apply usersWithin_elem. exists event.
    split; [exact Hin|]. split; [|exact E].
    now apply (countsFor_one parse w).
Qed.

Lemma usersWithin_size_sum parse weeks items :
  Z.of_nat (size (usersWithin parse weeks items))
  <= sumZ (List.map (fun week =>
             Z.of_nat (size (usersWithin parse [week] items))) weeks).
Proof.
  induction weeks as [|week weeks IH].
  - cbn. replace (usersWithin parse [] items) with (∅ : gset string).
    + now rewrite size_empty.
    + symmetry. apply set_eq. intros user. rewrite usersWithin_elem.
      split; [|intros H; now apply not_elem_of_empty in H].
      intros (event & _ & Hc & _).
      apply countsFor_some in Hc as (w & Hw & _).
      now apply elem_of_nil in Hw.
  - cbn [List.map]. change (sumZ (?y :: ?r)) with (y + sumZ r).
    pose proof (subseteq_size _ _ (usersWithin_cons parse week weeks items)).
    pose proof (size_union_alt (usersWithin parse [week] items)
                  (usersWithin parse weeks items)) as Hu.
    pose proof (subseteq_size
                  (usersWithin parse weeks items
                   ∖ usersWithin parse [week] items)
                  (usersWithin parse weeks items)
                  ltac:(set_solver)).
    lia.
Qed.

(** X24. In [runActiveUsers], no weekly count exceeds the total of unique
    users, and the total does not exceed the sum of the counts of the
    four weeks and of the current week. *)
Theorem total_unique_users_bounds
    (parse : string -> option Time)
    (visit : gmap string (gset string) -> list (string * gset string))
    (now : Time) (items : list ActiveUsers.auditEvent) :
  (forall weekUsers, visit weekUsers ≡ₚ map_to_list weekUsers) ->
  let weeks := getLast4Weeks now in
  let currentWeek := getCurrentWeekStart now in
  let weekUsers :=
    fold_left (ActiveUsers.recordEvent parse) items
      (ActiveUsers.initWeekUsers weeks currentWeek) in
  let weekCounts := (ActiveUsers.countUsers (visit weekUsers)).1 in
  let total := Z.of_nat (size (ActiveUsers.countUsers (visit weekUsers)).2) in
  (forall week, 0 <= GoMap.index weekCounts week <= total)
  /\ total
     <= GoMap.index weekCounts currentWeek
        + sumZ (List.map (GoMap.index weekCounts) weeks).
Proof.
  intros Hvisit weeks currentWeek weekUsers weekCounts total.
  destruct (countUsers_spec (visit weekUsers) weekUsers (Hvisit weekUsers))
    as [Hcounts Hall].
  apply allUsers_spec in Hall.
  fold weekCounts in Hcounts. subst total. rewrite Hall.
  assert (Hindex : forall key,
    GoMap.index weekCounts key
    = if bool_decide (key ∈ currentWeek :: weeks)
      then Z.of_nat (size (usersWithin parse [key] items)) else 0).
  { intros key. unfold GoMap.index. rewrite Hcounts, lookup_fmap.
    unfold weekUsers. rewrite weekUsers_lookup.
    now destruct (bool_decide _). }
  split.
  - intros week. rewrite Hindex.
    destruct (bool_decide_reflect (week ∈ currentWeek :: weeks)) as [Hw|Hw];
      [|lia].
    split; [lia|]. apply inj_le, subseteq_size.
    intros user Hu. apply usersWithin_elem in Hu as (event & Hin & Hc & E).
    apply usersWithin_elem. exists event. split; [exact Hin|].
    split; [|exact E]. now apply (countsFor_one parse week).
  - pose proof (usersWithin_size_sum parse (currentWeek :: weeks) items) as H.
    cbn [List.map] in H. change (sumZ (?y :: ?r)) with (y + sumZ r) in H.
    rewrite Hindex, bool_decide_eq_true_2 by apply list_elem_of_here.
    rewrite (map_ext_in (GoMap.index weekCounts)
               (fun week => Z.of_nat (size (usersWithin parse [week] items))));
      [exact H|].
    intros week Hw. rewrite Hindex, bool_decide_eq_true_2; [reflexivity|].
    apply list_elem_of_further. now apply list_elem_of_In.
Qed.

Lemma total_unique_users_bounds_witness :
  Z.of_nat
    (size (ActiveUsers.countUsers
             (map_to_list
                (fold_left (ActiveUsers.recordEvent Parse_2006_01_02)
                   sampleEvents
                   (ActiveUsers.initWeekUsers
                      (getLast4Weeks (Date 2024 3 20 0 0))
                      (getCurrentWeekStart (Date 2024 3 20 0 0)))))).2)
  <= GoMap.index
       (ActiveUsers.countUsers
          (map_to_list
             (fold_left (ActiveUsers.recordEvent Parse_2006_01_02)
                sampleEvents
                (ActiveUsers.initWeekUsers
                   (getLast4Weeks (Date 2024 3 20 0 0))
                   (getCurrentWeekStart (Date 2024 3 20 0 0)))))).1
       (getCurrentWeekStart (Date 2024 3 20 0 0))
     + sumZ (List.map
               (GoMap.index
                  (ActiveUsers.countUsers
                     (map_to_list
                        (fold_left
                           (ActiveUsers.recordEvent Parse_2006_01_02)
                           sampleEvents
                           (ActiveUsers.initWeekUsers
                              (getLast4Weeks (Date 2024 3 20 0 0))
                              (getCurrentWeekStart
                                 (Date 2024 3 20 0 0)))))).1)
               (getLast4Weeks (Date 2024 3 20 0 0))).
Proof.
  refine (proj2 (total_unique_users_bounds Parse_2006_01_02 map_to_list
                   (Date 2024 3 20 0 0) sampleEvents _)).
  reflexivity.
Defined.

(** *** Failures *)

(** X25. [runActiveUsers] never panics; it returns no error exactly when
    [datumctl] is found, the query gives output and the output decodes;
    when it returns an error it prints nothing to standard output, and
    when [datumctl] is not found it writes nothing at all. *)
Theorem active_users_fails_without_output
    (parse : string -> option Time) (quote : string -> string)
    (decode : string -> string + list ActiveUsers.auditEvent)
    (visit : gmap string (gset string) -> list (string * gset string))
    (now : Time) (datumctl : string + string)
    (run : string -> list string -> ActiveUsers.QueryOutcome)
    (outputJSON : bool) (limit : Z) (s : Cli.Streams) :
  exists result s',
    ActiveUsers.runActiveUsers parse quote decode visit now datumctl run
      outputJSON limit s
    = (Val result, s')
    /\ (result = None
        <-> exists path output items,
              datumctl = inr path
              /\ run path (ActiveUsers.queryArgs limit)
                 = ActiveUsers.Output output
              /\ decode output = inr items)
    /\ (result <> None -> Cli.out s' = Cli.out s)
    /\ (forall message, datumctl = inl message -> s' = s).
Proof.
  unfold ActiveUsers.runActiveUsers.
  destruct datumctl as [message|path].
  { exists (Some message), s. rewrite mret_run_.
    split; [reflexivity|]. split; [|split; [reflexivity|reflexivity]].
    split; [discriminate|]. intros (p & o & i & H & _). discriminate. }
  replace (Z.of_nat (length (getLast4Weeks now)) =? 0) with false
    by now rewrite getLast4Weeks_length.
  erewrite bind_val by apply Eprint_run.
  destruct (run path (ActiveUsers.queryArgs limit)) as [output|stderr|err]
    eqn:Hrun.
  - destruct (decode output) as [err|items] eqn:Hdecode.
    + eexists _, _. rewrite mret_run_. split; [reflexivity|].
      split; [|split; [reflexivity|discriminate]].
      split; [discriminate|].
      intros (p & o & i & Hp & Ho & Hi). injection Hp as <-.
      rewrite Hrun in Ho. injection Ho as <-. congruence.
    + destruct (ActiveUsers.countUsers _) as [weekCounts allUsers].
      exists None. destruct outputJSON.
      * erewrite bind_val by (apply onStdout_run, printJSON_run).
        eexists. rewrite mret_run_. split; [reflexivity|].
        split; [|split; [congruence|discriminate]].
        split; [|reflexivity]. intros _. now exists path, output, items.
      * erewrite bind_val
          by (apply onStdout_run, printTable_run;
              [apply getLast4Weeks_length
              |apply getCurrentWeekStart_nonempty]).
        eexists. rewrite mret_run_. split; [reflexivity|].
        split; [|split; [congruence|discriminate]].
        split; [|reflexivity]. intros _. now exists path, output, items.
  - destruct (_ || _); eexists _, _; rewrite mret_run_;
      (split; [reflexivity|]);
      (split; [|split; [reflexivity|discriminate]]);
      (split; [discriminate|]);
      intros (p & o & i & Hp & Ho & Hi); injection Hp as <-; congruence.
  - eexists _, _. rewrite mret_run_. split; [reflexivity|].
    split; [|split; [reflexivity|discriminate]].
    split; [discriminate|].
    intros (p & o & i & Hp & Ho & Hi). injection Hp as <-. congruence.
Qed.

(** ** The stars command *)

Lemma starsLoop_run rows : forall total out,
  foldM (fun total repo =>
      Print (Stars.line (Stars.Name repo) (Stars.StargazersCount repo));;
      mret (GoInt.add total (Stars.StargazersCount repo))) total rows out
  = (Val (GoInt.sumFrom total (List.map Stars.StargazersCount rows)),
     out ++ List.map (fun repo =>
              Stars.line (Stars.Name repo) (Stars.StargazersCount repo)) rows).
Proof.
  induction rows as [|repo rows IH]; intros total out.
  - cbn. now rewrite app_nil_r.
  - cbn [foldM]. erewrite bind_val.
    2:{ erewrite bind_val by apply Print_run. apply mret_run_. }
    rewrite IH. cbn [List.map]. now rewrite <- app_assoc.
Qed.

Lemma printStars_run now rows out :
  Stars.printStars now rows out = (Val tt, out ++ starsText now rows).
Proof.
  unfold Stars.printStars.
  erewrite bind_val by apply Print_run.
  change (Repeat "=" 62) with (Some (Digits.repeat "=" 62)).
  cbn [orPanic].
  erewrite bind_val by apply mret_run_.
  erewrite bind_val by apply Println_run_.
  erewrite bind_val by apply starsLoop_run.
  erewrite bind_val by apply mret_run_.
  erewrite bind_val by apply Println_run_.
  rewrite Print_run. unfold starsText, rule62.
  rewrite <- !app_assoc. reflexivity.
Qed.

Lemma sorted_rows ToLower sortAlpha repos :
  StronglySorted (rowOrder ToLower sortAlpha)
    (if sortAlpha then sortBy (Stars.byName ToLower) repos
     else sortBy Stars.byStars repos).
Proof.
  destruct sortAlpha; (eapply sorted_weaken; [|apply sortBy_sorted]).
  - intros a b H. unfold inOrder, Stars.byName in H. apply ltb_false in H.
    unfold rowOrder. destruct H as [H|H]; [left; congruence|tauto].
  - intros a b H. unfold Stars.byName in *. apply ltb_false. right.
    now apply ltb_before.
  - unfold inOrder, Stars.byName. intros a b c Hab Hbc.
    apply ltb_false in Hab, Hbc. apply ltb_false.
    destruct Hab as [Hab|Hab]; [now rewrite <- Hab|].
    destruct Hbc as [Hbc|Hbc]; [rewrite Hbc in *; now right|].
    right. now apply (before_trans _ (ToLower (Stars.Name b))).
  - intros a b H. unfold inOrder, Stars.byStars in H. unfold rowOrder. lia.
  - intros a b H. unfold Stars.byStars in *. lia.
  - unfold inOrder, Stars.byStars. intros a b c Hab Hbc. lia.
Qed.

(** X26. With a token and a non-empty list of repositories, fetched for
    the organization or, when that fails, for the user, [runStars] prints
    one row per repository, ordered by lower-cased name with [--sort] and
    by star count without, and a total that is the sum of the star
    counts (as a Go [int]) whatever the order. *)
Theorem stars_table_rows_and_total
    (ToLower : string -> string) (now : Time) (token : string)
    (fetch : string -> string + list Stars.githubRepo) (sortAlpha : bool)
    (target : string) (repos : list Stars.githubRepo) (s : Cli.Streams) :
  token <> ""%string ->
  (fetch "orgs"%string = inr repos
   \/ (exists message, fetch "orgs"%string = inl message)
      /\ fetch "users"%string = inr repos) ->
  repos <> [] ->
  exists rows,
    Stars.runStars ToLower now token fetch sortAlpha target s
    = (Val None,
       Cli.mkStreams (Cli.out s ++ starsText now rows)
         (Cli.err s ++ ["Fetching repositories for " +:+ target +:+ "..."
                        +:+ nl]))
    /\ rows ≡ₚ repos
    /\ StronglySorted (rowOrder ToLower sortAlpha) rows
    /\ GoInt.sumFrom 0 (List.map Stars.StargazersCount rows)
       = GoInt.wrap (sumZ (List.map Stars.StargazersCount repos)).
Proof.
  intros Htoken Hfetch Hrepos.
  exists (if sortAlpha then sortBy (Stars.byName ToLower) repos
          else sortBy Stars.byStars repos).
  assert (Hperm : (if sortAlpha then sortBy (Stars.byName ToLower) repos
                   else sortBy Stars.byStars repos) ≡ₚ repos)
    by (destruct sortAlpha; apply sortBy_perm).
  split; [|split; [exact Hperm|split; [apply sorted_rows|]]].
  - unfold Stars.runStars.
    apply String.eqb_neq in Htoken. rewrite Htoken.
    erewrite bind_val by apply Eprint_run.
    replace (match fetch "orgs"%string with
             | inl _ => fetch "users"%string
             | inr repos0 => inr repos0
             end) with (inr repos : string + list Stars.githubRepo).
    2:{ destruct Hfetch as [->|[[message ->] ->]]; reflexivity. }
    replace (Z.of_nat (length repos) =? 0) with false
      by (destruct repos; [contradiction|reflexivity]).
    erewrite bind_val by (apply onStdout_run, printStars_run).
    apply mret_run_.
  - rewrite sumFrom_total. f_equal. apply total_perm.
    now apply Permutation_map.
Qed.

Lemma stars_table_rows_and_total_witness :
  exists rows,
    Stars.runStars (fun s => s) (Date 2024 3 20 34200 0) "token" fetchUser
      false "datum-cloud" (Cli.mkStreams [] [])
    = (Val None,
       Cli.mkStreams
         (Cli.out (Cli.mkStreams [] [])
          ++ starsText (Date 2024 3 20 34200 0) rows)
         (Cli.err (Cli.mkStreams [] [])
          ++ ["Fetching repositories for " +:+ "datum-cloud" +:+ "..."
              +:+ nl]))
    /\ rows ≡ₚ sampleRepos
    /\ StronglySorted (rowOrder (fun s => s) false) rows
    /\ GoInt.sumFrom 0 (List.map Stars.StargazersCount rows)
       = GoInt.wrap (sumZ (List.map Stars.StargazersCount sampleRepos)).
Proof.
  refine (stars_table_rows_and_total (fun s => s) (Date 2024 3 20 34200 0)
            "token" fetchUser false "datum-cloud" sampleRepos
            (Cli.mkStreams [] []) _ _ _).
  - discriminate.
  - right. split; [now exists "not found"%string|reflexivity].
  - discriminate.
Defined.


(** *** The width of the lines *)

(** X28. A row of the stars table whose name is well-formed UTF-8 and
    whose name and count fit their columns is 61 runes wide, one less
    than the rule of 62 that frames the rows. *)
Theorem stars_rows_narrower_than_rule (label : string) (count : Z) :
  ValidString label = true ->
  runeCount label <= 50 -> runeCount (itoa count) <= 10 ->
  runeCount (Stars.line label count) = 61 + runeCount nl
  /\ runeCount rule62 = 62 + runeCount nl.
Proof.
  intros Hv Hl Hc.
  assert (Hcount : ValidString (pad false 10 (itoa count)) = true)
    by apply ValidString_pad, ValidString_itoa.
  assert (Hname : ValidString (pad true 50 label) = true)
    by now apply ValidString_pad.
  split.
  - unfold Stars.line.
    rewrite (runeCount_append (pad true 50 label)) by
      (try assumption; repeat apply ValidString_append;
       assumption || reflexivity).
    rewrite (runeCount_append " ") by
      (try reflexivity; now apply ValidString_append).
    rewrite (runeCount_append (pad false 10 (itoa count))) by
      (assumption || reflexivity).
    rewrite !runeCount_pad by (assumption || apply ValidString_itoa).
    change (runeCount " ") with 1. lia.
  - unfold rule62. rewrite runeCount_append
      by (reflexivity || now apply asciiOnly_valid, asciiOnly_repeat).
    rewrite asciiOnly_runeCount by now apply asciiOnly_repeat.
    rewrite length_repeat_byte. lia.
Qed.

Lemma stars_rows_narrower_than_rule_witness :
  runeCount (Stars.line "scorecard" 12) = 61 + runeCount nl
  /\ runeCount rule62 = 62 + runeCount nl.
Proof.
  refine (stars_rows_narrower_than_rule "scorecard" 12 _ _ _).
  - reflexivity.
  - vm_compute. discriminate.
  - vm_compute. discriminate.
Defined.
